(** * Verification of the Flask route layer of the AI podcast service

    Source: [backend/app.py].  The route handlers are embedded as pure
    functions that return the ordered list of observable effects they
    perform (files written, helper modules called, SSE events yielded)
    together with their outcome.

    Modelling conventions
    - A Python [str] is a Rocq [string] holding its UTF-8 bytes.
    - A Python [dict] built by the handler is an association list in
      insertion order; the dicts returned by the helper modules are records
      whose optional keys are [option] fields.
    - The helper modules [config], [content_parser], [voice_manager] and
      [podcast_generator], and werkzeug's [secure_filename], are the
      operations of the class [Backend]: the handlers are verified for every
      implementation of them.  A helper either returns or raises
      ([result]); the podcast stream is a finite list of events optionally
      cut short by an exception.
    - [FileStorage.save] is the operation [write_file] of the same class:
      it writes the file, which is the effect [Save], or raises (a
      directory that does not exist, a disk that is full) and leaves no
      effect.
    - [logger] calls are not recorded.
    - A generator is run to exhaustion by its consumer. *)

From Stdlib Require Import String Ascii List Bool NArith ZArith Lia.
From Stdlib Require Import DecimalString.
Import ListNotations.
Open Scope string_scope.
Open Scope list_scope.

Set Implicit Arguments.

(* ================================================================== *)
(** ** Python built-ins used by [app.py] *)
(* ================================================================== *)

Module Py.

(** [x or default] on strings / [if s:] *)
Definition truthy (s : string) : bool :=
  match s with EmptyString => false | _ => true end.

Definition str_of_bytes (l : list nat) : string :=
  string_of_list_ascii (map ascii_of_nat l).

(** The characters [str.strip()] removes: every code point for which
    [str.isspace()] holds, written as UTF-8 byte sequences. *)
Definition whitespace : list string :=
  map str_of_bytes
    [ [9]; [10]; [11]; [12]; [13]; [28]; [29]; [30]; [31]; [32];
      [194; 133]; [194; 160]; [225; 154; 128];
      [226; 128; 128]; [226; 128; 129]; [226; 128; 130]; [226; 128; 131];
      [226; 128; 132]; [226; 128; 133]; [226; 128; 134]; [226; 128; 135];
      [226; 128; 136]; [226; 128; 137]; [226; 128; 138];
      [226; 128; 168]; [226; 128; 169]; [226; 128; 175];
      [226; 129; 159]; [227; 128; 128] ].

Fixpoint drop_prefix (p s : string) : option string :=
  match p, s with
  | EmptyString, _ => Some s
  | String a p', String b s' =>
      if Ascii.eqb a b then drop_prefix p' s' else None
  | String _ _, EmptyString => None
  end.

Fixpoint first_match (ps : list string) (s : string) : option string :=
  match ps with
  | [] => None
  | p :: ps' =>
      match drop_prefix p s with
      | Some r => Some r
      | None => first_match ps' s
      end
  end.

Fixpoint lstrip_fuel (ws : list string) (fuel : nat) (s : string) : string :=
  match fuel with
  | O => s
  | S k =>
      match first_match ws s with
      | Some r => lstrip_fuel ws k r
      | None => s
      end
  end.

Definition rev_string (s : string) : string :=
  string_of_list_ascii (rev (list_ascii_of_string s)).

Definition lstrip (s : string) : string :=
  lstrip_fuel whitespace (String.length s) s.

Definition rstrip (s : string) : string :=
  rev_string
    (lstrip_fuel (map rev_string whitespace) (String.length s) (rev_string s)).

(** [s.strip()] *)
Definition strip (s : string) : string := rstrip (lstrip s).

(** [s.lower()] on the ASCII letters.  Bytes of non-ASCII characters are
    left alone; no code point outside ASCII lowercases to a letter of the
    extensions in [ALLOWED_AUDIO_EXTENSIONS] or [ALLOWED_PDF_EXTENSIONS], so
    the membership tests of [allowed_file] are not affected. *)
Definition lower_ascii (c : ascii) : ascii :=
  let n := nat_of_ascii c in
  if andb (Nat.leb 65 n) (Nat.leb n 90) then ascii_of_nat (n + 32) else c.

Fixpoint lower (s : string) : string :=
  match s with
  | EmptyString => EmptyString
  | String c r => String (lower_ascii c) (lower r)
  end.

(** ['.' in s] *)
Fixpoint contains_char (c : ascii) (s : string) : bool :=
  match s with
  | EmptyString => false
  | String a r => orb (Ascii.eqb a c) (contains_char c r)
  end.

(** Splitting at the last occurrence of [c]; [None] when [c] is absent. *)
Fixpoint split_last (c : ascii) (s : string) : option (string * string) :=
  match s with
  | EmptyString => None
  | String a r =>
      match split_last c r with
      | Some (u, v) => Some (String a u, v)
      | None => if Ascii.eqb a c then Some (EmptyString, r) else None
      end
  end.

(** [s.rsplit(c, 1)] *)
Definition rsplit1 (c : ascii) (s : string) : list string :=
  match split_last c s with
  | Some (u, v) => [u; v]
  | None => [s]
  end.

(** [x in allowed] for a set of strings *)
Definition mem (x : string) (l : list string) : bool :=
  existsb (String.eqb x) l.

(** [len(s)]: the number of code points, that is of bytes that are not
    UTF-8 continuation bytes. *)
Definition is_continuation (c : ascii) : bool :=
  let n := nat_of_ascii c in andb (Nat.leb 128 n) (Nat.ltb n 192).

Fixpoint len (s : string) : nat :=
  match s with
  | EmptyString => 0
  | String c r => if is_continuation c then len r else S (len r)
  end.

(** [str(n)] for a natural number *)
Definition str_of_N (n : N) : string := NilZero.string_of_uint (N.to_uint n).

Definition starts_with (p s : string) : bool := String.prefix p s.

Definition ends_with (p s : string) : bool :=
  String.prefix (rev_string p) (rev_string s).

(** [os.path.join(a, b)] (posixpath, two arguments) *)
Definition path_join (a b : string) : string :=
  if starts_with "/" b then b
  else if orb (negb (truthy a)) (ends_with "/" a) then a ++ b
  else a ++ "/" ++ b.

(** [d.get(k)] on an insertion-ordered dict / [MultiDict] *)
Fixpoint get {V : Type} (k : string) (d : list (string * V)) : option V :=
  match d with
  | [] => None
  | (k', v) :: d' => if String.eqb k k' then Some v else get k d'
  end.

(** [d.get(k, default)] *)
Definition get_default {V : Type} (k : string) (default : V)
    (d : list (string * V)) : V :=
  match get k d with Some v => v | None => default end.

(** [if x:] for a variable that is [None] or a string *)
Definition if_set (o : option string) : option string :=
  match o with
  | Some s => if truthy s then Some s else None
  | None => None
  end.

(** [f"{x}"] for a variable that is [None] or a string *)
Definition fmt (o : option string) : string :=
  match o with Some s => s | None => "None" end.

End Py.

(* ================================================================== *)
(** ** Data *)
(* ================================================================== *)

(** Values handed to [json.dumps] / [jsonify]. *)
#[local] Set Warnings "-register-all".
Inductive json : Type :=
| JNull
| JBool (b : bool)
| JNum (n : Z)
| JStr (s : string)
| JArr (l : list json)
| JObj (kv : list (string * json)).

(** The ['type'] entry of an event, when the event is an object that has
    one. *)
Definition event_type (e : json) : option json :=
  match e with
  | JObj kv => Py.get "type" kv
  | _ => None
  end.

(** Python truthiness of a JSON-like value *)
Definition json_truthy (v : json) : bool :=
  match v with
  | JNull => false
  | JBool b => b
  | JNum n => negb (Z.eqb n 0)
  | JStr s => Py.truthy s
  | JArr l => match l with [] => false | _ => true end
  | JObj kv => match kv with [] => false | _ => true end
  end.

Definition json_of_opt (o : option string) : json :=
  match o with Some s => JStr s | None => JNull end.

(** A werkzeug [FileStorage]: the client's file name and the bytes. *)
Record upload : Type := { filename : string; content : string }.

(** [bool(file)] is [bool(file.filename)] *)
Definition file_truthy (f : upload) : bool := Py.truthy (filename f).

(** The parts of a Flask [request] the handlers read. *)
Record request : Type := {
  form : list (string * string);
  files : list (string * upload);
  json_body : option (list (string * string))
}.

(** A speaker configuration dict, e.g.
    [{"type": "default", "voice_name": "mini"}]. *)
Definition config : Type := list (string * string).

(** What a helper call does: return a value or raise an [Exception] whose
    [str(e)] is [msg]. *)
Inductive result (A : Type) : Type :=
| Ok (a : A)
| Raise (msg : string).
Arguments Raise {A} msg.

(** The dict returned by [content_parser.parse_pdf] and [parse_url]. *)
Record parse_result : Type := {
  pr_success : bool;
  pr_content : string;
  pr_logs : list string;
  pr_error : option string;
  pr_error_code : option string
}.

(** The dict returned by [voice_manager.prepare_voices]. *)
Record voices_result : Type := {
  vr_success : bool;
  vr_error : option string;
  vr_logs : list string;
  vr_trace_ids : option (list (string * json));
  vr_speaker1 : option string;
  vr_speaker2 : option string
}.

(** The events [podcast_generator.generate_podcast_stream] yields, and the
    exception that ends the iteration early, if any. *)
Definition stream : Type := (list json * option string)%type.

(** The modules [app.py] imports. *)
Class Backend : Type := {
  UPLOAD_DIR : string;
  MINIMAX_API_KEY : string;
  secure_filename : string -> string;
  path_exists : string -> bool;
  write_file : string -> upload -> result unit;
  parse_pdf : string -> result parse_result;
  parse_url : string -> result parse_result;
  merge_contents : string -> string -> string -> result string;
  prepare_voices : config -> config -> string -> result voices_result;
  generate_podcast_stream :
    string -> string -> string -> string -> string -> stream
}.

(* ================================================================== *)
(** ** Effects *)
(* ================================================================== *)

Inductive effect : Type :=
| Save (path : string) (f : upload)
| Yield (e : json)
| ParsePdf (path : string)
| ParseUrl (url : string)
| MergeContents (text_input url_content pdf_content : string)
| PrepareVoices (speaker1 speaker2 : config) (api_key : string)
| PodcastStream (content speaker1_voice_id speaker2_voice_id
                 session_id api_key : string).

(** How a block of statements ends: it falls through with a value, executes
    [return], or raises. *)
Inductive outcome (R A : Type) : Type :=
| Next (a : A)
| Return (r : R)
| Raised (msg : string).
Arguments Next {R A} a.
Arguments Return {R A} r.
Arguments Raised {R A} msg.

(** A block: the effects it performs, in order, and how it ends. *)
Definition M (R A : Type) : Type := (list effect * outcome R A)%type.

Definition ret {R A} (a : A) : M R A := ([], Next a).

Definition bind {R A B} (m : M R A) (k : A -> M R B) : M R B :=
  match m with
  | (t, Next a) => let (t', o) := k a in (t ++ t', o)
  | (t, Return r) => (t, Return r)
  | (t, Raised msg) => (t, Raised msg)
  end.

Declare Scope block_scope.
Delimit Scope block_scope with block.
Notation "x <- m ;; k" := (bind m (fun x => k))
  (at level 61, m at next level, right associativity) : block_scope.
Notation "' p <- m ;; k" := (bind m (fun x => match x with p => k end))
  (at level 61, p pattern, m at next level, right associativity)
  : block_scope.
Notation "m ;; k" := (bind m (fun _ => k))
  (at level 61, right associativity) : block_scope.
Open Scope block_scope.

Definition return_ {R A} (r : R) : M R A := ([], Return r).
Definition raise {R A} (msg : string) : M R A := ([], Raised msg).
Definition yield {R} (e : json) : M R unit := ([Yield e], Next tt).

(** [f.save(path)]: the file is written, or the write raises and nothing
    is recorded. *)
Definition save {B : Backend} {R} (path : string) (f : upload) : M R unit :=
  match write_file path f with
  | Ok _ => ([Save path f], Next tt)
  | Raise msg => ([], Raised msg)
  end.

(** A call into a helper module, recorded as [c]. *)
Definition call {R A} (c : effect) (r : result A) : M R A :=
  ([c], match r with Ok a => Next a | Raise msg => Raised msg end).

(** [d[key]] on an optional entry: [KeyError] when it is absent. *)
Definition item {R A} (key : string) (o : option A) : M R A :=
  match o with
  | Some a => ret a
  | None => raise ("'" ++ key ++ "'")
  end.

(** [for x in l: body] *)
Fixpoint for_each {R A} (l : list A) (body : A -> M R unit) : M R unit :=
  match l with
  | [] => ret tt
  | x :: l' => body x ;; for_each l' body
  end.

(** [for event in s: body], for an iterator that may raise *)
Definition for_stream {R} (s : stream) (body : json -> M R unit) : M R unit :=
  for_each (fst s) body ;;
  match snd s with
  | None => ret tt
  | Some msg => raise msg
  end.

(** [try: body except Exception as e: handler] *)
Definition try_except {R A} (body : M R A) (handler : string -> M R A)
    : M R A :=
  match body with
  | (t, Raised msg) => let (t', o) := handler msg in (t ++ t', o)
  | _ => body
  end.

(** The effects of a run. *)
Definition trace {R A} (m : M R A) : list effect := fst m.

(** The events a run yields, in order. *)
Fixpoint yields (t : list effect) : list json :=
  match t with
  | [] => []
  | Yield e :: t' => e :: yields t'
  | _ :: t' => yields t'
  end.

(** The files a run writes, in order. *)
Fixpoint saves (t : list effect) : list (string * upload) :=
  match t with
  | [] => []
  | Save p f :: t' => (p, f) :: saves t'
  | _ :: t' => saves t'
  end.

(* ================================================================== *)
(** ** [app.py] *)
(* ================================================================== *)

Definition ALLOWED_AUDIO_EXTENSIONS : list string :=
  ["wav"; "mp3"; "flac"; "m4a"; "ogg"].
Definition ALLOWED_PDF_EXTENSIONS : list string := ["pdf"].

(** [return '.' in filename and
            filename.rsplit('.', 1)[1].lower() in allowed_extensions] *)
Definition allowed_file (filename : string) (allowed_extensions : list string)
    : bool :=
  if Py.contains_char "." filename then
    match nth_error (Py.rsplit1 "." filename) 1 with
    | Some ext => Py.mem (Py.lower ext) allowed_extensions
    | None => false
    end
  else false.

(** The event dicts the handlers build. *)
Definition progress_event (step message : string) : json :=
  JObj [("type", JStr "progress"); ("step", JStr step);
        ("message", JStr message)].
Definition log_event (message : string) : json :=
  JObj [("type", JStr "log"); ("message", JStr message)].
Definition error_event (message : string) : json :=
  JObj [("type", JStr "error"); ("message", JStr message)].
Definition url_parse_warning_event (message error_code : string) : json :=
  JObj [("type", JStr "url_parse_warning"); ("message", JStr message);
        ("error_code", JStr error_code)].
Definition trace_id_event (api : string) (trace_id : json) : json :=
  JObj [("type", JStr "trace_id"); ("api", JStr api);
        ("trace_id", trace_id)].

(** The sentinel [generate] compares the merged content with. *)
Definition NO_CONTENT : string := "没有可用的内容".

(** The variables of [generate_podcast] that the nested generator
    [generate] closes over. *)
Record closure : Type := {
  session_id : string;
  user_api_key : string;
  text_input : string;
  url_input : string;
  pdf_file : option string;
  pdf_path : option string;
  speaker1_type : string;
  speaker1_voice_name : string;
  speaker1_audio_path : option string;
  speaker2_type : string;
  speaker2_voice_name : string;
  speaker2_audio_path : option string
}.

Section App.

Context {B : Backend}.

(** Lines 133-145: the PDF part of step 1; the value is [pdf_content]. *)
Definition parse_pdf_step (c : closure) : M unit string :=
  match Py.if_set (pdf_path c) with
  | Some path =>
      yield (log_event ("已上传 PDF: " ++ Py.fmt (pdf_file c))) ;;
      pdf_result <- call (ParsePdf path) (parse_pdf path) ;;
      if pr_success pdf_result then
        for_each (pr_logs pdf_result) (fun log => yield (log_event log)) ;;
        ret (pr_content pdf_result)
      else
        error <- item "error" (pr_error pdf_result) ;;
        yield (error_event error) ;;
        return_ tt
  | None => ret ""
  end.

(** Lines 147-163: the URL part of step 1; the value is [url_content].  A
    failed parse is reported and the block falls through. *)
Definition parse_url_step (c : closure) : M unit string :=
  if Py.truthy (url_input c) then
    yield (log_event ("开始解析网址: " ++ url_input c)) ;;
    url_result <- call (ParseUrl (url_input c)) (parse_url (url_input c)) ;;
    if pr_success url_result then
      for_each (pr_logs url_result) (fun log => yield (log_event log)) ;;
      ret (pr_content url_result)
    else
      let error_code :=
        match pr_error_code url_result with
        | Some code => code
        | None => "unknown"
        end in
      error <- item "error" (pr_error url_result) ;;
      yield (url_parse_warning_event error error_code) ;;
      for_each (pr_logs url_result) (fun log => yield (log_event log)) ;;
      ret ""
  else ret "".

(** Lines 165-172: merging; the value is [merged_content]. *)
Definition merge_step (c : closure) (url_content pdf_content : string)
    : M unit string :=
  merged_content <-
    call (MergeContents (text_input c) url_content pdf_content)
         (merge_contents (text_input c) url_content pdf_content) ;;
  if orb (negb (Py.truthy merged_content))
         (String.eqb merged_content NO_CONTENT) then
    yield (error_event "请至少提供一种输入内容（文本/网址/PDF）") ;;
    return_ tt
  else
    yield (log_event ("内容解析完成，共 "
                      ++ Py.str_of_N (N.of_nat (Py.len merged_content))
                      ++ " 字符")) ;;
    ret merged_content.

(** Lines 177-201, once per speaker: the value is the speaker's config. *)
Definition speaker_config_step (label speaker_type speaker_voice_name : string)
    (speaker_audio_path : option string) : M unit config :=
  let speaker_config := [("type", speaker_type)] in
  if String.eqb speaker_type "default" then
    ret (speaker_config ++ [("voice_name", speaker_voice_name)])
  else if String.eqb speaker_type "custom" then
    match Py.if_set speaker_audio_path with
    | Some path =>
        yield (log_event (label ++ " 音频已上传")) ;;
        ret (speaker_config ++ [("audio_file", path)])
    | None =>
        yield (error_event (label ++ " 选择自定义音色但未上传音频文件")) ;;
        return_ tt
    end
  else ret speaker_config.

(** Lines 203-220: voice preparation; the value is the pair of voice ids. *)
Definition prepare_voices_step (c : closure)
    (speaker1_config speaker2_config : config) : M unit (string * string) :=
  voices_result <-
    call (PrepareVoices speaker1_config speaker2_config (user_api_key c))
         (prepare_voices speaker1_config speaker2_config (user_api_key c)) ;;
  if negb (vr_success voices_result) then
    error <- item "error" (vr_error voices_result) ;;
    yield (error_event error) ;;
    return_ tt
  else
    for_each (vr_logs voices_result) (fun log => yield (log_event log)) ;;
    for_each
      (match vr_trace_ids voices_result with Some d => d | None => [] end)
      (fun kv =>
         if json_truthy (snd kv) then yield (trace_id_event (fst kv) (snd kv))
         else ret tt) ;;
    speaker1_voice_id <- item "speaker1" (vr_speaker1 voices_result) ;;
    speaker2_voice_id <- item "speaker2" (vr_speaker2 voices_result) ;;
    ret (speaker1_voice_id, speaker2_voice_id).

(** Lines 222-230: the podcast generator's events are forwarded as they
    are. *)
Definition podcast_step (c : closure) (merged_content : string)
    (voice_ids : string * string) : M unit unit :=
  let events :=
    generate_podcast_stream merged_content (fst voice_ids) (snd voice_ids)
                            (session_id c) (user_api_key c) in
  call (PodcastStream merged_content (fst voice_ids) (snd voice_ids)
                      (session_id c) (user_api_key c))
       (Ok tt) ;;
  for_stream events (fun event => yield event).

(** Step 1 (lines 130-172): the value is [merged_content]. *)
Definition content_steps (c : closure) : M unit string :=
  yield (progress_event "parsing_content" "正在解析输入内容...") ;;
  pdf_content <- parse_pdf_step c ;;
  url_content <- parse_url_step c ;;
  merge_step c url_content pdf_content.

(** Step 2 up to the call of the voice manager (lines 174-201): the value
    is [(speaker1_config, speaker2_config)]. *)
Definition config_steps (c : closure) : M unit (config * config) :=
  yield (progress_event "preparing_voices" "正在准备音色...") ;;
  speaker1_config <-
    speaker_config_step "Speaker1" (speaker1_type c) (speaker1_voice_name c)
                        (speaker1_audio_path c) ;;
  speaker2_config <-
    speaker_config_step "Speaker2" (speaker2_type c) (speaker2_voice_name c)
                        (speaker2_audio_path c) ;;
  ret (speaker1_config, speaker2_config).

(** The [try] block of [generate] (lines 130-230). *)
Definition generate_body (c : closure) : M unit unit :=
  merged_content <- content_steps c ;;
  configs <- config_steps c ;;
  voice_ids <- prepare_voices_step c (fst configs) (snd configs) ;;
  podcast_step c merged_content voice_ids.

(** [generate]: the [try] block and its [except Exception as e] clause
    (lines 232-234). *)
Definition generate (c : closure) : M unit unit :=
  try_except (generate_body c)
    (fun e => yield (error_event ("播客生成失败: " ++ e))).

(** [error_gen] (lines 84-88) *)
Definition error_gen : M unit unit :=
  yield (error_event "未提供 API Key").

(** Lines 95-104: the PDF slot.  The value is [(pdf_file, pdf_path)]. *)
Definition pdf_upload_step (req : request) (session_id : string)
    : M unit (option string * option string) :=
  match Py.get "pdf_file" (files req) with
  | Some pdf_file_obj =>
      if andb (file_truthy pdf_file_obj)
              (allowed_file (filename pdf_file_obj) ALLOWED_PDF_EXTENSIONS) then
        let filename := secure_filename (filename pdf_file_obj) in
        let pdf_path := Py.path_join UPLOAD_DIR (session_id ++ "_" ++ filename) in
        save pdf_path pdf_file_obj ;;
        ret (Some filename, Some pdf_path)
      else ret (None, None)
  | None => ret (None, None)
  end.

(** Lines 109-115 and 119-125: the audio slot of speaker [tag]
    (["speaker1"] or ["speaker2"]).  The value is the speaker's
    [audio_path]. *)
Definition speaker_upload_step (req : request)
    (session_id tag speaker_type : string) : M unit (option string) :=
  if String.eqb speaker_type "custom" then
    match Py.get (tag ++ "_audio") (files req) with
    | Some audio_file =>
        if andb (file_truthy audio_file)
                (allowed_file (filename audio_file) ALLOWED_AUDIO_EXTENSIONS)
        then
          let filename := secure_filename (filename audio_file) in
          let speaker_audio_path :=
            Py.path_join UPLOAD_DIR
              (session_id ++ "_" ++ tag ++ "_" ++ filename) in
          save speaker_audio_path audio_file ;;
          ret (Some speaker_audio_path)
        else ret None
    | None => ret None
    end
  else ret None.

(** The variables [generate_podcast] extracts from the request before it
    builds the generator (lines 91-125), with the uploads it saves on the
    way. *)
Definition extract (req : request) (session_id user_api_key : string)
    : M unit closure :=
  let text_input := Py.strip (Py.get_default "text_input" "" (form req)) in
  let url_input := Py.strip (Py.get_default "url" "" (form req)) in
  pdf <- pdf_upload_step req session_id ;;
  let speaker1_type := Py.get_default "speaker1_type" "default" (form req) in
  let speaker1_voice_name :=
    Py.get_default "speaker1_voice_name" "mini" (form req) in
  speaker1_audio_path <-
    speaker_upload_step req session_id "speaker1" speaker1_type ;;
  let speaker2_type := Py.get_default "speaker2_type" "default" (form req) in
  let speaker2_voice_name :=
    Py.get_default "speaker2_voice_name" "max" (form req) in
  speaker2_audio_path <-
    speaker_upload_step req session_id "speaker2" speaker2_type ;;
  ret {| session_id := session_id;
         user_api_key := user_api_key;
         text_input := text_input;
         url_input := url_input;
         pdf_file := fst pdf;
         pdf_path := snd pdf;
         speaker1_type := speaker1_type;
         speaker1_voice_name := speaker1_voice_name;
         speaker1_audio_path := speaker1_audio_path;
         speaker2_type := speaker2_type;
         speaker2_voice_name := speaker2_voice_name;
         speaker2_audio_path := speaker2_audio_path |}.

(** [POST /api/generate_podcast].  [uuid4] is the value [str(uuid.uuid4())]
    takes in this call.  The effects are those of the handler followed by
    those of the generator it hands to [Response].  The writes of the
    handler (lines 103, 115, 125) are in no [try]: when one raises, the
    handler ends with that exception and there is no generator. *)
Definition generate_podcast (req : request) (uuid4 : string) : M unit unit :=
  let session_id := uuid4 in
  let user_api_key := Py.strip (Py.get_default "api_key" "" (form req)) in
  if negb (Py.truthy user_api_key) then error_gen
  else
    c <- extract req session_id user_api_key ;;
    generate c.

Definition failure (error : string) : json :=
  JObj [("success", JBool false); ("error", JStr error)].

(** [POST /api/upload_audio].  [uuid4] is the value of the eagerly
    evaluated default [str(uuid.uuid4())], [now] is [int(time.time())]. *)
Definition upload_audio (req : request) (uuid4 : string) (now : N)
    : M json json :=
  try_except
    (match Py.get "audio" (files req) with
     | None => return_ (failure "未提供音频文件")
     | Some audio_file =>
         if negb (file_truthy audio_file) then
           return_ (failure "音频文件为空")
         else
           let session_id := Py.get_default "session_id" uuid4 (form req) in
           let speaker := Py.get_default "speaker" "unknown" (form req) in
           let filename :=
             (session_id ++ "_" ++ speaker ++ "_" ++ Py.str_of_N now
              ++ ".wav")%string in
           let file_path := Py.path_join UPLOAD_DIR filename in
           save file_path audio_file ;;
           return_ (JObj [("success", JBool true);
                          ("filepath", JStr file_path);
                          ("filename", JStr filename)])
     end)
    (fun e => return_ (failure e)).

Definition DEFAULT_MINI : config :=
  [("type", "default"); ("voice_name", "mini")].

(** [POST /api/clone-voice].  The JSON body is an object with string
    entries; [None] stands for a body [get_json] returns [None] for. *)
Definition clone_voice (req : request) : M json json :=
  try_except
    (match json_body req with
     | None | Some [] => return_ (failure "请求数据为空")
     | Some data =>
         let speaker := Py.get_default "speaker" "unknown" data in
         match Py.if_set (Py.get "filepath" data) with
         | None => return_ (failure "音频文件不存在")
         | Some filepath =>
             if negb (path_exists filepath) then
               return_ (failure "音频文件不存在")
             else
               let user_api_key := Py.get_default "api_key" "" data in
               let user_api_key :=
                 if negb (Py.truthy user_api_key) then MINIMAX_API_KEY
                 else user_api_key in
               let voice_config :=
                 [("type", "custom"); ("audio_file", filepath)] in
               result <-
                 (if String.eqb speaker "speaker1" then
                    call (PrepareVoices voice_config DEFAULT_MINI user_api_key)
                         (prepare_voices voice_config DEFAULT_MINI user_api_key)
                  else
                    call (PrepareVoices DEFAULT_MINI voice_config user_api_key)
                         (prepare_voices DEFAULT_MINI voice_config
                                         user_api_key)) ;;
               if negb (vr_success result) then
                 return_ (failure (match vr_error result with
                                   | Some e => e
                                   | None => "克隆失败"
                                   end))
               else
                 let voice_id :=
                   if String.eqb speaker "speaker1" then vr_speaker1 result
                   else vr_speaker2 result in
                 let trace_ids :=
                   match vr_trace_ids result with
                   | Some d => d
                   | None => []
                   end in
                 return_
                   (JObj [("success", JBool true);
                          ("voice_id", json_of_opt voice_id);
                          ("upload_trace_id",
                           Py.get_default (speaker ++ "_upload") JNull
                                          trace_ids);
                          ("clone_trace_id",
                           Py.get_default (speaker ++ "_clone") JNull
                                          trace_ids)])
         end
     end)
    (fun e => return_ (failure e)).

(** [POST /api/parse-content].  [json_body] is [None] when the request is
    not JSON ([data = {}]); [now] is [int(time.time())]. *)
Definition parse_content (req : request) (now : N) : M json json :=
  try_except
    (let data := match json_body req with Some d => d | None => [] end in
     let text_input := Py.get_default "text_input" "" data in
     let url_input := Py.get_default "url_input" "" data in
     let pdf_file := Py.get "file" (files req) in
     url_content <-
       (if Py.truthy url_input then
          url_result <- call (ParseUrl url_input) (parse_url url_input) ;;
          if pr_success url_result then ret (pr_content url_result)
          else return_ (failure (match pr_error url_result with
                                 | Some e => e
                                 | None => "网址解析失败"
                                 end))
        else ret "") ;;
     pdf_content <-
       (match pdf_file with
        | Some pdf_file =>
            if file_truthy pdf_file then
              let filename := secure_filename (filename pdf_file) in
              let pdf_path :=
                Py.path_join UPLOAD_DIR (Py.str_of_N now ++ "_" ++ filename) in
              save pdf_path pdf_file ;;
              pdf_result <- call (ParsePdf pdf_path) (parse_pdf pdf_path) ;;
              if pr_success pdf_result then ret (pr_content pdf_result)
              else return_ (failure (match pr_error pdf_result with
                                     | Some e => e
                                     | None => "PDF解析失败"
                                     end))
            else ret ""
        | None => ret ""
        end) ;;
     merged_content <-
       call (MergeContents text_input url_content pdf_content)
            (merge_contents text_input url_content pdf_content) ;;
     if orb (negb (Py.truthy merged_content)) (String.eqb merged_content "")
     then return_ (failure "请至少提供一种输入内容（文本/网址/PDF）")
     else
       return_ (JObj [("success", JBool true);
                      ("content", JStr merged_content);
                      ("message",
                       JStr ("内容解析完成，共 "
                             ++ Py.str_of_N (N.of_nat (Py.len merged_content))
                             ++ " 字符"))]))
    (fun e => return_ (failure ("服务器错误: " ++ e))).

End App.

(* ================================================================== *)
(** ** A sample backend and sample requests *)
(* ================================================================== *)

(** An implementation of the helper interface on which the handlers can be
    run: PDF parsing succeeds, URL parsing fails, both speakers get a voice,
    the podcast stream has two events. *)
Module Sample.

Definition merge (text_input url_content pdf_content : string)
    : result string :=
  let parts :=
    filter Py.truthy [text_input; url_content; pdf_content] in
  match parts with
  | [] => Ok NO_CONTENT
  | _ => Ok (String.concat " " parts)
  end.

Definition url_failure : parse_result :=
  {| pr_success := false; pr_content := "";
     pr_logs := ["fetch failed"]; pr_error := Some "unreachable";
     pr_error_code := Some "timeout" |}.

(** File names without a path separator, as [secure_filename] makes
    them. *)
Fixpoint flat (name : string) : string :=
  match name with
  | EmptyString => EmptyString
  | String a rest =>
      String (if Ascii.eqb a "/" then "_"%char else a) (flat rest)
  end.

(** The upload directory is flat: a file directly under ["uploads/"] can
    be written, a path anywhere else names a directory that does not
    exist. *)
Definition write (path : string) (f : upload) : result unit :=
  match Py.drop_prefix "uploads/" path with
  | Some name =>
      if Py.contains_char "/" name
      then Raise ("No such file or directory: " ++ path)
      else Ok tt
  | None => Raise ("No such file or directory: " ++ path)
  end.

Definition backend : Backend := {|
  UPLOAD_DIR := "uploads";
  MINIMAX_API_KEY := "server-key";
  secure_filename := flat;
  path_exists := fun _ => true;
  write_file := write;
  parse_pdf := fun _ =>
    Ok {| pr_success := true; pr_content := "pdf text";
          pr_logs := ["pdf parsed"]; pr_error := None;
          pr_error_code := None |};
  parse_url := fun _ => Ok url_failure;
  merge_contents := merge;
  prepare_voices := fun _ _ _ =>
    Ok {| vr_success := true; vr_error := None;
          vr_logs := ["voices ready"];
          vr_trace_ids := Some [("speaker1_clone", JStr "t-1");
                                ("speaker2_clone", JNull)];
          vr_speaker1 := Some "voice-a"; vr_speaker2 := Some "voice-b" |};
  generate_podcast_stream := fun _ _ _ _ _ =>
    ([JObj [("type", JStr "progress"); ("step", JStr "script")];
      JObj [("type", JStr "log"); ("message", JStr "audio ready")]],
     None)
|}.

(** A backend whose URL parser raises. *)
Definition raising_backend : Backend := {|
  UPLOAD_DIR := "uploads";
  MINIMAX_API_KEY := "server-key";
  secure_filename := flat;
  path_exists := fun _ => true;
  write_file := write;
  parse_pdf := fun _ => Raise "cannot open";
  parse_url := fun _ => Raise "connection reset";
  merge_contents := merge;
  prepare_voices := fun _ _ _ => Raise "quota";
  generate_podcast_stream := fun _ _ _ _ _ => ([], Some "broken pipe")
|}.

Definition wav : upload := {| filename := "me.WAV"; content := "RIFF" |}.
Definition exe : upload := {| filename := "me.exe"; content := "MZ" |}.
Definition paper : upload := {| filename := "paper.pdf"; content := "%PDF" |}.

Definition uuid_a : string := "0b0e3a52-6c1f-4a7e-9d0b-5f2f3c1a9e10".
Definition uuid_b : string := "7c9d2e11-03ab-4f6d-8a55-1e4b7d90c2f3".

(** Text, a failing URL and a PDF; speaker 1 custom, speaker 2 default. *)
Definition full_request : request := {|
  form := [("api_key", " sk-1 "); ("text_input", "hello");
           ("url", "http://example.org");
           ("speaker1_type", "custom")];
  files := [("pdf_file", paper); ("speaker1_audio", wav)];
  json_body := None
|}.

(** The closure [generate_podcast] extracts from [full_request] for the
    session [uuid_a]. *)
Definition full_closure : closure := {|
  session_id := uuid_a;
  user_api_key := "sk-1";
  text_input := "hello";
  url_input := "http://example.org";
  pdf_file := Some "paper.pdf";
  pdf_path := Some "uploads/0b0e3a52-6c1f-4a7e-9d0b-5f2f3c1a9e10_paper.pdf";
  speaker1_type := "custom";
  speaker1_voice_name := "mini";
  speaker1_audio_path :=
    Some "uploads/0b0e3a52-6c1f-4a7e-9d0b-5f2f3c1a9e10_speaker1_me.WAV";
  speaker2_type := "default";
  speaker2_voice_name := "max";
  speaker2_audio_path := None
|}.

(** No key. *)
Definition no_key_request : request := {|
  form := [("text_input", "hello")];
  files := [];
  json_body := None
|}.

(** A key and nothing else. *)
Definition empty_request : request := {|
  form := [("api_key", "sk-1")];
  files := [];
  json_body := None
|}.

(** Custom speaker 1 with a file of a type that is not allowed. *)
Definition bad_audio_request : request := {|
  form := [("api_key", "sk-1"); ("text_input", "hello");
           ("speaker1_type", "custom")];
  files := [("speaker1_audio", exe)];
  json_body := None
|}.

(** Default speakers and a text. *)
Definition default_request : request := {|
  form := [("api_key", "sk-1"); ("text_input", "hello")];
  files := [];
  json_body := None
|}.

(** Default speaker 1 with an audio file attached all the same. *)
Definition default_with_audio_request : request := {|
  form := [("api_key", "sk-1"); ("text_input", "hello")];
  files := [("speaker1_audio", wav)];
  json_body := None
|}.

(** A recording sent to [/api/upload_audio] with a session id chosen by the
    client. *)
Definition recording_request : request := {|
  form := [("session_id", "shared"); ("speaker", "speaker1")];
  files := [("audio", exe)];
  json_body := None
|}.

(** A clone request without a key. *)
Definition clone_request : request := {|
  form := [];
  files := [];
  json_body := Some [("filepath", "uploads/shared_speaker1_7.wav");
                     ("speaker", "speaker1")]
|}.

(** A JSON parse request with a text and a URL. *)
Definition parse_request : request := {|
  form := [];
  files := [];
  json_body := Some [("text_input", "hello");
                     ("url_input", "http://example.org")]
|}.

(** The sample backend on a disk that is full: every write raises. *)
Definition full_disk_backend : Backend := {|
  UPLOAD_DIR := "uploads";
  MINIMAX_API_KEY := "server-key";
  secure_filename := flat;
  path_exists := fun _ => true;
  write_file := fun _ _ => Raise "No space left on device";
  parse_pdf := @parse_pdf backend;
  parse_url := @parse_url backend;
  merge_contents := merge;
  prepare_voices := @prepare_voices backend;
  generate_podcast_stream := @generate_podcast_stream backend
|}.


(** A recording sent to [/api/upload_audio] with a session id that names a
    directory. *)
Definition nodir_request : request := {|
  form := [("session_id", "nodir/x"); ("speaker", "speaker1")];
  files := [("audio", wav)];
  json_body := None
|}.

End Sample.

(* ================================================================== *)
(** ** Vocabulary of the properties *)
(* ================================================================== *)

(** The name in the ['type'] entry of an event. *)
Definition type_name (e : json) : option string :=
  match event_type e with
  | Some (JStr s) => Some s
  | _ => None
  end.

(** [e] yields a JSON object whose ['type'] is one of [names]. *)
Definition yields_one_of (names : list string) (e : effect) : Prop :=
  match e with
  | Yield ev =>
      match type_name ev with
      | Some s => In s names
      | None => False
      end
  | _ => False
  end.

(** The event types the specification lists, and the ones [generate]
    builds itself. *)
Definition LISTED_TYPES : list string :=
  ["progress"; "log"; "error"; "trace_id"].
Definition OWN_TYPES : list string :=
  ["progress"; "log"; "error"; "trace_id"; "url_parse_warning"].

(** The two progress events of [generate]. *)
Definition PARSING : json :=
  progress_event "parsing_content" "正在解析输入内容...".
Definition PREPARING : json :=
  progress_event "preparing_voices" "正在准备音色...".

(** The event of the [except] clause of [generate] (line 234) for an
    exception whose [str(e)] is [msg]. *)
Definition caught (msg : string) : effect :=
  Yield (error_event ("播客生成失败: " ++ msg)).

(** What step 1 does apart from its progress event and a final error. *)
Definition parsing_effect (e : effect) : Prop :=
  match e with
  | ParsePdf _ | ParseUrl _ | MergeContents _ _ _ => True
  | Yield _ => yields_one_of ["log"; "url_parse_warning"] e
  | _ => False
  end.

(** What step 2 does apart from its progress event and a final error. *)
Definition voice_effect (e : effect) : Prop :=
  match e with
  | PrepareVoices _ _ _ => True
  | Yield _ => yields_one_of ["log"; "trace_id"] e
  | _ => False
  end.

(** What the configuration of a speaker does apart from a final error. *)
Definition log_effect (e : effect) : Prop := yields_one_of ["log"] e.

Definition is_save (e : effect) : Prop :=
  match e with Save _ _ => True | _ => False end.

(** A call into the speech provider's client modules. *)
Definition provider_call (e : effect) : Prop :=
  match e with
  | PrepareVoices _ _ _ | PodcastStream _ _ _ _ _ => True
  | _ => False
  end.

(** The key a provider call is made with. *)
Definition call_key (e : effect) : option string :=
  match e with
  | PrepareVoices _ _ k => Some k
  | PodcastStream _ _ _ _ k => Some k
  | _ => None
  end.

(** A block of a generator that does only [ok] effects, except that it
    yields an error event right before it executes [return]. *)
Definition shaped {A : Type} (ok : effect -> Prop) (m : M unit A) : Prop :=
  match m with
  | (t, Return _) =>
      exists t' msg, t = t' ++ [Yield (error_event msg)] /\ Forall ok t'
  | (t, _) => Forall ok t
  end.

(** A block of a handler that does only [ok] effects. *)
Definition only {R A : Type} (ok : effect -> Prop) (m : M R A) : Prop :=
  Forall ok (fst m).

(** Every file the effect saves has a name that starts with [prefix] and an
    underscore, and is put into [dir] by [os.path.join]. *)
Definition saves_under (dir prefix : string) (e : effect) : Prop :=
  match e with
  | Save path _ =>
      exists rest, path = Py.path_join dir (prefix ++ "_" ++ rest)
  | _ => True
  end.

(** What [os.path.join] puts in front of a relative name. *)
Definition dir_prefix (dir : string) : string :=
  if orb (negb (Py.truthy dir)) (Py.ends_with "/" dir) then dir
  else (dir ++ "/")%string.

(** The file name has a dot, and what follows its last dot is, in lower
    case, one of [allowed]. *)
Definition has_allowed_extension (name : string) (allowed : list string)
    : Prop :=
  exists stem ext,
    name = (stem ++ "." ++ ext)%string /\
    Py.contains_char "." ext = false /\
    In (Py.lower ext) allowed.

Section Vocabulary.

Context {B : Backend}.

(** The text step 1 has extracted from the PDF when it reaches the merge. *)
Definition pdf_text (c : closure) : string :=
  match Py.if_set (pdf_path c) with
  | Some path =>
      match parse_pdf path with
      | Ok r => if pr_success r then pr_content r else ""
      | Raise _ => ""
      end
  | None => ""
  end.

(** The text step 1 has extracted from the URL when it reaches the merge. *)
Definition url_text (c : closure) : string :=
  if Py.truthy (url_input c) then
    match parse_url (url_input c) with
    | Ok r => if pr_success r then pr_content r else ""
    | Raise _ => ""
    end
  else "".


(** Steps 1 and 2 of [generate] up to the call of the voice manager. *)
Definition before_voices (c : closure) : M unit (string * (config * config)) :=
  merged_content <- content_steps c ;;
  configs <- config_steps c ;;
  ret (merged_content, configs).

(** The closure [generate_podcast] builds for a request. *)
Definition extracted (req : request) (uuid4 : string) (c : closure) : Prop :=
  exists t,
    extract req uuid4 (Py.strip (Py.get_default "api_key" "" (form req)))
    = (t, Next c).

(** The event comes out of the podcast generator. *)
Definition forwarded (ev : json) : Prop :=
  exists content v1 v2 sid key,
    In ev (fst (generate_podcast_stream content v1 v2 sid key)).

(** What [generate] may do for the closure [c]: yield an event of its own
    types or one of the podcast generator's, call a parser, and call the
    voice manager and the podcast generator with the key and the session
    of [c]. *)
Definition generator_effect (c : closure) (e : effect) : Prop :=
  match e with
  | Save _ _ => False
  | Yield ev => yields_one_of OWN_TYPES e \/ forwarded ev
  | PrepareVoices _ _ k => k = user_api_key c
  | PodcastStream _ _ _ sid k => k = user_api_key c /\ sid = session_id c
  | _ => True
  end.

(** The key [/api/clone-voice] uses: the caller's when the body has a
    non-empty one, the configured one otherwise. *)
Definition clone_key (req : request) : string :=
  match json_body req with
  | Some data =>
      if Py.truthy (Py.get_default "api_key" "" data)
      then Py.get_default "api_key" "" data
      else MINIMAX_API_KEY
  | None => MINIMAX_API_KEY
  end.

(** A call of the voice manager for the closure [c] describes a default
    speaker by its type and its voice name and nothing else. *)
Definition default_config_effect (c : closure) (e : effect) : Prop :=
  match e with
  | PrepareVoices c1 c2 _ =>
      (speaker1_type c = "default" ->
       c1 = [("type", "default"); ("voice_name", speaker1_voice_name c)]) /\
      (speaker2_type c = "default" ->
       c2 = [("type", "default"); ("voice_name", speaker2_voice_name c)])
  | _ => True
  end.

(** The request has an API key and the [try] block of its generator runs
    to its end. *)
Definition successful (req : request) (uuid4 : string) : Prop :=
  Py.truthy (Py.strip (Py.get_default "api_key" "" (form req))) = true /\
  exists c t, extracted req uuid4 c /\ generate_body c = (t, Next tt).

End Vocabulary.

Definition api_key_missing (req : request) : Prop :=
  Py.strip (Py.get_default "api_key" "" (form req)) = "".

(** The file in the audio slot of speaker [tag] passes [allowed_file]. *)
Definition allowed_audio (tag : string) (req : request) : bool :=
  match Py.get (tag ++ "_audio") (files req) with
  | Some f => allowed_file (filename f) ALLOWED_AUDIO_EXTENSIONS
  | None => false
  end.




(** [c] with no URL given. *)
Definition without_url (c : closure) : closure :=
  {| session_id := session_id c;
     user_api_key := user_api_key c;
     text_input := text_input c;
     url_input := "";
     pdf_file := pdf_file c;
     pdf_path := pdf_path c;
     speaker1_type := speaker1_type c;
     speaker1_voice_name := speaker1_voice_name c;
     speaker1_audio_path := speaker1_audio_path c;
     speaker2_type := speaker2_type c;
     speaker2_voice_name := speaker2_voice_name c;
     speaker2_audio_path := speaker2_audio_path c |}.

(** What [generate] does with a URL whose parse result [r] reports failure
    with the error [msg]. *)
Definition url_failure_effects (url : string) (r : parse_result)
    (msg : string) : list effect :=
  [Yield (log_event ("开始解析网址: " ++ url));
   ParseUrl url;
   Yield (url_parse_warning_event msg
            (match pr_error_code r with
             | Some code => code
             | None => "unknown"
             end))]
  ++ map (fun log => Yield (log_event log)) (pr_logs r).

(** The textual form of a UUID: 36 characters, hexadecimal digits in groups
    of 8-4-4-4-12 separated by dashes. *)
Definition is_hex (c : ascii) : bool :=
  let n := nat_of_ascii c in
  orb (andb (Nat.leb 48 n) (Nat.leb n 57)) (andb (Nat.leb 97 n) (Nat.leb n 102)).

Fixpoint uuid_chars (pos : nat) (l : list ascii) : bool :=
  match l with
  | [] => Nat.eqb pos 36
  | c :: l' =>
      andb (if orb (orb (Nat.eqb pos 8) (Nat.eqb pos 13))
                   (orb (Nat.eqb pos 18) (Nat.eqb pos 23))
            then Ascii.eqb c "-" else is_hex c)
           (uuid_chars (S pos) l')
  end.

Definition uuid_shaped (s : string) : bool :=
  uuid_chars 0 (list_ascii_of_string s).

(* ================================================================== *)
(** ** Vocabulary of the further properties *)
(* ================================================================== *)

(** The ASCII characters [str.strip()] removes. *)
Definition ascii_space (c : ascii) : bool :=
  let n := nat_of_ascii c in
  orb (andb (Nat.leb 9 n) (Nat.leb n 13)) (andb (Nat.leb 28 n) (Nat.leb n 32)).

(** The string is empty or made of ASCII white space only. *)
Fixpoint blank (s : string) : bool :=
  match s with
  | EmptyString => true
  | String c r => andb (ascii_space c) (blank r)
  end.

(** A [jsonify] answer: an object with a boolean ['success'] entry. *)
Definition is_response (j : json) : Prop :=
  exists kv b, j = JObj kv /\ Py.get "success" kv = Some (JBool b).

(** A block of a JSON handler that, when it executes [return], returns an
    answer. *)
Definition answering {A : Type} (m : M json A) : Prop :=
  match snd m with
  | Return j => is_response j
  | _ => True
  end.

(** A block of a JSON handler that does not fall through, and returns an
    answer when it executes [return]. *)
Definition answered {A : Type} (m : M json A) : Prop :=
  match snd m with
  | Next _ => False
  | Return j => is_response j
  | Raised _ => True
  end.

(** The config [generate] builds for a speaker of type [ty] with the voice
    name [name] and the saved audio path [path], read off lines 177-201. *)
Definition config_for (ty name : string) (path : option string)
    (cfg : config) : Prop :=
  (ty = "default" -> cfg = [("type", "default"); ("voice_name", name)]) /\
  (ty = "custom" ->
   exists p, Py.if_set path = Some p /\
             cfg = [("type", "custom"); ("audio_file", p)]) /\
  (ty <> "default" -> ty <> "custom" -> cfg = [("type", ty)]).

Section Flow.

Context {B : Backend}.

(** Where the arguments of the calls [generate] makes for the closure [c]
    come from. *)
Definition flow_effect (c : closure) (e : effect) : Prop :=
  match e with
  | Save _ _ => False
  | Yield _ => True
  | ParsePdf p => Py.if_set (pdf_path c) = Some p
  | ParseUrl u => u = url_input c /\ Py.truthy u = true
  | MergeContents t u p =>
      t = text_input c /\ u = url_text c /\ p = pdf_text c
  | PrepareVoices c1 c2 k =>
      k = user_api_key c /\
      config_for (speaker1_type c) (speaker1_voice_name c)
                 (speaker1_audio_path c) c1 /\
      config_for (speaker2_type c) (speaker2_voice_name c)
                 (speaker2_audio_path c) c2
  | PodcastStream m v1 v2 sid k =>
      sid = session_id c /\ k = user_api_key c /\
      merge_contents (text_input c) (url_text c) (pdf_text c) = Ok m /\
      m <> "" /\ m <> NO_CONTENT /\
      exists c1 c2 r,
        config_for (speaker1_type c) (speaker1_voice_name c)
                   (speaker1_audio_path c) c1 /\
        config_for (speaker2_type c) (speaker2_voice_name c)
                   (speaker2_audio_path c) c2 /\
        prepare_voices c1 c2 (user_api_key c) = Ok r /\
        vr_success r = true /\
        vr_speaker1 r = Some v1 /\ vr_speaker2 r = Some v2
  end.

End Flow.

(** A request whose key is three spaces, with a text and a PDF. *)
Definition blank_key_request : request := {|
  form := [("api_key", "   "); ("text_input", "hello")];
  files := [("pdf_file", Sample.paper)];
  json_body := None
|}.

(** A request whose speaker 1 has a type the handler does not know. *)
Definition robot_request : request := {|
  form := [("api_key", "sk-1"); ("text_input", "hello");
           ("speaker1_type", "robot")];
  files := [("speaker1_audio", Sample.wav)];
  json_body := None
|}.

(** The closure [generate_podcast] extracts from [robot_request] for the
    session [Sample.uuid_a]. *)
Definition robot_closure : closure := {|
  session_id := Sample.uuid_a;
  user_api_key := "sk-1";
  text_input := "hello";
  url_input := "";
  pdf_file := None;
  pdf_path := None;
  speaker1_type := "robot";
  speaker1_voice_name := "mini";
  speaker1_audio_path := None;
  speaker2_type := "default";
  speaker2_voice_name := "max";
  speaker2_audio_path := None
|}.

(** A backend whose PDF parser and voice manager report failure and whose
    podcast stream breaks after its first event. *)
Definition failing_backend : Backend := {|
  UPLOAD_DIR := "uploads";
  MINIMAX_API_KEY := "server-key";
  secure_filename := Sample.flat;
  path_exists := fun _ => false;
  write_file := Sample.write;
  parse_pdf := fun _ =>
    Ok {| pr_success := false; pr_content := ""; pr_logs := ["no text layer"];
          pr_error := Some "scanned PDF"; pr_error_code := None |};
  parse_url := fun _ => Ok Sample.url_failure;
  merge_contents := Sample.merge;
  prepare_voices := fun _ _ _ =>
    Ok {| vr_success := false; vr_error := Some "clone rejected";
          vr_logs := ["uploading sample"]; vr_trace_ids := None;
          vr_speaker1 := None; vr_speaker2 := None |};
  generate_podcast_stream := fun _ _ _ _ _ =>
    ([JObj [("type", JStr "progress"); ("step", JStr "script")]],
     Some "broken pipe")
|}.

(** The closure [generate_podcast] extracts from [Sample.default_request]
    for the session [Sample.uuid_a]. *)
Definition default_closure : closure := {|
  session_id := Sample.uuid_a;
  user_api_key := "sk-1";
  text_input := "hello";
  url_input := "";
  pdf_file := None;
  pdf_path := None;
  speaker1_type := "default";
  speaker1_voice_name := "mini";
  speaker1_audio_path := None;
  speaker2_type := "default";
  speaker2_voice_name := "max";
  speaker2_audio_path := None
|}.

(** What [generate] does for [default_closure] before it calls the voice
    manager. *)
Definition default_prelude : list effect :=
  [Yield PARSING;
   MergeContents "hello" "" "";
   Yield (log_event "内容解析完成，共 5 字符");
   Yield PREPARING].

(** [default_closure] with a URL. *)
Definition url_closure : closure := {|
  session_id := Sample.uuid_a;
  user_api_key := "sk-1";
  text_input := "hello";
  url_input := "http://example.org";
  pdf_file := None;
  pdf_path := None;
  speaker1_type := "default";
  speaker1_voice_name := "mini";
  speaker1_audio_path := None;
  speaker2_type := "default";
  speaker2_voice_name := "max";
  speaker2_audio_path := None
|}.

(** The sample backend with a merge that raises. *)
Definition failing_merge_backend : Backend := {|
  UPLOAD_DIR := "uploads";
  MINIMAX_API_KEY := "server-key";
  secure_filename := Sample.flat;
  path_exists := fun _ => true;
  write_file := Sample.write;
  parse_pdf := @parse_pdf Sample.backend;
  parse_url := @parse_url Sample.backend;
  merge_contents := fun _ _ _ => Raise "out of memory";
  prepare_voices := @prepare_voices Sample.backend;
  generate_podcast_stream := @generate_podcast_stream Sample.backend
|}.

(** The sample backend with a podcast stream that breaks after its first
    event. *)
Definition failing_stream_backend : Backend := {|
  UPLOAD_DIR := "uploads";
  MINIMAX_API_KEY := "server-key";
  secure_filename := Sample.flat;
  path_exists := fun _ => true;
  write_file := Sample.write;
  parse_pdf := @parse_pdf Sample.backend;
  parse_url := @parse_url Sample.backend;
  merge_contents := Sample.merge;
  prepare_voices := @prepare_voices Sample.backend;
  generate_podcast_stream := fun _ _ _ _ _ =>
    ([JObj [("type", JStr "progress"); ("step", JStr "script")]],
     Some "broken pipe")
|}.



(** A multipart parse request: a PDF, and form fields that are not read. *)
Definition pdf_parse_request : request := {|
  form := [("text_input", "hello"); ("url_input", "http://example.org")];
  files := [("file", Sample.paper)];
  json_body := None
|}.

(** A JSON parse request with nothing in it. *)
Definition empty_parse_request : request := {|
  form := [];
  files := [];
  json_body := Some []
|}.

(** A clone request for a speaker the handler has no slot for. *)
Definition unknown_speaker_clone_request : request := {|
  form := [];
  files := [];
  json_body := Some [("filepath", "uploads/shared_speaker1_7.wav");
                     ("api_key", "sk-1")]
|}.

(** The voice config [/api/clone-voice] builds for [filepath]. *)
Definition clone_config (filepath : string) : config :=
  [("type", "custom"); ("audio_file", filepath)].

(** What [/api/parse-content] may do for a request that is not JSON: no
    URL is fetched, and the merge gets no text and no URL content. *)
Definition multipart_effect (e : effect) : Prop :=
  match e with
  | ParseUrl _ => False
  | MergeContents t u _ => t = "" /\ u = ""
  | _ => True
  end.

(** The place of a helper call in the pipeline of [generate]. *)
Definition call_stage (e : effect) : option nat :=
  match e with
  | ParsePdf _ => Some 0
  | ParseUrl _ => Some 1
  | MergeContents _ _ _ => Some 2
  | PrepareVoices _ _ _ => Some 3
  | PodcastStream _ _ _ _ _ => Some 4
  | _ => None
  end.

(** The stages of the helper calls of a run, in the order of the run. *)
Fixpoint call_stages (t : list effect) : list nat :=
  match t with
  | [] => []
  | e :: t' =>
      match call_stage e with
      | Some n => n :: call_stages t'
      | None => call_stages t'
      end
  end.

(** The stages are strictly increasing and lie in [lo, hi). *)
Fixpoint staged (lo hi : nat) (l : list nat) : Prop :=
  match l with
  | [] => True
  | n :: l' => lo <= n /\ n < hi /\ staged (S n) hi l'
  end.

(** A block that calls no helper. *)
Definition quiet {R A : Type} (m : M R A) : Prop := call_stages (fst m) = [].

(** The trace_id events for the entries of a [trace_ids] dict. *)
Definition trace_id_events (d : list (string * json)) : list effect :=
  map (fun kv => Yield (trace_id_event (fst kv) (snd kv)))
      (filter (fun kv => json_truthy (snd kv)) d).

(* ================================================================== *)
(** ** The model on concrete inputs *)
(* ================================================================== *)

Example strip_key : Py.strip "  sk-abc	 " = "sk-abc".
Proof. reflexivity. Qed.

Example strip_blank : Py.strip "   " = "".
Proof. reflexivity. Qed.

Example strip_ideographic_space : Py.strip "　播客　" = "播客".
Proof. reflexivity. Qed.

Example rsplit_last_dot : Py.rsplit1 "." "a.b.PDF" = ["a.b"; "PDF"].
Proof. reflexivity. Qed.

Example rsplit_no_dot : Py.rsplit1 "." "README" = ["README"].
Proof. reflexivity. Qed.

Example len_code_points : Py.len "播客ab" = 4.
Proof. reflexivity. Qed.

Example join_relative : Py.path_join "uploads" "x.wav" = "uploads/x.wav".
Proof. reflexivity. Qed.

Example join_absolute : Py.path_join "uploads" "/tmp/x.wav" = "/tmp/x.wav".
Proof. reflexivity. Qed.

Example str_of_timestamp : Py.str_of_N 1700000000 = "1700000000".
Proof. reflexivity. Qed.

Example allowed_pdf_upper : allowed_file "Paper.PDF" ALLOWED_PDF_EXTENSIONS = true.
Proof. reflexivity. Qed.

Example allowed_last_dot_only :
  allowed_file "voice.wav.exe" ALLOWED_AUDIO_EXTENSIONS = false.
Proof. reflexivity. Qed.

Example allowed_no_dot : allowed_file "wav" ALLOWED_AUDIO_EXTENSIONS = false.
Proof. reflexivity. Qed.

Example allowed_bare_extension :
  allowed_file ".ogg" ALLOWED_AUDIO_EXTENSIONS = true.
Proof. reflexivity. Qed.

Example uuid_a_shaped : uuid_shaped Sample.uuid_a = true.
Proof. reflexivity. Qed.

Example flat_name : Sample.flat "../etc/passwd" = ".._etc_passwd".
Proof. reflexivity. Qed.

Example write_in_upload_dir :
  @save Sample.backend unit "uploads/a_b.wav" Sample.wav
  = ([Save "uploads/a_b.wav" Sample.wav], Next tt).
Proof. reflexivity. Qed.

Example write_in_missing_dir :
  @save Sample.backend unit "uploads/a/b.wav" Sample.wav
  = ([], Raised "No such file or directory: uploads/a/b.wav").
Proof. reflexivity. Qed.

Example pdf_slot_on_full_disk :
  @pdf_upload_step Sample.full_disk_backend Sample.full_request Sample.uuid_a
  = ([], Raised "No space left on device").
Proof. reflexivity. Qed.

Example handler_on_full_disk :
  @generate_podcast Sample.full_disk_backend Sample.full_request Sample.uuid_a
  = ([], Raised "No space left on device").
Proof. reflexivity. Qed.

Example no_key_on_full_disk :
  @generate_podcast Sample.full_disk_backend Sample.no_key_request
    Sample.uuid_a
  = ([Yield (error_event "未提供 API Key")], Next tt).
Proof. reflexivity. Qed.

Example parse_content_on_full_disk :
  @parse_content Sample.full_disk_backend pdf_parse_request 7
  = ([], Return (failure "服务器错误: No space left on device")).
Proof. reflexivity. Qed.

Example no_key_stream :
  @generate_podcast Sample.backend Sample.no_key_request Sample.uuid_a
  = ([Yield (error_event "未提供 API Key")], Next tt).
Proof. reflexivity. Qed.

Example empty_stream :
  @generate_podcast Sample.backend Sample.empty_request Sample.uuid_a
  = ([Yield PARSING;
      MergeContents "" "" "";
      Yield (error_event "请至少提供一种输入内容（文本/网址/PDF）")],
     Return tt).
Proof. reflexivity. Qed.

Example bad_audio_stream :
  @generate_podcast Sample.backend Sample.bad_audio_request Sample.uuid_a
  = ([Yield PARSING;
      MergeContents "hello" "" "";
      Yield (log_event "内容解析完成，共 5 字符");
      Yield PREPARING;
      Yield (error_event "Speaker1 选择自定义音色但未上传音频文件")],
     Return tt).
Proof. reflexivity. Qed.

Example full_closure_extracted :
  @extract Sample.backend Sample.full_request Sample.uuid_a "sk-1"
  = ([Save "uploads/0b0e3a52-6c1f-4a7e-9d0b-5f2f3c1a9e10_paper.pdf"
        Sample.paper;
      Save "uploads/0b0e3a52-6c1f-4a7e-9d0b-5f2f3c1a9e10_speaker1_me.WAV"
        Sample.wav],
     Next Sample.full_closure).
Proof. reflexivity. Qed.

Example raising_stream :
  yields (trace (@generate_podcast Sample.raising_backend
                   Sample.default_request Sample.uuid_a))
  = [PARSING;
     log_event "内容解析完成，共 5 字符";
     PREPARING;
     error_event "播客生成失败: quota"].
Proof. reflexivity. Qed.

(* ================================================================== *)
(** ** Strings *)
(* ================================================================== *)

Lemma append_nil_r (s : string) : (s ++ "")%string = s.
Proof. induction s as [|a s IH]; simpl; [reflexivity | now rewrite IH]. Qed.

Lemma append_assoc (a b c : string) :
  ((a ++ b) ++ c)%string = (a ++ (b ++ c))%string.
Proof. induction a as [|x a IH]; simpl; [reflexivity | now rewrite IH]. Qed.

Lemma length_append (a b : string) :
  String.length (a ++ b) = String.length a + String.length b.
Proof. induction a as [|x a IH]; simpl; [reflexivity | now rewrite IH]. Qed.

Lemma append_inv_head (a b c : string) :
  (a ++ b)%string = (a ++ c)%string -> b = c.
Proof.
  induction a as [|x a IH]; simpl; intros H; [exact H|].
  injection H as H. auto.
Qed.

(** Two strings that start with prefixes of the same length and are equal
    have the same prefix. *)
Lemma append_same_length (a a' b b' : string) :
  String.length a = String.length a' ->
  (a ++ b)%string = (a' ++ b')%string -> a = a'.
Proof.
  revert a'. induction a as [|x a IH]; intros [|y a'] Hlen Heq;
    simpl in *; try discriminate; [reflexivity|].
  injection Heq as -> Heq. injection Hlen as Hlen.
  f_equal. eauto.
Qed.

Lemma list_ascii_append (a b : string) :
  list_ascii_of_string (a ++ b)
  = list_ascii_of_string a ++ list_ascii_of_string b.
Proof. induction a as [|x a IH]; simpl; [reflexivity | now rewrite IH]. Qed.

Lemma string_of_list_app (l l' : list ascii) :
  string_of_list_ascii (l ++ l')
  = (string_of_list_ascii l ++ string_of_list_ascii l')%string.
Proof. induction l as [|x l IH]; simpl; [reflexivity | now rewrite IH]. Qed.

Lemma rev_string_append (a b : string) :
  Py.rev_string (a ++ b) = (Py.rev_string b ++ Py.rev_string a)%string.
Proof.
  unfold Py.rev_string.
  now rewrite list_ascii_append, rev_app_distr, string_of_list_app.
Qed.

Lemma prefix_append (p s : string) : String.prefix p (p ++ s) = true.
Proof.
  induction p as [|x p IH]; simpl.
  - now destruct s.
  - destruct (ascii_dec x x) as [_|N]; [exact IH | now elim N].
Qed.

Lemma ends_with_append (a s : string) : Py.ends_with s (a ++ s) = true.
Proof. unfold Py.ends_with. rewrite rev_string_append. apply prefix_append. Qed.

Lemma prefix_app (p q r : string) :
  String.prefix p q = true -> String.prefix p (q ++ r) = true.
Proof.
  revert q. induction p as [|a p IH].
  - intros q _. now destruct (q ++ r)%string.
  - intros [|b q]; simpl; [discriminate|].
    destruct (ascii_dec a b); [apply IH | discriminate].
Qed.

Lemma ends_with_app_l (a b s : string) :
  Py.ends_with s b = true -> Py.ends_with s (a ++ b) = true.
Proof.
  unfold Py.ends_with. rewrite rev_string_append. apply prefix_app.
Qed.

Lemma mem_In (x : string) (l : list string) : Py.mem x l = true <-> In x l.
Proof.
  unfold Py.mem. rewrite existsb_exists. split.
  - intros [y [Hy E]]. apply String.eqb_eq in E. now subst.
  - intros H. exists x. split; [exact H | apply String.eqb_refl].
Qed.

(* ================================================================== *)
(** ** Blocks *)
(* ================================================================== *)

Lemma bind_unfold {R A B : Type} (m : M R A) (k : A -> M R B) :
  bind m k = match snd m with
             | Next a => (fst m ++ fst (k a), snd (k a))
             | Return r => (fst m, Return r)
             | Raised e => (fst m, Raised e)
             end.
Proof.
  destruct m as [t [a|r|e]]; simpl; try reflexivity.
  now destruct (k a).
Qed.

Lemma bind_prefix {R A B : Type} (m : M R A) (k : A -> M R B) :
  exists rest, fst (bind m k) = fst m ++ rest.
Proof.
  rewrite bind_unfold. destruct (snd m); cbn [fst]; eauto.
  - exists []. now rewrite app_nil_r.
  - exists []. now rewrite app_nil_r.
Qed.

Lemma bind_next {R A B : Type} (m : M R A) (k : A -> M R B) t a :
  m = (t, Next a) -> bind m k = (t ++ fst (k a), snd (k a)).
Proof. intros ->. now rewrite bind_unfold. Qed.

Lemma for_each_yield {R A : Type} (f : A -> json) (l : list A) :
  for_each (R:=R) l (fun x => yield (f x))
  = (map (fun x => Yield (f x)) l, Next tt).
Proof.
  induction l as [|x l IH]; simpl; [reflexivity|].
  now rewrite IH.
Qed.

Lemma for_stream_yield {R : Type} (s : stream) :
  for_stream (R:=R) s (fun event => yield event)
  = (map Yield (fst s),
     match snd s with None => Next tt | Some msg => Raised msg end).
Proof.
  unfold for_stream. rewrite for_each_yield, bind_unfold. simpl.
  destruct (snd s); simpl; now rewrite app_nil_r.
Qed.

Lemma yields_app (t t' : list effect) : yields (t ++ t') = yields t ++ yields t'.
Proof.
  induction t as [|e t IH]; simpl; [reflexivity|].
  destruct e; simpl; now rewrite ?IH.
Qed.

Lemma saves_app (t t' : list effect) : saves (t ++ t') = saves t ++ saves t'.
Proof.
  induction t as [|e t IH]; simpl; [reflexivity|].
  destruct e; simpl; now rewrite ?IH.
Qed.

Lemma yields_In (t : list effect) (e : json) : In e (yields t) <-> In (Yield e) t.
Proof.
  induction t as [|x t IH]; simpl; [tauto|].
  destruct x; simpl; rewrite IH; split; intros H;
    try (now right); try (destruct H as [H|H]; [discriminate | exact H]).
  - destruct H as [->|H]; [now left | now right].
  - destruct H as [H|H]; [injection H as ->; now left | now right].
Qed.

Lemma saves_In (t : list effect) p f : In (p, f) (saves t) <-> In (Save p f) t.
Proof.
  induction t as [|x t IH]; simpl; [tauto|].
  destruct x; simpl; rewrite IH; split; intros H;
    try (now right); try (destruct H as [H|H]; [discriminate | exact H]).
  - destruct H as [H|H]; [injection H as -> ->; now left | now right].
  - destruct H as [H|H]; [injection H as -> ->; now left | now right].
Qed.

Section Shaped.

Variable ok : effect -> Prop.

Lemma shaped_ret {A : Type} (a : A) : shaped ok (ret a).
Proof. constructor. Qed.

Lemma shaped_raise {A : Type} msg : shaped ok (raise (A:=A) msg).
Proof. constructor. Qed.

Lemma shaped_item {A : Type} key (o : option A) : shaped ok (item key o).
Proof. destruct o; constructor. Qed.

Lemma shaped_yield e : ok (Yield e) -> shaped ok (yield e).
Proof. intros H. constructor; [exact H | constructor]. Qed.

Lemma shaped_call {A : Type} c (r : result A) : ok c -> shaped ok (call c r).
Proof. intros H. destruct r; (constructor; [exact H | constructor]). Qed.

Lemma shaped_error_return {A : Type} msg :
  shaped ok (yield (error_event msg) ;; return_ (A:=A) tt).
Proof. exists [], msg. split; [reflexivity | constructor]. Qed.

Lemma shaped_bind {A C : Type} (m : M unit A) (k : A -> M unit C) :
  shaped ok m -> (forall a, shaped ok (k a)) -> shaped ok (bind m k).
Proof.
  intros Hm Hk. rewrite bind_unfold.
  destruct m as [t [a|r|e]]; simpl in *; try exact Hm.
  specialize (Hk a). destruct (k a) as [t' [c|r|e]]; simpl in *.
  - apply Forall_app; split; assumption.
  - destruct Hk as [u [msg [-> Hu]]]. exists (t ++ u), msg.
    split; [now rewrite app_assoc | apply Forall_app; split; assumption].
  - apply Forall_app; split; assumption.
Qed.

(** The same, when what follows is shaped for the values that can reach
    it. *)
Lemma shaped_bind_val {A C : Type} (m : M unit A) (k : A -> M unit C) :
  shaped ok m -> (forall a, snd m = Next a -> shaped ok (k a)) ->
  shaped ok (bind m k).
Proof.
  intros Hm Hk. rewrite bind_unfold.
  destruct m as [t [a|r|e]]; simpl in *; try exact Hm.
  specialize (Hk a eq_refl). destruct (k a) as [t' [c|r|e]]; simpl in *.
  - apply Forall_app; split; assumption.
  - destruct Hk as [u [msg [-> Hu]]]. exists (t ++ u), msg.
    split; [now rewrite app_assoc | apply Forall_app; split; assumption].
  - apply Forall_app; split; assumption.
Qed.

Lemma shaped_for_each {A : Type} (l : list A) (body : A -> M unit unit) :
  (forall x, shaped ok (body x)) -> shaped ok (for_each l body).
Proof.
  intros H. induction l as [|x l IH]; simpl.
  - apply (shaped_ret tt).
  - apply shaped_bind; [apply H | intros _; exact IH].
Qed.

Lemma shaped_for_stream (s : stream) (body : json -> M unit unit) :
  (forall x, In x (fst s) -> shaped ok (body x)) ->
  shaped ok (for_stream s body).
Proof.
  intros H. unfold for_stream. apply shaped_bind.
  - destruct s as [l o]; simpl in *.
    induction l as [|x l IH]; simpl; [apply (shaped_ret tt)|].
    apply shaped_bind; [apply H; now left | intros _; apply IH].
    intros y Hy. apply H. now right.
  - intros _. destruct (snd s); [apply shaped_raise | apply (shaped_ret tt)].
Qed.

End Shaped.

Lemma shaped_weaken {A : Type} (ok ok' : effect -> Prop) (m : M unit A) :
  (forall e, ok e -> ok' e) -> shaped ok m -> shaped ok' m.
Proof.
  intros H. destruct m as [t [a|r|e]]; simpl.
  - apply Forall_impl, H.
  - intros [u [msg [-> Hu]]]. exists u, msg. split; [reflexivity|].
    revert Hu. apply Forall_impl, H.
  - apply Forall_impl, H.
Qed.

(** A shaped block that does not fall through leaves an error event or an
    exception behind. *)
Lemma shaped_return_error {A : Type} ok (m : M unit A) t r :
  shaped ok m -> m = (t, Return r) ->
  exists msg, In (Yield (error_event msg)) t.
Proof.
  intros H ->. destruct H as [u [msg [-> _]]].
  exists msg. apply in_or_app. right. now left.
Qed.

Lemma shaped_effects {A : Type} (ok : effect -> Prop) (m : M unit A) e :
  shaped ok m -> In e (fst m) ->
  ok e \/ exists msg, e = Yield (error_event msg).
Proof.
  destruct m as [t [a|r|x]]; simpl; intros H Hin.
  - left. rewrite Forall_forall in H. auto.
  - destruct H as [u [msg [-> Hu]]]. apply in_app_or in Hin as [Hin|Hin].
    + left. rewrite Forall_forall in Hu. auto.
    + right. exists msg. destruct Hin as [<-|[]]. reflexivity.
  - left. rewrite Forall_forall in H. auto.
Qed.

(* ================================================================== *)
(** ** The steps of [generate] *)
(* ================================================================== *)

Lemma log_is_parsing e : log_effect e -> parsing_effect e.
Proof.
  destruct e; simpl; try tauto.
  destruct (type_name e); simpl; tauto.
Qed.

Lemma log_is_voice e : log_effect e -> voice_effect e.
Proof.
  destruct e; simpl; try tauto.
  destruct (type_name e); simpl; tauto.
Qed.

Ltac shape :=
  repeat first
    [ apply shaped_error_return
    | apply shaped_ret
    | apply shaped_raise
    | apply shaped_item
    | apply shaped_yield; simpl; solve [auto 10]
    | apply shaped_call; exact I
    | apply shaped_for_each; intros
    | apply shaped_bind; [|intros]
    | match goal with
      | |- shaped _ (if ?b then _ else _) => destruct b
      | |- shaped _ (match ?x with _ => _ end) => destruct x
      end ].

Section Steps.

Context {B : Backend}.

Lemma parse_pdf_step_shaped c : shaped parsing_effect (parse_pdf_step c).
Proof. unfold parse_pdf_step. shape. Qed.

Lemma parse_url_step_shaped c : shaped parsing_effect (parse_url_step c).
Proof. unfold parse_url_step. shape. Qed.

Lemma merge_step_shaped c u p : shaped parsing_effect (merge_step c u p).
Proof. unfold merge_step. shape. Qed.

Lemma speaker_config_step_shaped label ty name path :
  shaped log_effect (speaker_config_step label ty name path).
Proof. unfold speaker_config_step. shape. Qed.

Lemma prepare_voices_step_shaped c c1 c2 :
  shaped voice_effect (prepare_voices_step c c1 c2).
Proof. unfold prepare_voices_step. shape. Qed.

(** What a step hands on when it falls through. *)

Lemma parse_pdf_step_next c t p :
  parse_pdf_step c = (t, Next p) -> p = pdf_text c.
Proof.
  unfold parse_pdf_step, pdf_text.
  destruct (Py.if_set (pdf_path c)) as [path|]; [|now inversion 1].
  rewrite !bind_unfold. simpl.
  destruct (parse_pdf path) as [r|msg]; simpl; [|discriminate].
  destruct (pr_success r); simpl.
  - rewrite for_each_yield. simpl. now inversion 1.
  - destruct (pr_error r); simpl; discriminate.
Qed.

Lemma parse_url_step_next c t u :
  parse_url_step c = (t, Next u) -> u = url_text c.
Proof.
  unfold parse_url_step, url_text.
  destruct (Py.truthy (url_input c)); [|now inversion 1].
  rewrite !bind_unfold. simpl.
  destruct (parse_url (url_input c)) as [r|msg]; simpl; [|discriminate].
  destruct (pr_success r); simpl.
  - rewrite for_each_yield. simpl. now inversion 1.
  - destruct (pr_error r); simpl; [|discriminate].
    rewrite for_each_yield. simpl. now inversion 1.
Qed.

Lemma merge_step_next c u p t m :
  merge_step c u p = (t, Next m) ->
  merge_contents (text_input c) u p = Ok m /\ m <> "" /\ m <> NO_CONTENT.
Proof.
  unfold merge_step. rewrite bind_unfold. simpl.
  destruct (merge_contents (text_input c) u p) as [x|msg]; simpl;
    [|discriminate].
  destruct (orb (negb (Py.truthy x)) (String.eqb x NO_CONTENT)) eqn:E;
    simpl; [discriminate|].
  inversion 1; subst. apply orb_false_elim in E as [E1 E2].
  repeat split.
  - intros ->. discriminate.
  - now apply String.eqb_neq.
Qed.

(** A speaker's config once its block has fallen through. *)
Lemma speaker_config_step_next label ty name path t cfg :
  speaker_config_step label ty name path = (t, Next cfg) ->
  (ty = "default" -> cfg = [("type", "default"); ("voice_name", name)]) /\
  (ty = "custom" ->
   exists p, Py.if_set path = Some p /\
             cfg = [("type", "custom"); ("audio_file", p)]).
Proof.
  unfold speaker_config_step.
  destruct (String.eqb_spec ty "default") as [->|Hd].
  - inversion 1. split; [reflexivity | discriminate].
  - destruct (String.eqb_spec ty "custom") as [->|Hc].
    + destruct (Py.if_set path) as [p|]; simpl; inversion 1.
      split; [discriminate | intros _; now exists p].
    + inversion 1. split; intros; contradiction.
Qed.

Lemma podcast_step_unfold c m ids :
  podcast_step c m ids
  = (PodcastStream m (fst ids) (snd ids) (session_id c) (user_api_key c)
       :: map Yield
            (fst (generate_podcast_stream m (fst ids) (snd ids)
                                          (session_id c) (user_api_key c))),
     match snd (generate_podcast_stream m (fst ids) (snd ids)
                                        (session_id c) (user_api_key c)) with
     | None => Next tt
     | Some msg => Raised msg
     end).
Proof.
  unfold podcast_step. rewrite bind_unfold, for_stream_yield. reflexivity.
Qed.

End Steps.

(* ================================================================== *)
(** ** The phases of [generate] *)
(* ================================================================== *)

Section Phases.

Context {B : Backend}.

Lemma content_steps_unfold c :
  exists m : M unit string,
    content_steps c = (Yield PARSING :: fst m, snd m) /\
    shaped parsing_effect m /\
    (forall x, snd m = Next x ->
       merge_contents (text_input c) (url_text c) (pdf_text c) = Ok x /\
       x <> "" /\ x <> NO_CONTENT).
Proof.
  exists (pdf_content <- parse_pdf_step c ;;
          url_content <- parse_url_step c ;;
          merge_step c url_content pdf_content).
  split; [|split].
  - unfold content_steps. rewrite (bind_unfold (yield _)). reflexivity.
  - apply shaped_bind; [apply parse_pdf_step_shaped | intros p].
    apply shaped_bind; [apply parse_url_step_shaped | intros u].
    apply merge_step_shaped.
  - intros x. rewrite !bind_unfold.
    destruct (parse_pdf_step c) as [t1 [p|r|e]] eqn:E1; simpl; try discriminate.
    rewrite bind_unfold.
    destruct (parse_url_step c) as [t2 [u|r|e]] eqn:E2; simpl; try discriminate.
    destruct (merge_step c u p) as [t3 [m|r|e]] eqn:E3; simpl; try discriminate.
    intros [= ->].
    apply parse_pdf_step_next in E1. apply parse_url_step_next in E2.
    subst. eapply merge_step_next. exact E3.
Qed.

Lemma config_steps_unfold c :
  exists m : M unit (config * config),
    config_steps c = (Yield PREPARING :: fst m, snd m) /\
    shaped log_effect m /\
    (forall c1 c2, snd m = Next (c1, c2) ->
       (speaker1_type c = "default" ->
        c1 = [("type", "default"); ("voice_name", speaker1_voice_name c)]) /\
       (speaker2_type c = "default" ->
        c2 = [("type", "default"); ("voice_name", speaker2_voice_name c)]) /\
       (speaker1_type c = "custom" ->
        Py.if_set (speaker1_audio_path c) <> None) /\
       (speaker2_type c = "custom" ->
        Py.if_set (speaker2_audio_path c) <> None)).
Proof.
  exists (speaker1_config <-
            speaker_config_step "Speaker1" (speaker1_type c)
              (speaker1_voice_name c) (speaker1_audio_path c) ;;
          speaker2_config <-
            speaker_config_step "Speaker2" (speaker2_type c)
              (speaker2_voice_name c) (speaker2_audio_path c) ;;
          ret (speaker1_config, speaker2_config)).
  split; [|split].
  - unfold config_steps. rewrite (bind_unfold (yield _)). reflexivity.
  - apply shaped_bind; [apply speaker_config_step_shaped | intros p].
    apply shaped_bind; [apply speaker_config_step_shaped | intros u].
    apply shaped_ret.
  - intros c1 c2. rewrite !bind_unfold.
    destruct (speaker_config_step "Speaker1" _ _ _) as [t1 [p|r|e]] eqn:E1;
      simpl; try discriminate.
    rewrite bind_unfold.
    destruct (speaker_config_step "Speaker2" _ _ _) as [t2 [u|r|e]] eqn:E2;
      simpl; try discriminate.
    intros [= -> ->].
    apply speaker_config_step_next in E1 as [D1 C1].
    apply speaker_config_step_next in E2 as [D2 C2].
    repeat split; auto.
    + intros H. destruct (C1 H) as [q [-> _]]. discriminate.
    + intros H. destruct (C2 H) as [q [-> _]]. discriminate.
Qed.

(** What runs before the voice manager is called makes no provider call
    and, if it does not fall through by an exception, ends on an error
    event. *)
Lemma before_voices_unfold c :
  exists t1 t2,
    fst (before_voices c) = Yield PARSING :: t1 ++ t2 /\
    match snd (before_voices c) with
    | Next (m, (c1, c2)) =>
        Forall parsing_effect t1 /\
        (exists t2', t2 = Yield PREPARING :: t2' /\ Forall log_effect t2') /\
        (merge_contents (text_input c) (url_text c) (pdf_text c) = Ok m /\
         m <> "" /\ m <> NO_CONTENT) /\
        (speaker1_type c = "default" ->
         c1 = [("type", "default"); ("voice_name", speaker1_voice_name c)]) /\
        (speaker2_type c = "default" ->
         c2 = [("type", "default"); ("voice_name", speaker2_voice_name c)]) /\
        (speaker1_type c = "custom" ->
         Py.if_set (speaker1_audio_path c) <> None) /\
        (speaker2_type c = "custom" ->
         Py.if_set (speaker2_audio_path c) <> None)
    | Return _ =>
        exists u msg,
          t1 ++ t2 = u ++ [Yield (error_event msg)] /\
          Forall (fun e => parsing_effect e \/ log_effect e
                           \/ e = Yield PREPARING) u
    | Raised _ =>
        Forall (fun e => parsing_effect e \/ log_effect e
                         \/ e = Yield PREPARING) (t1 ++ t2)
    end.
Proof.
  destruct (content_steps_unfold c) as [m1 [E1 [S1 N1]]].
  destruct (config_steps_unfold c) as [m2 [E2 [S2 N2]]].
  unfold before_voices. rewrite bind_unfold, E1.
  destruct m1 as [t1 [x|[]|e]]; simpl in *.
  - rewrite bind_unfold, E2.
    destruct m2 as [t2 [[c1 c2]|[]|e]]; simpl in *.
    + exists t1, (Yield PREPARING :: t2). rewrite app_nil_r.
      split; [reflexivity|]. destruct (N2 c1 c2 eq_refl) as (A & A' & A'' & A''').
      repeat split; auto; try (now apply N1).
      exists t2. split; [reflexivity | exact S2].
    + destruct S2 as [u [msg [-> Hu]]].
      exists t1, (Yield PREPARING :: u ++ [Yield (error_event msg)]).
      split; [reflexivity|].
      exists (t1 ++ Yield PREPARING :: u), msg. split.
      * now rewrite <- app_assoc.
      * apply Forall_app. split.
        -- revert S1. apply Forall_impl. tauto.
        -- constructor; [tauto|]. revert Hu. apply Forall_impl. tauto.
    + exists t1, (Yield PREPARING :: t2). split; [reflexivity|].
      apply Forall_app. split.
      * revert S1. apply Forall_impl. tauto.
      * constructor; [tauto|]. revert S2. apply Forall_impl. tauto.
  - destruct S1 as [u [msg [-> Hu]]].
    exists (u ++ [Yield (error_event msg)]), []. rewrite app_nil_r.
    split; [reflexivity|]. exists u, msg. split; [reflexivity|].
    revert Hu. apply Forall_impl. tauto.
  - exists t1, []. rewrite app_nil_r. split; [reflexivity|].
    revert S1. apply Forall_impl. tauto.
Qed.

Lemma generate_body_split c :
  generate_body c
  = (x <- before_voices c ;;
     voice_ids <- prepare_voices_step c (fst (snd x)) (snd (snd x)) ;;
     podcast_step c (fst x) voice_ids).
Proof.
  unfold generate_body, before_voices.
  rewrite (bind_unfold (content_steps c)).
  rewrite (bind_unfold (bind (content_steps c) _)).
  rewrite (bind_unfold (content_steps c)).
  destruct (content_steps c) as [t1 [m|r|e]]; simpl; try reflexivity.
  rewrite (bind_unfold (config_steps c)).
  rewrite (bind_unfold (config_steps c)).
  destruct (config_steps c) as [t2 [cf|r|e]]; simpl; try reflexivity.
  rewrite !app_nil_r, <- app_assoc. reflexivity.
Qed.

End Phases.

(* ================================================================== *)
(** ** [allowed_file] *)
(* ================================================================== *)

Lemma split_last_none c s :
  Py.split_last c s = None <-> Py.contains_char c s = false.
Proof.
  induction s as [|a s IH]; simpl; [tauto|].
  destruct (Py.split_last c s) as [[u v]|].
  - split; [discriminate|]. intros H. apply orb_false_elim in H as [_ H].
    apply IH in H. discriminate.
  - destruct (Ascii.eqb a c); simpl; [split; discriminate|].
    split; intros _; [now apply IH | reflexivity].
Qed.

Lemma split_last_some c s u v :
  Py.split_last c s = Some (u, v) ->
  s = (u ++ String c v)%string /\ Py.contains_char c v = false.
Proof.
  revert u. induction s as [|a s IH]; simpl; intros u; [discriminate|].
  destruct (Py.split_last c s) as [[u' v']|] eqn:E.
  - intros [= <- <-]. destruct (IH u' eq_refl) as [-> H]. now split.
  - destruct (Ascii.eqb_spec a c) as [->|]; [|discriminate].
    intros [= <- <-]. split; [reflexivity | now apply split_last_none].
Qed.

Lemma split_last_append c stem ext :
  Py.contains_char c ext = false ->
  Py.split_last c (stem ++ String c ext) = Some (stem, ext).
Proof.
  intros H. induction stem as [|a stem IH]; simpl.
  - apply split_last_none in H. rewrite H. now rewrite Ascii.eqb_refl.
  - now rewrite IH.
Qed.

(** [allowed_file] decides the check in the words of the specification. *)
Lemma allowed_file_iff name allowed :
  allowed_file name allowed = true <-> has_allowed_extension name allowed.
Proof.
  unfold allowed_file, has_allowed_extension, Py.rsplit1. split.
  - destruct (Py.contains_char "." name) eqn:C; [|discriminate].
    destruct (Py.split_last "." name) as [[u v]|] eqn:E.
    + simpl. intros H. apply mem_In in H.
      apply split_last_some in E as [-> Hv]. now exists u, v.
    + apply split_last_none in E. congruence.
  - intros [stem [ext [-> [Hext Hin]]]]. simpl.
    rewrite (@split_last_append "."%char stem ext Hext). simpl.
    replace (Py.contains_char "." (stem ++ String "." ext)) with true.
    + now apply mem_In.
    + symmetry. clear. induction stem as [|a stem IH]; simpl.
      * reflexivity.
      * rewrite IH. apply orb_true_r.
Qed.

Lemma allowed_file_truthy name allowed :
  allowed_file name allowed = true -> Py.truthy name = true.
Proof. destruct name; [discriminate | reflexivity]. Qed.

(* ================================================================== *)
(** ** The uploads of [generate_podcast] *)
(* ================================================================== *)

Section Uploads.

Context {B : Backend}.

(** A write either leaves the file or raises and leaves nothing. *)
Lemma save_cases R path f :
  (write_file path f = Ok tt /\
   save (R:=R) path f = ([Save path f], Next tt)) \/
  (exists msg,
     write_file path f = Raise msg /\
     save (R:=R) path f = ([], Raised msg)).
Proof.
  unfold save. destruct (write_file path f) as [[]|msg].
  - left. now split.
  - right. exists msg. now split.
Qed.

(** The PDF slot: the file is saved, or the slot is skipped, or the write
    of an allowed file raises. *)
Lemma pdf_upload_step_cases req sid :
  (exists f,
     Py.get "pdf_file" (files req) = Some f /\
     allowed_file (filename f) ALLOWED_PDF_EXTENSIONS = true /\
     pdf_upload_step req sid
     = ([Save (Py.path_join UPLOAD_DIR
                 (sid ++ "_" ++ secure_filename (filename f))) f],
        Next (Some (secure_filename (filename f)),
              Some (Py.path_join UPLOAD_DIR
                      (sid ++ "_" ++ secure_filename (filename f)))))) \/
  ((forall f, Py.get "pdf_file" (files req) = Some f ->
              allowed_file (filename f) ALLOWED_PDF_EXTENSIONS = false) /\
   pdf_upload_step req sid = ([], Next (None, None))) \/
  (exists f msg,
     Py.get "pdf_file" (files req) = Some f /\
     allowed_file (filename f) ALLOWED_PDF_EXTENSIONS = true /\
     write_file (Py.path_join UPLOAD_DIR
                   (sid ++ "_" ++ secure_filename (filename f))) f
     = Raise msg /\
     pdf_upload_step req sid = ([], Raised msg)).
Proof.
  unfold pdf_upload_step.
  destruct (Py.get "pdf_file" (files req)) as [f|];
    [|right; left; now split].
  destruct (allowed_file (filename f) ALLOWED_PDF_EXTENSIONS) eqn:E.
  - unfold file_truthy. rewrite (allowed_file_truthy _ _ E).
    cbv beta iota zeta. change (true && true) with true. cbv iota.
    destruct (save_cases unit
                (Py.path_join UPLOAD_DIR
                   (sid ++ "_" ++ secure_filename (filename f))) f)
      as [[_ S]|(msg & W & S)]; rewrite S.
    + left. exists f. auto.
    + right; right. exists f, msg. auto.
  - right; left. rewrite andb_false_r. split; [|reflexivity].
    now intros ? [= <-].
Qed.

(** A PDF slot that falls through has saved the file or skipped it. *)
Lemma pdf_upload_step_next req sid tp pdf :
  pdf_upload_step req sid = (tp, Next pdf) ->
  (exists f,
     Py.get "pdf_file" (files req) = Some f /\
     allowed_file (filename f) ALLOWED_PDF_EXTENSIONS = true /\
     pdf_upload_step req sid
     = ([Save (Py.path_join UPLOAD_DIR
                 (sid ++ "_" ++ secure_filename (filename f))) f],
        Next (Some (secure_filename (filename f)),
              Some (Py.path_join UPLOAD_DIR
                      (sid ++ "_" ++ secure_filename (filename f)))))) \/
  ((forall f, Py.get "pdf_file" (files req) = Some f ->
              allowed_file (filename f) ALLOWED_PDF_EXTENSIONS = false) /\
   pdf_upload_step req sid = ([], Next (None, None))).
Proof.
  intros E.
  destruct (pdf_upload_step_cases req sid)
    as [H|[H|(f & msg & _ & _ & _ & R)]]; auto.
  rewrite R in E. discriminate.
Qed.

Lemma speaker_upload_step_cases req sid tag ty :
  (exists f,
     ty = "custom" /\
     Py.get (tag ++ "_audio") (files req) = Some f /\
     allowed_file (filename f) ALLOWED_AUDIO_EXTENSIONS = true /\
     speaker_upload_step req sid tag ty
     = ([Save (Py.path_join UPLOAD_DIR
                 (sid ++ "_" ++ tag ++ "_" ++ secure_filename (filename f))) f],
        Next (Some (Py.path_join UPLOAD_DIR
                      (sid ++ "_" ++ tag ++ "_"
                       ++ secure_filename (filename f)))))) \/
  ((ty <> "custom" \/ allowed_audio tag req = false) /\
   speaker_upload_step req sid tag ty = ([], Next None)) \/
  (exists f msg,
     ty = "custom" /\
     Py.get (tag ++ "_audio") (files req) = Some f /\
     allowed_file (filename f) ALLOWED_AUDIO_EXTENSIONS = true /\
     write_file (Py.path_join UPLOAD_DIR
                   (sid ++ "_" ++ tag ++ "_" ++ secure_filename (filename f)))
                f
     = Raise msg /\
     speaker_upload_step req sid tag ty = ([], Raised msg)).
Proof.
  unfold speaker_upload_step, allowed_audio.
  destruct (String.eqb_spec ty "custom") as [->|N];
    [|right; left; split; auto].
  destruct (Py.get (tag ++ "_audio") (files req)) as [f|];
    [|right; left; split; auto].
  destruct (allowed_file (filename f) ALLOWED_AUDIO_EXTENSIONS) eqn:E.
  - unfold file_truthy. rewrite (allowed_file_truthy _ _ E).
    cbv beta iota zeta. change (true && true) with true. cbv iota.
    destruct (save_cases unit
                (Py.path_join UPLOAD_DIR
                   (sid ++ "_" ++ tag ++ "_" ++ secure_filename (filename f)))
                f)
      as [[_ S]|(msg & W & S)]; rewrite S.
    + left. exists f. auto.
    + right; right. exists f, msg. auto.
  - right; left. rewrite andb_false_r. auto.
Qed.

(** An audio slot that falls through has saved the file or skipped it. *)
Lemma speaker_upload_step_next req sid tag ty t a :
  speaker_upload_step req sid tag ty = (t, Next a) ->
  (exists f,
     ty = "custom" /\
     Py.get (tag ++ "_audio") (files req) = Some f /\
     allowed_file (filename f) ALLOWED_AUDIO_EXTENSIONS = true /\
     speaker_upload_step req sid tag ty
     = ([Save (Py.path_join UPLOAD_DIR
                 (sid ++ "_" ++ tag ++ "_" ++ secure_filename (filename f))) f],
        Next (Some (Py.path_join UPLOAD_DIR
                      (sid ++ "_" ++ tag ++ "_"
                       ++ secure_filename (filename f)))))) \/
  ((ty <> "custom" \/ allowed_audio tag req = false) /\
   speaker_upload_step req sid tag ty = ([], Next None)).
Proof.
  intros E.
  destruct (speaker_upload_step_cases req sid tag ty)
    as [H|[H|(f & msg & _ & _ & _ & _ & R)]]; auto.
  rewrite R in E. discriminate.
Qed.

(** The slots save and do nothing else, and never [return]. *)
Lemma upload_steps_save req sid :
  Forall is_save (fst (pdf_upload_step req sid)) /\
  forall tag ty, Forall is_save (fst (speaker_upload_step req sid tag ty)).
Proof.
  split.
  - destruct (pdf_upload_step_cases req sid)
      as [[f (_ & _ & ->)]|[[_ ->]|(f & msg & _ & _ & _ & ->)]];
      simpl; repeat constructor.
  - intros tag ty.
    destruct (speaker_upload_step_cases req sid tag ty)
      as [[f (_ & _ & _ & ->)]|[[_ ->]|(f & msg & _ & _ & _ & _ & ->)]];
      simpl; repeat constructor.
Qed.

Lemma upload_steps_no_return req sid :
  (forall t r, pdf_upload_step req sid <> (t, Return r)) /\
  forall tag ty t r, speaker_upload_step req sid tag ty <> (t, Return r).
Proof.
  split.
  - intros t r.
    destruct (pdf_upload_step_cases req sid)
      as [[f (_ & _ & ->)]|[[_ ->]|(f & msg & _ & _ & _ & ->)]];
      discriminate.
  - intros tag ty t r.
    destruct (speaker_upload_step_cases req sid tag ty)
      as [[f (_ & _ & _ & ->)]|[[_ ->]|(f & msg & _ & _ & _ & _ & ->)]];
      discriminate.
Qed.

(** When [extract] falls through, the three slots have; its effects are
    theirs. *)
Lemma extract_unfold req sid key ts c :
  extract req sid key = (ts, Next c) ->
  exists tp pdf t1 a1 t2 a2,
    pdf_upload_step req sid = (tp, Next pdf) /\
    speaker_upload_step req sid "speaker1"
      (Py.get_default "speaker1_type" "default" (form req)) = (t1, Next a1) /\
    speaker_upload_step req sid "speaker2"
      (Py.get_default "speaker2_type" "default" (form req)) = (t2, Next a2) /\
    extract req sid key
    = (tp ++ t1 ++ t2,
       Next {| session_id := sid;
               user_api_key := key;
               text_input :=
                 Py.strip (Py.get_default "text_input" "" (form req));
               url_input := Py.strip (Py.get_default "url" "" (form req));
               pdf_file := fst pdf;
               pdf_path := snd pdf;
               speaker1_type :=
                 Py.get_default "speaker1_type" "default" (form req);
               speaker1_voice_name :=
                 Py.get_default "speaker1_voice_name" "mini" (form req);
               speaker1_audio_path := a1;
               speaker2_type :=
                 Py.get_default "speaker2_type" "default" (form req);
               speaker2_voice_name :=
                 Py.get_default "speaker2_voice_name" "max" (form req);
               speaker2_audio_path := a2 |}).
Proof.
  unfold extract.
  destruct (pdf_upload_step req sid) as [tp [pdf|r|m]];
    [|discriminate|discriminate].
  destruct (speaker_upload_step req sid "speaker1"
              (Py.get_default "speaker1_type" "default" (form req)))
    as [t1 [a1|r|m]]; [|discriminate|discriminate].
  destruct (speaker_upload_step req sid "speaker2"
              (Py.get_default "speaker2_type" "default" (form req)))
    as [t2 [a2|r|m]]; [|discriminate|discriminate].
  intros _. exists tp, pdf, t1, a1, t2, a2.
  repeat split. cbn [bind ret fst snd]. now rewrite app_nil_r.
Qed.

(** [extract] falls through or raises the exception of a write; until
    then it has only saved. *)
Lemma extract_cases req sid key :
  exists ts,
    Forall is_save ts /\
    ((exists c, extract req sid key = (ts, Next c)) \/
     (exists msg, extract req sid key = (ts, Raised msg))).
Proof.
  destruct (upload_steps_save req sid) as [Hp Hs].
  destruct (upload_steps_no_return req sid) as [Np Ns].
  pose proof (Hs "speaker1"
                (Py.get_default "speaker1_type" "default" (form req))) as H1.
  pose proof (Hs "speaker2"
                (Py.get_default "speaker2_type" "default" (form req))) as H2.
  pose proof (Ns "speaker1"
                (Py.get_default "speaker1_type" "default" (form req))) as N1.
  pose proof (Ns "speaker2"
                (Py.get_default "speaker2_type" "default" (form req))) as N2.
  unfold extract.
  destruct (pdf_upload_step req sid) as [tp [pdf|r|m]]; cbn [fst] in Hp.
  2: now destruct (Np tp r).
  2: { exists tp. split; [exact Hp|]. right. now exists m. }
  destruct (speaker_upload_step req sid "speaker1"
              (Py.get_default "speaker1_type" "default" (form req)))
    as [t1 [a1|r|m]]; cbn [fst] in H1.
  2: now destruct (N1 t1 r).
  2: { exists (tp ++ t1). split; [now apply Forall_app|].
       right. now exists m. }
  destruct (speaker_upload_step req sid "speaker2"
              (Py.get_default "speaker2_type" "default" (form req)))
    as [t2 [a2|r|m]]; cbn [fst] in H2.
  2: now destruct (N2 t2 r).
  2: { exists (tp ++ t1 ++ t2). split.
       - repeat (apply Forall_app; split); assumption.
       - right. now exists m. }
  exists (tp ++ t1 ++ t2). split.
  - repeat (apply Forall_app; split); assumption.
  - left. eexists. cbn [bind ret]. now rewrite app_nil_r.
Qed.

(** The effects of [extract] are those of the three slots. *)
Lemma extract_effects req sid key e :
  In e (fst (extract req sid key)) ->
  In e (fst (pdf_upload_step req sid)) \/
  In e (fst (speaker_upload_step req sid "speaker1"
               (Py.get_default "speaker1_type" "default" (form req)))) \/
  In e (fst (speaker_upload_step req sid "speaker2"
               (Py.get_default "speaker2_type" "default" (form req)))).
Proof.
  unfold extract.
  destruct (pdf_upload_step req sid) as [tp [pdf|r|m]]; cbn [bind fst];
    [|now left|now left].
  destruct (speaker_upload_step req sid "speaker1"
              (Py.get_default "speaker1_type" "default" (form req)))
    as [t1 [a1|r|m]]; cbn [bind fst];
    [|intros H; apply in_app_or in H as [H|H]; auto
     |intros H; apply in_app_or in H as [H|H]; auto].
  destruct (speaker_upload_step req sid "speaker2"
              (Py.get_default "speaker2_type" "default" (form req)))
    as [t2 [a2|r|m]]; cbn [bind ret fst];
    rewrite ?app_nil_r;
    intros H; apply in_app_or in H as [H|H]; auto;
    apply in_app_or in H as [H|H]; auto.
Qed.

(** Where a file that [extract] saves comes from. *)
Lemma extract_saves_origin req sid key path f :
  In (Save path f) (fst (extract req sid key)) ->
  (Py.get "pdf_file" (files req) = Some f /\
   allowed_file (filename f) ALLOWED_PDF_EXTENSIONS = true /\
   path = Py.path_join UPLOAD_DIR
            (sid ++ "_" ++ secure_filename (filename f))) \/
  (exists tag,
     (tag = "speaker1" \/ tag = "speaker2") /\
     Py.get_default (tag ++ "_type") "default" (form req) = "custom" /\
     Py.get (tag ++ "_audio") (files req) = Some f /\
     allowed_file (filename f) ALLOWED_AUDIO_EXTENSIONS = true /\
     path = Py.path_join UPLOAD_DIR
              (sid ++ "_" ++ tag ++ "_" ++ secure_filename (filename f))).
Proof.
  intros Hin. apply extract_effects in Hin as [Hin|[Hin|Hin]].
  - destruct (pdf_upload_step_cases req sid)
      as [(f' & G & A & Ep)|[[_ Ep]|(f' & msg & _ & _ & _ & Ep)]];
      rewrite Ep in Hin; cbn [fst] in Hin; [|destruct Hin|destruct Hin].
    destruct Hin as [[= <- <-]|[]]. left. auto.
  - destruct (speaker_upload_step_cases req sid "speaker1"
                (Py.get_default "speaker1_type" "default" (form req)))
      as [(f' & Ty & G & A & E1)|[[_ E1]|(f' & msg & _ & _ & _ & _ & E1)]];
      rewrite E1 in Hin; cbn [fst] in Hin; [|destruct Hin|destruct Hin].
    destruct Hin as [[= <- <-]|[]]. right. exists "speaker1". auto 10.
  - destruct (speaker_upload_step_cases req sid "speaker2"
                (Py.get_default "speaker2_type" "default" (form req)))
      as [(f' & Ty & G & A & E2)|[[_ E2]|(f' & msg & _ & _ & _ & _ & E2)]];
      rewrite E2 in Hin; cbn [fst] in Hin; [|destruct Hin|destruct Hin].
    destruct Hin as [[= <- <-]|[]]. right. exists "speaker2". auto 10.
Qed.

End Uploads.

(* ================================================================== *)
(** ** The generator and its handler *)
(* ================================================================== *)

Section Generator.

Context {B : Backend}.

Lemma generate_unfold c :
  generate c
  = match generate_body c with
    | (t, Raised msg) =>
        (t ++ [Yield (error_event ("播客生成失败: " ++ msg))], Next tt)
    | other => other
    end.
Proof.
  unfold generate, try_except.
  destruct (generate_body c) as [t [a|r|e]]; reflexivity.
Qed.

(** With an API key the handler saves the uploads and then runs the
    generator on the closure it has extracted; a write that raises ends
    the handler with its exception before there is a generator. *)
Lemma generate_podcast_unfold req uuid4 :
  Py.truthy (Py.strip (Py.get_default "api_key" "" (form req))) = true ->
  (exists ts c,
     extract req uuid4 (Py.strip (Py.get_default "api_key" "" (form req)))
     = (ts, Next c) /\
     Forall is_save ts /\
     generate_podcast req uuid4 = (ts ++ fst (generate c), snd (generate c)))
  \/
  (exists ts msg,
     extract req uuid4 (Py.strip (Py.get_default "api_key" "" (form req)))
     = (ts, Raised msg) /\
     Forall is_save ts /\
     generate_podcast req uuid4 = (ts, Raised msg)).
Proof.
  intros K. unfold generate_podcast. rewrite K. simpl.
  destruct (extract_cases req uuid4
              (Py.strip (Py.get_default "api_key" "" (form req))))
    as (ts & S & [[c E]|[msg E]]); rewrite E.
  - left. exists ts, c. repeat split; auto. now rewrite bind_unfold.
  - right. exists ts, msg. repeat split; auto.
Qed.

(** Without one it runs [error_gen] and nothing else. *)
Lemma generate_podcast_no_key req uuid4 :
  api_key_missing req ->
  generate_podcast req uuid4
  = ([Yield (error_event "未提供 API Key")], Next tt).
Proof. unfold api_key_missing, generate_podcast. now intros ->. Qed.

Lemma key_missing_or_truthy req :
  api_key_missing req \/
  Py.truthy (Py.strip (Py.get_default "api_key" "" (form req))) = true.
Proof.
  unfold api_key_missing.
  destruct (Py.strip _); [now left | now right].
Qed.


End Generator.

(* ================================================================== *)
(** ** Missing inputs *)
(* ================================================================== *)




(* ================================================================== *)
(** ** Everything the generator does *)
(* ================================================================== *)

Ltac shape_with tac :=
  repeat first
    [ solve [tac]
    | apply shaped_error_return
    | apply shaped_ret
    | apply shaped_raise
    | apply shaped_item
    | apply shaped_yield; solve [tac]
    | apply shaped_call; solve [tac]
    | apply shaped_for_each; intros
    | apply shaped_bind; [|intros]
    | match goal with
      | |- shaped _ (if ?b then _ else _) => destruct b
      | |- shaped _ (match ?x with _ => _ end) => destruct x
      end ].

Section Everything.

Context {B : Backend}.

Lemma podcast_step_shaped c m ids :
  shaped (generator_effect c) (podcast_step c m ids).
Proof.
  unfold podcast_step. apply shaped_bind.
  - apply shaped_call. now split.
  - intros _. apply shaped_for_stream. intros x Hx. apply shaped_yield.
    right. unfold forwarded. eauto 10.
Qed.

Lemma generate_body_shaped c : shaped (generator_effect c) (generate_body c).
Proof.
  unfold generate_body, content_steps, config_steps, parse_pdf_step,
    parse_url_step, merge_step, speaker_config_step, prepare_voices_step.
  shape_with ltac:(first [apply podcast_step_shaped | simpl; auto 10]).
Qed.

Lemma generate_effects c e :
  In e (fst (generate c)) ->
  generator_effect c e \/ exists msg, e = Yield (error_event msg).
Proof.
  rewrite generate_unfold. pose proof (generate_body_shaped c) as S.
  destruct (generate_body c) as [t [a|r|msg]] eqn:E; simpl.
  - intros Hin. eapply shaped_effects; [exact S | exact Hin].
  - intros Hin. eapply shaped_effects; [exact S | exact Hin].
  - intros Hin. apply in_app_or in Hin as [Hin|[ <- | [] ]].
    + eapply shaped_effects; [exact S | exact Hin].
    + right. eauto.
Qed.

End Everything.

(* ================================================================== *)
(** ** Event types *)
(* ================================================================== *)

Lemma type_name_object e s :
  type_name e = Some s ->
  exists kv, e = JObj kv /\ Py.get "type" kv = Some (JStr s).
Proof.
  unfold type_name, event_type. destruct e; simpl; try discriminate.
  destruct (Py.get "type" kv) as [[]|] eqn:G; simpl; try discriminate.
  intros [= ->]. eauto.
Qed.

(** C2, as stated, fails: when the URL cannot be parsed the stream carries
    an event of type ['url_parse_warning'], which is none of ['progress'],
    ['log'], ['error'], ['trace_id']. *)
Lemma url_parse_warning_is_not_listed :
  ~ (forall e,
       In e (yields (trace (@generate_podcast Sample.backend
                              Sample.full_request Sample.uuid_a))) ->
       exists s, type_name e = Some s /\ In s LISTED_TYPES).
Proof.
  intros H.
  destruct (H (url_parse_warning_event "unreachable" "timeout"))
    as [s [Hs Hin]].
  - vm_compute. auto 10.
  - injection Hs as <-. simpl in Hin.
    repeat (destruct Hin as [Hin|Hin]; [discriminate|]). exact Hin.
Qed.

(** C2, amended.  Every event on the stream of [/api/generate_podcast] is
    either an event the podcast generator has produced, forwarded as it is,
    or a JSON object whose ['type'] is one of ['progress'], ['log'],
    ['error'], ['trace_id'] and ['url_parse_warning']. *)
Theorem stream_event_types {B : Backend} (req : request) (uuid4 : string)
    (e : json) :
  In e (yields (trace (generate_podcast req uuid4))) ->
  (exists kv s,
     e = JObj kv /\ Py.get "type" kv = Some (JStr s) /\ In s OWN_TYPES) \/
  forwarded e.
Proof.
  unfold trace. intros Hin. apply yields_In in Hin.
  assert (Own : forall ev, yields_one_of OWN_TYPES (Yield ev) ->
                  exists kv s, ev = JObj kv /\
                    Py.get "type" kv = Some (JStr s) /\ In s OWN_TYPES).
  { intros ev. simpl. destruct (type_name ev) as [s|] eqn:T; [|tauto].
    intros Hs. destruct (type_name_object _ T) as [kv [-> G]]. eauto. }
  destruct (key_missing_or_truthy req) as [K|K].
  - rewrite (generate_podcast_no_key uuid4 K) in Hin.
    destruct Hin as [[= <-]|[]]. left. apply Own. simpl. auto.
  - destruct (generate_podcast_unfold req uuid4 K)
      as [(ts & c & _ & Hs & E)|(ts & msg & _ & Hs & E)];
      rewrite E in Hin; simpl in Hin.
    + apply in_app_or in Hin as [Hin|Hin].
      * rewrite Forall_forall in Hs. elim (Hs _ Hin).
      * destruct (generate_effects c _ Hin) as [[G|G]|[msg [= ->]]].
        -- left. now apply Own.
        -- now right.
        -- left. apply Own. simpl. auto.
    + rewrite Forall_forall in Hs. elim (Hs _ Hin).
Qed.

(** The theorem on a log event of the sample stream. *)
Lemma stream_event_types_witness :
  (exists kv s,
     log_event "fetch failed" = JObj kv /\
     Py.get "type" kv = Some (JStr s) /\ In s OWN_TYPES) \/
  @forwarded Sample.backend (log_event "fetch failed").
Proof.
  apply (@stream_event_types Sample.backend Sample.full_request Sample.uuid_a).
  vm_compute. auto 20.
Defined.

(* ================================================================== *)
(** ** Exceptions *)
(* ================================================================== *)

Section Exceptions.

Context {B : Backend}.

(** A step whose helper raises stops at the call, with the exception. *)

Lemma parse_pdf_step_raise c path msg :
  Py.if_set (pdf_path c) = Some path ->
  parse_pdf path = Raise msg ->
  parse_pdf_step c
  = ([Yield (log_event ("已上传 PDF: " ++ Py.fmt (pdf_file c)));
      ParsePdf path],
     Raised msg).
Proof.
  unfold parse_pdf_step. intros -> P.
  rewrite bind_unfold. cbn [yield fst snd].
  rewrite bind_unfold. unfold call. rewrite P. reflexivity.
Qed.

Lemma parse_url_step_raise c msg :
  Py.truthy (url_input c) = true ->
  parse_url (url_input c) = Raise msg ->
  parse_url_step c
  = ([Yield (log_event ("开始解析网址: " ++ url_input c));
      ParseUrl (url_input c)],
     Raised msg).
Proof.
  unfold parse_url_step. intros -> P.
  rewrite bind_unfold. cbn [yield fst snd].
  rewrite bind_unfold. unfold call. rewrite P. reflexivity.
Qed.

Lemma merge_step_raise c u p msg :
  merge_contents (text_input c) u p = Raise msg ->
  merge_step c u p = ([MergeContents (text_input c) u p], Raised msg).
Proof.
  unfold merge_step. intros P.
  rewrite bind_unfold. unfold call. rewrite P. reflexivity.
Qed.

Lemma prepare_voices_step_raise c c1 c2 msg :
  prepare_voices c1 c2 (user_api_key c) = Raise msg ->
  prepare_voices_step c c1 c2
  = ([PrepareVoices c1 c2 (user_api_key c)], Raised msg).
Proof.
  unfold prepare_voices_step. intros P.
  rewrite bind_unfold. unfold call. rewrite P. reflexivity.
Qed.

(** The [except] clause appends its event to what the block has done. *)
Lemma generate_raised c t msg :
  generate_body c = (t, Raised msg) ->
  generate c = (t ++ [caught msg], Next tt).
Proof. intros E. now rewrite generate_unfold, E. Qed.

Lemma content_steps_steps c :
  content_steps c
  = (Yield PARSING
       :: fst (pdf_content <- parse_pdf_step c ;;
               url_content <- parse_url_step c ;;
               merge_step c url_content pdf_content),
     snd (pdf_content <- parse_pdf_step c ;;
          url_content <- parse_url_step c ;;
          merge_step c url_content pdf_content)).
Proof. unfold content_steps. now rewrite (bind_unfold (yield _)). Qed.

Lemma content_steps_raised c t msg :
  content_steps c = (t, Raised msg) -> generate_body c = (t, Raised msg).
Proof. intros E. unfold generate_body. now rewrite bind_unfold, E. Qed.

End Exceptions.

(** C4.  The generator never ends by an exception.  An exception of the
    PDF parser, of the URL parser, of the merge, of the voice manager or
    of the podcast stream ends the generator right after the call (for the
    podcast stream: after the events it has produced) with one more event,
    the last, of type ['error'], whose message ends with the message of
    the exception; and so does every other exception of the [try]
    block. *)
Theorem generate_catches_exceptions {B : Backend} (c : closure) :
  (forall msg, snd (generate c) <> Raised msg) /\
  (forall path msg,
     Py.if_set (pdf_path c) = Some path ->
     parse_pdf path = Raise msg ->
     generate c
     = ([Yield PARSING;
         Yield (log_event ("已上传 PDF: " ++ Py.fmt (pdf_file c)));
         ParsePdf path;
         caught msg],
        Next tt)) /\
  (forall tp p msg,
     parse_pdf_step c = (tp, Next p) ->
     Py.truthy (url_input c) = true ->
     parse_url (url_input c) = Raise msg ->
     generate c
     = (Yield PARSING
          :: tp
          ++ [Yield (log_event ("开始解析网址: " ++ url_input c));
              ParseUrl (url_input c);
              caught msg],
        Next tt)) /\
  (forall tp p tu u msg,
     parse_pdf_step c = (tp, Next p) ->
     parse_url_step c = (tu, Next u) ->
     merge_contents (text_input c) u p = Raise msg ->
     generate c
     = (Yield PARSING
          :: tp ++ tu
          ++ [MergeContents (text_input c) u p; caught msg],
        Next tt)) /\
  (forall tb m c1 c2 msg,
     before_voices c = (tb, Next (m, (c1, c2))) ->
     prepare_voices c1 c2 (user_api_key c) = Raise msg ->
     generate c
     = (tb ++ [PrepareVoices c1 c2 (user_api_key c); caught msg],
        Next tt)) /\
  (forall tb m c1 c2 tv ids events msg,
     before_voices c = (tb, Next (m, (c1, c2))) ->
     prepare_voices_step c c1 c2 = (tv, Next ids) ->
     generate_podcast_stream m (fst ids) (snd ids)
                             (session_id c) (user_api_key c)
     = (events, Some msg) ->
     generate c
     = (tb ++ tv
          ++ PodcastStream m (fst ids) (snd ids)
                           (session_id c) (user_api_key c)
             :: map Yield events
          ++ [caught msg],
        Next tt)) /\
  (forall t msg,
     generate_body c = (t, Raised msg) ->
     generate c = (t ++ [caught msg], Next tt)).
Proof.
  split; [|split; [|split; [|split; [|split; [|split]]]]].
  - intros msg. rewrite generate_unfold.
    destruct (generate_body c) as [t [[]|[]|e]]; simpl; discriminate.
  - intros path msg P R.
    rewrite (@generate_raised _ c
               [Yield PARSING;
                Yield (log_event ("已上传 PDF: " ++ Py.fmt (pdf_file c)));
                ParsePdf path] msg); [reflexivity|].
    apply content_steps_raised. rewrite content_steps_steps.
    rewrite bind_unfold, (parse_pdf_step_raise c P R). reflexivity.
  - intros tp p msg Ep U R.
    rewrite (@generate_raised _ c
               (Yield PARSING
                  :: tp
                  ++ [Yield (log_event ("开始解析网址: " ++ url_input c));
                      ParseUrl (url_input c)]) msg).
    + cbn [app]. now rewrite <- app_assoc.
    + apply content_steps_raised. rewrite content_steps_steps.
      rewrite bind_unfold, Ep. cbn [fst snd].
      rewrite bind_unfold, (parse_url_step_raise c U R). reflexivity.
  - intros tp p tu u msg Ep Eu R.
    rewrite (@generate_raised _ c
               (Yield PARSING
                  :: tp ++ tu ++ [MergeContents (text_input c) u p]) msg).
    + cbn [app]. now rewrite <- !app_assoc.
    + apply content_steps_raised. rewrite content_steps_steps.
      rewrite bind_unfold, Ep. cbn [fst snd].
      rewrite bind_unfold, Eu. cbn [fst snd].
      rewrite (merge_step_raise c u p R). reflexivity.
  - intros tb m c1 c2 msg Eb R.
    rewrite (@generate_raised _ c
               (tb ++ [PrepareVoices c1 c2 (user_api_key c)]) msg).
    + now rewrite <- app_assoc.
    + rewrite generate_body_split, bind_unfold, Eb. cbn [fst snd].
      rewrite bind_unfold, (prepare_voices_step_raise c c1 c2 R).
      reflexivity.
  - intros tb m c1 c2 tv ids events msg Eb Ev Es.
    rewrite (@generate_raised _ c
               (tb ++ tv
                ++ PodcastStream m (fst ids) (snd ids)
                                 (session_id c) (user_api_key c)
                   :: map Yield events) msg).
    + rewrite <- !app_assoc. reflexivity.
    + rewrite generate_body_split, bind_unfold, Eb. cbn [fst snd].
      rewrite bind_unfold, Ev. cbn [fst snd].
      rewrite podcast_step_unfold, Es. reflexivity.
  - intros t msg. apply generate_raised.
Qed.

(** The theorem on a backend whose helpers raise: the PDF parser for the
    sample closure, the URL parser once the closure has no PDF, the voice
    manager once it has neither PDF nor URL. *)
Lemma generate_catches_exceptions_witness :
  @generate Sample.raising_backend Sample.full_closure
  = ([Yield PARSING;
      Yield (log_event "已上传 PDF: paper.pdf");
      ParsePdf "uploads/0b0e3a52-6c1f-4a7e-9d0b-5f2f3c1a9e10_paper.pdf";
      caught "cannot open"],
     Next tt) /\
  @generate Sample.raising_backend url_closure
  = (Yield PARSING
       :: []
       ++ [Yield (log_event "开始解析网址: http://example.org");
           ParseUrl "http://example.org";
           caught "connection reset"],
     Next tt) /\
  @generate Sample.raising_backend default_closure
  = ([Yield PARSING;
      MergeContents "hello" "" "";
      Yield (log_event "内容解析完成，共 5 字符");
      Yield PREPARING]
     ++ [PrepareVoices [("type", "default"); ("voice_name", "mini")]
                       [("type", "default"); ("voice_name", "max")]
                       "sk-1";
         caught "quota"],
     Next tt) /\
  @generate failing_merge_backend url_closure
  = (Yield PARSING
       :: []
       ++ [Yield (log_event "开始解析网址: http://example.org");
           ParseUrl "http://example.org";
           Yield (url_parse_warning_event "unreachable" "timeout");
           Yield (log_event "fetch failed")]
       ++ [MergeContents "hello" "" ""; caught "out of memory"],
     Next tt) /\
  @generate failing_stream_backend default_closure
  = ([Yield PARSING;
      MergeContents "hello" "" "";
      Yield (log_event "内容解析完成，共 5 字符");
      Yield PREPARING]
     ++ [PrepareVoices [("type", "default"); ("voice_name", "mini")]
                       [("type", "default"); ("voice_name", "max")]
                       "sk-1";
         Yield (log_event "voices ready");
         Yield (trace_id_event "speaker1_clone" (JStr "t-1"))]
     ++ PodcastStream "hello" "voice-a" "voice-b" Sample.uuid_a "sk-1"
        :: map Yield [JObj [("type", JStr "progress");
                            ("step", JStr "script")]]
     ++ [caught "broken pipe"],
     Next tt).
Proof.
  destruct (@generate_catches_exceptions Sample.raising_backend
              Sample.full_closure) as (_ & Pdf & _).
  destruct (@generate_catches_exceptions Sample.raising_backend
              url_closure) as (_ & _ & Url & _).
  destruct (@generate_catches_exceptions Sample.raising_backend
              default_closure) as (_ & _ & _ & _ & Voices & _).
  destruct (@generate_catches_exceptions failing_merge_backend
              url_closure) as (_ & _ & _ & Merge & _).
  destruct (@generate_catches_exceptions failing_stream_backend
              default_closure) as (_ & _ & _ & _ & _ & Stream & _).
  split; [|split; [|split; [|split]]].
  - apply (Pdf "uploads/0b0e3a52-6c1f-4a7e-9d0b-5f2f3c1a9e10_paper.pdf"
               "cannot open"); reflexivity.
  - apply (Url [] "" "connection reset"); reflexivity.
  - apply (Voices
             [Yield PARSING;
              MergeContents "hello" "" "";
              Yield (log_event "内容解析完成，共 5 字符");
              Yield PREPARING]
             "hello"
             [("type", "default"); ("voice_name", "mini")]
             [("type", "default"); ("voice_name", "max")]
             "quota"); reflexivity.
  - apply (Merge []
             ""
             [Yield (log_event "开始解析网址: http://example.org");
              ParseUrl "http://example.org";
              Yield (url_parse_warning_event "unreachable" "timeout");
              Yield (log_event "fetch failed")]
             ""
             "out of memory"); reflexivity.
  - apply (Stream
             [Yield PARSING;
              MergeContents "hello" "" "";
              Yield (log_event "内容解析完成，共 5 字符");
              Yield PREPARING]
             "hello"
             [("type", "default"); ("voice_name", "mini")]
             [("type", "default"); ("voice_name", "max")]
             [PrepareVoices [("type", "default"); ("voice_name", "mini")]
                            [("type", "default"); ("voice_name", "max")]
                            "sk-1";
              Yield (log_event "voices ready");
              Yield (trace_id_event "speaker1_clone" (JStr "t-1"))]
             ("voice-a", "voice-b")
             [JObj [("type", JStr "progress"); ("step", JStr "script")]]
             "broken pipe"); reflexivity.
Defined.

(* ================================================================== *)
(** ** The API key *)
(* ================================================================== *)

(** C8, as stated, fails: a clone request without a key is served with the
    key of the server's configuration. *)
Lemma clone_voice_uses_configured_key :
  Py.get "api_key" [("filepath", "uploads/shared_speaker1_7.wav");
                    ("speaker", "speaker1")] = @None string /\
  trace (@clone_voice Sample.backend Sample.clone_request)
  = [PrepareVoices
       [("type", "custom"); ("audio_file", "uploads/shared_speaker1_7.wav")]
       [("type", "default"); ("voice_name", "mini")]
       "server-key"].
Proof. split; reflexivity. Qed.

Section Keys.

Context {B : Backend}.

Lemma clone_voice_effects req e :
  In e (trace (clone_voice req)) ->
  exists c1 c2, e = PrepareVoices c1 c2 (clone_key req).
Proof.
  unfold clone_voice, clone_key, trace.
  destruct (json_body req) as [[|kv data]|]; try (simpl; tauto).
  cbv beta iota. set (d := kv :: data).
  destruct (Py.if_set (Py.get "filepath" d)) as [filepath|];
    try (simpl; tauto).
  destruct (path_exists filepath); try (simpl; tauto).
  rewrite bind_unfold.
  destruct (Py.truthy (Py.get_default "api_key" "" d));
    destruct (String.eqb (Py.get_default "speaker" "unknown" d) "speaker1");
    cbn -[Py.get Py.get_default];
    match goal with
    | |- context [prepare_voices ?a ?b ?k] =>
        destruct (prepare_voices a b k) as [r|msg]
    end;
    cbn -[Py.get Py.get_default];
    try (destruct (vr_success r); cbn -[Py.get Py.get_default]);
    intros [ <- | [] ]; eauto.
Qed.

End Keys.

(** C8, amended.  In [/api/generate_podcast] every call of the voice
    manager and of the podcast generator carries the API key of the
    request's form, stripped of surrounding white space, and that key is
    not empty.  In [/api/clone-voice] the call of the voice manager carries
    the key of the request's body when it has a non-empty one, and the
    key of the server's configuration otherwise. *)
Theorem provider_calls_use_the_key {B : Backend} (req : request)
    (uuid4 : string) (e : effect) (k : string) :
  call_key e = Some k ->
  (In e (trace (generate_podcast req uuid4)) ->
   k = Py.strip (Py.get_default "api_key" "" (form req)) /\ k <> "") /\
  (In e (trace (clone_voice req)) -> k = clone_key req).
Proof.
  intros Hk. split.
  - unfold trace. intros Hin.
    destruct (key_missing_or_truthy req) as [K|K].
    + rewrite (generate_podcast_no_key uuid4 K) in Hin.
      destruct Hin as [ <- | [] ]. discriminate.
    + destruct (generate_podcast_unfold req uuid4 K)
        as [(ts & c & Ex & Hs & E)|(ts & msg & _ & Hs & E)];
        rewrite E in Hin; simpl in Hin.
      2: { rewrite Forall_forall in Hs. specialize (Hs _ Hin).
           destruct e; simpl in *; try discriminate; contradiction. }
      assert (Key : user_api_key c
                    = Py.strip (Py.get_default "api_key" "" (form req))).
      { destruct (extract_unfold _ _ _ Ex)
          as (? & ? & ? & ? & ? & ? & _ & _ & _ & Ex').
        rewrite Ex in Ex'. now injection Ex' as _ ->. }
      assert (k = user_api_key c) as ->.
      { apply in_app_or in Hin as [Hin|Hin].
        - rewrite Forall_forall in Hs. specialize (Hs _ Hin).
          destruct e; simpl in *; try discriminate; contradiction.
        - destruct (generate_effects c _ Hin) as [G|[msg ->]];
            [|discriminate].
          destruct e; simpl in *; try discriminate;
            injection Hk as <-; tauto. }
      split; [exact Key|]. rewrite Key. intros Z. rewrite Z in K. discriminate.
  - intros Hin. destruct (clone_voice_effects req _ Hin) as (c1 & c2 & ->).
    now injection Hk as <-.
Qed.

(** The theorem on a generation request and on a clone request. *)
Lemma provider_calls_use_the_key_witness :
  ("sk-1" = Py.strip (Py.get_default "api_key" ""
                        (form Sample.default_with_audio_request)) /\
   "sk-1" <> "") /\
  "server-key" = @clone_key Sample.backend Sample.clone_request.
Proof.
  split.
  - apply (proj1 (@provider_calls_use_the_key Sample.backend
                    Sample.default_with_audio_request Sample.uuid_a
                    (PrepareVoices
                       [("type", "default"); ("voice_name", "mini")]
                       [("type", "default"); ("voice_name", "max")] "sk-1")
                    "sk-1" eq_refl)).
    vm_compute. auto 20.
  - apply (proj2 (@provider_calls_use_the_key Sample.backend
                    Sample.clone_request Sample.uuid_a
                    (PrepareVoices
                       [("type", "custom");
                        ("audio_file", "uploads/shared_speaker1_7.wav")]
                       [("type", "default"); ("voice_name", "mini")]
                       "server-key")
                    "server-key" eq_refl)).
    vm_compute. auto.
Defined.

(* ================================================================== *)
(** ** The order of the events *)
(* ================================================================== *)

Section Succession.

Context {B : Backend}.

(** A [try] block that runs to its end has run every step to its end, one
    after the other. *)
Lemma generate_body_next c t :
  generate_body c = (t, Next tt) ->
  exists tp p tu u tm m t1 c1 t2 c2 tv ids,
    parse_pdf_step c = (tp, Next p) /\
    parse_url_step c = (tu, Next u) /\
    merge_step c u p = (tm, Next m) /\
    speaker_config_step "Speaker1" (speaker1_type c) (speaker1_voice_name c)
                        (speaker1_audio_path c) = (t1, Next c1) /\
    speaker_config_step "Speaker2" (speaker2_type c) (speaker2_voice_name c)
                        (speaker2_audio_path c) = (t2, Next c2) /\
    prepare_voices_step c c1 c2 = (tv, Next ids) /\
    t = Yield PARSING :: (tp ++ tu ++ tm)
        ++ Yield PREPARING :: (t1 ++ t2 ++ tv)
        ++ PodcastStream m (fst ids) (snd ids) (session_id c) (user_api_key c)
           :: map Yield
                (fst (generate_podcast_stream m (fst ids) (snd ids)
                        (session_id c) (user_api_key c))).
Proof.
  unfold generate_body, content_steps, config_steps.
  destruct (parse_pdf_step c) as [tp [p|r|e]];
    [|discriminate|discriminate].
  destruct (parse_url_step c) as [tu [u|r|e]];
    [|discriminate|discriminate].
  cbn [bind yield fst snd].
  destruct (merge_step c u p) as [tm [m|r|e]] eqn:Em;
    [|discriminate|discriminate].
  destruct (speaker_config_step "Speaker1" (speaker1_type c)
              (speaker1_voice_name c) (speaker1_audio_path c))
    as [t1 [c1|r|e]]; [|discriminate|discriminate].
  destruct (speaker_config_step "Speaker2" (speaker2_type c)
              (speaker2_voice_name c) (speaker2_audio_path c))
    as [t2 [c2|r|e]]; [|discriminate|discriminate].
  cbn [bind yield ret fst snd].
  destruct (prepare_voices_step c c1 c2) as [tv [ids|r|e]] eqn:Ev;
    [|discriminate|discriminate].
  cbn [bind]. rewrite podcast_step_unfold.
  intros [= <- _].
  exists tp, p, tu, u, tm, m, t1, c1, t2, c2, tv, ids.
  repeat (split; [reflexivity || assumption|]).
  cbn [app]. rewrite ?app_nil_r, <- ?app_assoc. cbn [app].
  rewrite <- ?app_assoc. reflexivity.
Qed.

End Succession.

(** C6.  On a successful stream the effects come in the order of the
    pipeline.  First the uploads are saved, before there is a generator.
    Then the progress event of step ['parsing_content'] is yielded,
    followed by what content parsing does: the effects of the PDF step, of
    the URL step and of the merge, in this order (calls of the parsers and
    of the merge, log events, the URL warning).  Then comes the progress
    event of step ['preparing_voices'], followed by what voice preparation
    does: the effects of the configuration of speaker 1, of speaker 2 and
    of the call of the voice manager (log events, the call, trace_id
    events).  Then the podcast generator is called and its events are
    yielded, which ends the stream. *)
Theorem successful_stream_order {B : Backend} (req : request)
    (uuid4 : string) :
  successful req uuid4 ->
  exists uploads c tp p tu u tm m t1 c1 t2 c2 tv ids,
    extract req uuid4 (Py.strip (Py.get_default "api_key" "" (form req)))
    = (uploads, Next c) /\
    parse_pdf_step c = (tp, Next p) /\
    parse_url_step c = (tu, Next u) /\
    merge_step c u p = (tm, Next m) /\
    speaker_config_step "Speaker1" (speaker1_type c) (speaker1_voice_name c)
                        (speaker1_audio_path c) = (t1, Next c1) /\
    speaker_config_step "Speaker2" (speaker2_type c) (speaker2_voice_name c)
                        (speaker2_audio_path c) = (t2, Next c2) /\
    prepare_voices_step c c1 c2 = (tv, Next ids) /\
    generate_podcast req uuid4
    = (uploads
       ++ Yield PARSING :: (tp ++ tu ++ tm)
       ++ Yield PREPARING :: (t1 ++ t2 ++ tv)
       ++ PodcastStream m (fst ids) (snd ids) (session_id c) (user_api_key c)
          :: map Yield
               (fst (generate_podcast_stream m (fst ids) (snd ids)
                       (session_id c) (user_api_key c))),
       Next tt) /\
    Forall is_save uploads /\
    Forall parsing_effect (tp ++ tu ++ tm) /\
    Forall voice_effect (t1 ++ t2 ++ tv).
Proof.
  intros (K & c & t & [t0 Ex] & Body).
  destruct (generate_podcast_unfold req uuid4 K)
    as [(ts & c' & Ex' & Hs & G)|(ts & msg & Ex' & _ & _)];
    [|rewrite Ex in Ex'; discriminate].
  rewrite Ex in Ex'. injection Ex' as -> <-.
  rewrite generate_unfold, Body in G. cbn [fst snd] in G.
  destruct (generate_body_next _ Body)
    as (tp & p & tu & u & tm & m & t1 & c1 & t2 & c2 & tv & ids
        & Ep & Eu & Em & E1 & E2 & Ev & ->).
  exists ts, c, tp, p, tu, u, tm, m, t1, c1, t2, c2, tv, ids.
  repeat (split; [assumption|]).
  pose proof (parse_pdf_step_shaped c) as Sp. rewrite Ep in Sp.
  pose proof (parse_url_step_shaped c) as Su. rewrite Eu in Su.
  pose proof (merge_step_shaped c u p) as Sm. rewrite Em in Sm.
  pose proof (speaker_config_step_shaped "Speaker1" (speaker1_type c)
                (speaker1_voice_name c) (speaker1_audio_path c)) as S1.
  rewrite E1 in S1.
  pose proof (speaker_config_step_shaped "Speaker2" (speaker2_type c)
                (speaker2_voice_name c) (speaker2_audio_path c)) as S2.
  rewrite E2 in S2.
  pose proof (prepare_voices_step_shaped c c1 c2) as Sv. rewrite Ev in Sv.
  cbn [shaped] in *.
  split.
  - repeat (apply Forall_app; split); assumption.
  - apply Forall_app; split; [|apply Forall_app; split; [|exact Sv]].
    + revert S1. apply Forall_impl, log_is_voice.
    + revert S2. apply Forall_impl, log_is_voice.
Qed.

(** The theorem on the sample request, which succeeds. *)
Lemma successful_stream_order_witness :
  exists uploads c tp p tu u tm m t1 c1 t2 c2 tv ids,
    @extract Sample.backend Sample.full_request Sample.uuid_a
      (Py.strip (Py.get_default "api_key" "" (form Sample.full_request)))
    = (uploads, Next c) /\
    @parse_pdf_step Sample.backend c = (tp, Next p) /\
    @parse_url_step Sample.backend c = (tu, Next u) /\
    @merge_step Sample.backend c u p = (tm, Next m) /\
    speaker_config_step "Speaker1" (speaker1_type c) (speaker1_voice_name c)
                        (speaker1_audio_path c) = (t1, Next c1) /\
    speaker_config_step "Speaker2" (speaker2_type c) (speaker2_voice_name c)
                        (speaker2_audio_path c) = (t2, Next c2) /\
    @prepare_voices_step Sample.backend c c1 c2 = (tv, Next ids) /\
    @generate_podcast Sample.backend Sample.full_request Sample.uuid_a
    = (uploads
       ++ Yield PARSING :: (tp ++ tu ++ tm)
       ++ Yield PREPARING :: (t1 ++ t2 ++ tv)
       ++ PodcastStream m (fst ids) (snd ids) (session_id c) (user_api_key c)
          :: map Yield
               (fst (@generate_podcast_stream Sample.backend
                       m (fst ids) (snd ids)
                       (session_id c) (user_api_key c))),
       Next tt) /\
    Forall is_save uploads /\
    Forall parsing_effect (tp ++ tu ++ tm) /\
    Forall voice_effect (t1 ++ t2 ++ tv).
Proof.
  apply (@successful_stream_order Sample.backend).
  split; [reflexivity|].
  exists Sample.full_closure. eexists. split.
  - eexists. vm_compute. reflexivity.
  - vm_compute. reflexivity.
Defined.

(* ================================================================== *)
(** ** A URL that cannot be parsed *)
(* ================================================================== *)

(** C3, as stated, fails: [/api/parse-content] answers a failed URL parse
    with an error response and merges nothing, although the request has a
    direct text. *)
Lemma parse_content_aborts_on_url_failure :
  Py.get "text_input" [("text_input", "hello");
                       ("url_input", "http://example.org")] = Some "hello" /\
  @parse_content Sample.backend Sample.parse_request 7
  = ([ParseUrl "http://example.org"], Return (failure "unreachable")).
Proof. split; reflexivity. Qed.

Section UrlFailure.

Context {B : Backend}.

Lemma parse_url_step_failure c r msg :
  Py.truthy (url_input c) = true ->
  parse_url (url_input c) = Ok r ->
  pr_success r = false ->
  pr_error r = Some msg ->
  parse_url_step c = (url_failure_effects (url_input c) r msg, Next "").
Proof.
  intros T P S E. unfold parse_url_step, url_failure_effects.
  rewrite T, !bind_unfold. cbn [yield call fst snd]. rewrite P.
  cbn [fst snd]. rewrite S, E. cbn [item ret fst snd].
  rewrite !bind_unfold, for_each_yield. cbn [yield ret fst snd].
  now rewrite !app_nil_r.
Qed.

Lemma merge_step_head c u p :
  exists rest, fst (merge_step c u p) = MergeContents (text_input c) u p :: rest.
Proof.
  unfold merge_step. rewrite bind_unfold. cbn [call fst snd].
  destruct (merge_contents (text_input c) u p); simpl; eauto.
Qed.

End UrlFailure.

(** C3, amended.  In [/api/generate_podcast], when the parser reports
    failure for the URL (and the failure carries its error message), the
    generator yields the warning and the parser's logs, and then goes on
    exactly as it does for the same request without a URL: it merges the
    direct text and the PDF text with an empty URL text, and what it does
    from there on is the same. *)
Theorem url_failure_does_not_abort {B : Backend} (req : request)
    (uuid4 : string) (c : closure) (r : parse_result) (msg : string)
    (tp : list effect) (pdf_content : string) :
  Py.truthy (Py.strip (Py.get_default "api_key" "" (form req))) = true ->
  extracted req uuid4 c ->
  Py.truthy (url_input c) = true ->
  parse_pdf_step c = (tp, Next pdf_content) ->
  parse_url (url_input c) = Ok r ->
  pr_success r = false ->
  pr_error r = Some msg ->
  exists uploads rest o,
    generate_podcast req uuid4
    = (uploads
       ++ Yield PARSING :: tp
       ++ url_failure_effects (url_input c) r msg
       ++ MergeContents (text_input c) "" pdf_content :: rest, o) /\
    generate (without_url c)
    = (Yield PARSING :: tp
       ++ MergeContents (text_input c) "" pdf_content :: rest, o).
Proof.
  intros K [t0 Ex] T Pdf P S E.
  destruct (generate_podcast_unfold req uuid4 K)
    as [(ts & c' & Ex' & _ & ->)|(ts & m0 & Ex' & _ & _)];
    [|rewrite Ex in Ex'; discriminate].
  rewrite Ex in Ex'. injection Ex' as -> <-.
  rewrite !generate_unfold.
  set (k := fun merged_content : string =>
              configs <- config_steps c ;;
              voice_ids <- prepare_voices_step c (fst configs) (snd configs) ;;
              podcast_step c merged_content voice_ids).
  change (generate_body c) with (bind (content_steps c) k).
  change (generate_body (without_url c))
    with (bind (content_steps (without_url c)) k).
  assert (C1 : content_steps c
               = (Yield PARSING :: tp
                  ++ url_failure_effects (url_input c) r msg
                  ++ fst (merge_step c "" pdf_content),
                  snd (merge_step c "" pdf_content))).
  { unfold content_steps. rewrite bind_unfold. cbn [yield fst snd].
    rewrite bind_unfold, Pdf. cbn [fst snd].
    rewrite bind_unfold, (parse_url_step_failure c T P S E). reflexivity. }
  assert (C2 : content_steps (without_url c)
               = (Yield PARSING :: tp ++ fst (merge_step c "" pdf_content),
                  snd (merge_step c "" pdf_content))).
  { unfold content_steps. rewrite bind_unfold. cbn [yield fst snd].
    change (parse_pdf_step (without_url c)) with (parse_pdf_step c).
    rewrite bind_unfold, Pdf. cbn [fst snd].
    change (parse_url_step (without_url c)) with (@ret unit string "").
    rewrite bind_unfold. reflexivity. }
  rewrite !bind_unfold, C1, C2. cbn [fst snd].
  destruct (merge_step_head c "" pdf_content) as [tm Hm].
  destruct (merge_step c "" pdf_content) as [t3 [m|[]|e]]; cbn [fst snd] in *;
    subst t3.
  - destruct (k m) as [tk [[]|[]|e]]; cbn [fst snd];
      eexists ts, _, _; split;
      simpl; rewrite <- ?app_assoc; simpl; rewrite <- ?app_assoc; reflexivity.
  - eexists ts, _, _; split; simpl; reflexivity.
  - eexists ts, _, _; split;
      simpl; rewrite <- ?app_assoc; simpl; rewrite <- ?app_assoc; reflexivity.
Qed.

(** The theorem on the sample request, whose URL cannot be parsed. *)
Lemma url_failure_does_not_abort_witness :
  exists uploads rest o,
    @generate_podcast Sample.backend Sample.full_request Sample.uuid_a
    = (uploads
       ++ Yield PARSING
          :: [Yield (log_event "已上传 PDF: paper.pdf");
              ParsePdf "uploads/0b0e3a52-6c1f-4a7e-9d0b-5f2f3c1a9e10_paper.pdf";
              Yield (log_event "pdf parsed")]
       ++ url_failure_effects "http://example.org" Sample.url_failure
            "unreachable"
       ++ MergeContents "hello" "" "pdf text" :: rest, o) /\
    @generate Sample.backend (without_url Sample.full_closure)
    = (Yield PARSING
         :: [Yield (log_event "已上传 PDF: paper.pdf");
             ParsePdf "uploads/0b0e3a52-6c1f-4a7e-9d0b-5f2f3c1a9e10_paper.pdf";
             Yield (log_event "pdf parsed")]
       ++ MergeContents "hello" "" "pdf text" :: rest, o).
Proof.
  apply (@url_failure_does_not_abort Sample.backend Sample.full_request
           Sample.uuid_a Sample.full_closure Sample.url_failure "unreachable");
    try reflexivity.
  eexists. vm_compute. reflexivity.
Defined.

(* ================================================================== *)
(** ** Which uploads are saved *)
(* ================================================================== *)

Section Saved.

Context {B : Backend}.

(** Where a saved file comes from. *)
Lemma saves_origin req uuid4 path f :
  In (Save path f) (trace (generate_podcast req uuid4)) ->
  (Py.get "pdf_file" (files req) = Some f /\
   allowed_file (filename f) ALLOWED_PDF_EXTENSIONS = true /\
   path = Py.path_join UPLOAD_DIR
            (uuid4 ++ "_" ++ secure_filename (filename f))) \/
  (exists tag,
     (tag = "speaker1" \/ tag = "speaker2") /\
     Py.get_default (tag ++ "_type") "default" (form req) = "custom" /\
     Py.get (tag ++ "_audio") (files req) = Some f /\
     allowed_file (filename f) ALLOWED_AUDIO_EXTENSIONS = true /\
     path = Py.path_join UPLOAD_DIR
              (uuid4 ++ "_" ++ tag ++ "_" ++ secure_filename (filename f))).
Proof.
  unfold trace. intros Hin.
  destruct (key_missing_or_truthy req) as [K|K].
  { rewrite (generate_podcast_no_key uuid4 K) in Hin.
    destruct Hin as [[=]|[]]. }
  destruct (generate_podcast_unfold req uuid4 K)
    as [(ts & c & Ex & _ & E)|(ts & msg & Ex & _ & E)];
    rewrite E in Hin; simpl in Hin.
  2: { apply (extract_saves_origin req uuid4
                (Py.strip (Py.get_default "api_key" "" (form req)))).
       now rewrite Ex. }
  apply in_app_or in Hin as [Hin|Hin].
  - apply (extract_saves_origin req uuid4
             (Py.strip (Py.get_default "api_key" "" (form req)))).
    now rewrite Ex.
  - destruct (generate_effects c _ Hin) as [[]|[msg [=]]].
Qed.

End Saved.

(** C5.  [/api/generate_podcast] saves an uploaded file only if its name
    has a dot and what follows the last dot is, in lower case, ['pdf'] for
    the PDF slot and one of ['wav'], ['mp3'], ['flac'], ['m4a'], ['ogg']
    for a speaker's audio slot.  For a file that fails the check the slot
    does nothing: it writes no file, reports nothing, and the generator
    sees the slot as absent. *)
Theorem uploads_saved_only_if_allowed {B : Backend} (req : request)
    (uuid4 : string) :
  (forall path f,
     In (Save path f) (trace (generate_podcast req uuid4)) ->
     (Py.get "pdf_file" (files req) = Some f /\
      has_allowed_extension (filename f) ALLOWED_PDF_EXTENSIONS) \/
     (exists tag,
        (tag = "speaker1" \/ tag = "speaker2") /\
        Py.get (tag ++ "_audio") (files req) = Some f /\
        has_allowed_extension (filename f) ALLOWED_AUDIO_EXTENSIONS)) /\
  (forall f,
     Py.get "pdf_file" (files req) = Some f ->
     ~ has_allowed_extension (filename f) ALLOWED_PDF_EXTENSIONS ->
     pdf_upload_step req uuid4 = ([], Next (None, None)) /\
     forall c, extracted req uuid4 c -> pdf_path c = None /\ pdf_file c = None) /\
  (forall f,
     Py.get "speaker1_audio" (files req) = Some f ->
     ~ has_allowed_extension (filename f) ALLOWED_AUDIO_EXTENSIONS ->
     (forall ty, speaker_upload_step req uuid4 "speaker1" ty = ([], Next None)) /\
     forall c, extracted req uuid4 c -> speaker1_audio_path c = None) /\
  (forall f,
     Py.get "speaker2_audio" (files req) = Some f ->
     ~ has_allowed_extension (filename f) ALLOWED_AUDIO_EXTENSIONS ->
     (forall ty, speaker_upload_step req uuid4 "speaker2" ty = ([], Next None)) /\
     forall c, extracted req uuid4 c -> speaker2_audio_path c = None).
Proof.
  assert (Sp : forall tag f,
             Py.get (tag ++ "_audio") (files req) = Some f ->
             ~ has_allowed_extension (filename f) ALLOWED_AUDIO_EXTENSIONS ->
             forall ty, speaker_upload_step req uuid4 tag ty = ([], Next None)).
  { intros tag f G N ty.
    destruct (speaker_upload_step_cases req uuid4 tag ty)
      as [(f' & _ & G' & A & _)|[[_ E]|(f' & msg & _ & G' & A & _)]];
      [|exact E|];
      rewrite G in G'; injection G' as <-; apply allowed_file_iff in A;
      contradiction. }
  split; [|split; [|split]].
  - intros path f Hin.
    destruct (saves_origin req uuid4 path f Hin)
      as [(G & A & _)|(tag & Ht & _ & G & A & _)].
    + left. split; [exact G | now apply allowed_file_iff].
    + right. exists tag. repeat split; auto. now apply allowed_file_iff.
  - intros f G N.
    assert (E : pdf_upload_step req uuid4 = ([], Next (None, None))).
    { destruct (pdf_upload_step_cases req uuid4)
        as [(f' & G' & A & _)|[[_ E]|(f' & msg & G' & A & _)]];
        [|exact E|];
        rewrite G in G'; injection G' as <-; apply allowed_file_iff in A;
        contradiction. }
    split; [exact E|]. intros c [t Ex].
    destruct (extract_unfold _ _ _ Ex)
      as (tp & pdf & t1 & a1 & t2 & a2 & Ep & _ & _ & Ex').
    rewrite Ex in Ex'. injection Ex' as _ ->.
    rewrite E in Ep. injection Ep as _ <-. now split.
  - intros f G N. split; [now apply (Sp "speaker1" f)|]. intros c [t Ex].
    destruct (extract_unfold _ _ _ Ex)
      as (tp & pdf & t1 & a1 & t2 & a2 & _ & E1 & _ & Ex').
    rewrite Ex in Ex'. injection Ex' as _ ->.
    rewrite (Sp "speaker1" f G N) in E1. now injection E1 as _ <-.
  - intros f G N. split; [now apply (Sp "speaker2" f)|]. intros c [t Ex].
    destruct (extract_unfold _ _ _ Ex)
      as (tp & pdf & t1 & a1 & t2 & a2 & _ & _ & E2 & Ex').
    rewrite Ex in Ex'. injection Ex' as _ ->.
    rewrite (Sp "speaker2" f G N) in E2. now injection E2 as _ <-.
Qed.

(** The theorem on an allowed and on a refused audio upload. *)
Lemma uploads_saved_only_if_allowed_witness :
  ((Py.get "pdf_file" (files Sample.full_request) = Some Sample.wav /\
    has_allowed_extension (filename Sample.wav) ALLOWED_PDF_EXTENSIONS) \/
   (exists tag,
      (tag = "speaker1" \/ tag = "speaker2") /\
      Py.get (tag ++ "_audio") (files Sample.full_request) = Some Sample.wav /\
      has_allowed_extension (filename Sample.wav) ALLOWED_AUDIO_EXTENSIONS)) /\
  @speaker_upload_step Sample.backend Sample.bad_audio_request Sample.uuid_a
    "speaker1" "custom" = ([], Next None).
Proof.
  split.
  - apply (proj1 (@uploads_saved_only_if_allowed Sample.backend
                    Sample.full_request Sample.uuid_a)
             "uploads/0b0e3a52-6c1f-4a7e-9d0b-5f2f3c1a9e10_speaker1_me.WAV").
    vm_compute. auto.
  - apply (proj1 (proj1 (proj2 (proj2 (@uploads_saved_only_if_allowed
                                         Sample.backend
                                         Sample.bad_audio_request
                                         Sample.uuid_a)))
                    Sample.exe eq_refl
                    (fun H => eq_ind false (fun b => if b then False else True)
                                I true (proj2 (allowed_file_iff _ _) H)))).
Defined.

(* ================================================================== *)
(** ** A default speaker's audio *)
(* ================================================================== *)

Section DefaultSpeaker.

Context {B : Backend}.

Lemma speaker_upload_step_default req sid tag :
  speaker_upload_step req sid tag "default" = ([], Next None).
Proof. reflexivity. Qed.

Lemma speaker_upload_step_frame req req' sid tag ty :
  Py.get (tag ++ "_audio") (files req') = Py.get (tag ++ "_audio") (files req) ->
  speaker_upload_step req' sid tag ty = speaker_upload_step req sid tag ty.
Proof. unfold speaker_upload_step. now intros ->. Qed.

Lemma pdf_upload_step_frame req req' sid :
  Py.get "pdf_file" (files req') = Py.get "pdf_file" (files req) ->
  pdf_upload_step req' sid = pdf_upload_step req sid.
Proof. unfold pdf_upload_step. now intros ->. Qed.

(** Before the voice manager is called no provider is called. *)
Lemma before_voices_quiet c :
  shaped (fun e => ~ provider_call e) (before_voices c).
Proof.
  unfold before_voices, content_steps, config_steps, parse_pdf_step,
    parse_url_step, merge_step, speaker_config_step.
  shape_with ltac:(simpl; tauto).
Qed.

Lemma generate_body_default_config c :
  shaped (default_config_effect c) (generate_body c).
Proof.
  rewrite generate_body_split. apply shaped_bind_val.
  - eapply shaped_weaken; [|apply before_voices_quiet].
    intros e. destruct e; simpl; tauto.
  - intros [m [c1 c2]] Hx.
    destruct (before_voices_unfold c) as (t1 & t2 & _ & H).
    rewrite Hx in H. destruct H as (_ & _ & _ & D1 & D2 & _).
    cbn [fst snd].
    unfold prepare_voices_step, podcast_step, for_stream.
    shape_with ltac:(simpl; auto).
Qed.

(** The first config of a call of the voice manager is the one of
    speaker 1, the second the one of speaker 2. *)
Lemma prepare_voices_configs req uuid4 c1 c2 k :
  In (PrepareVoices c1 c2 k) (trace (generate_podcast req uuid4)) ->
  (Py.get_default "speaker1_type" "default" (form req) = "default" ->
   c1 = [("type", "default");
         ("voice_name",
          Py.get_default "speaker1_voice_name" "mini" (form req))]) /\
  (Py.get_default "speaker2_type" "default" (form req) = "default" ->
   c2 = [("type", "default");
         ("voice_name",
          Py.get_default "speaker2_voice_name" "max" (form req))]).
Proof.
  unfold trace. intros Hin.
  destruct (key_missing_or_truthy req) as [K|K].
  { rewrite (generate_podcast_no_key uuid4 K) in Hin.
    destruct Hin as [[=]|[]]. }
  destruct (generate_podcast_unfold req uuid4 K)
    as [(ts & c & Ex & Hs & E)|(ts & msg & _ & Hs & E)];
    rewrite E in Hin; simpl in Hin.
  2: { rewrite Forall_forall in Hs. elim (Hs _ Hin). }
  destruct (extract_unfold _ _ _ Ex)
    as (tp & pdf & t1 & a1 & t2 & a2 & _ & _ & _ & Ex').
  rewrite Ex in Ex'. injection Ex' as _ Ec.
  apply in_app_or in Hin as [Hin|Hin].
  { rewrite Forall_forall in Hs. elim (Hs _ Hin). }
  rewrite generate_unfold in Hin.
  pose proof (generate_body_default_config c) as S.
  assert (D : default_config_effect c (PrepareVoices c1 c2 k)).
  { destruct (generate_body c) as [t [[]|[]|msg]]; cbn [fst] in Hin.
    - destruct (@shaped_effects _ _ _ _ S Hin) as [D|[? [=]]]. exact D.
    - destruct (@shaped_effects _ _ _ _ S Hin) as [D|[? [=]]]. exact D.
    - apply in_app_or in Hin as [Hin|[[=]|[]]].
      destruct (@shaped_effects _ _ _ _ S Hin) as [D|[? [=]]]. exact D. }
  subst c. exact D.
Qed.

End DefaultSpeaker.

(** C10.  When a speaker's type is ['default'], [/api/generate_podcast]
    ignores an audio file uploaded for that speaker: the handler does the
    same, effect by effect, whatever the speaker's audio slot holds, so
    that no file is saved for the slot; and in the call of the voice
    manager the speaker's configuration consists of the type and the voice
    name only. *)
Theorem default_speaker_ignores_audio {B : Backend} (req req' : request)
    (uuid4 tag : string) :
  tag = "speaker1" \/ tag = "speaker2" ->
  Py.get_default (tag ++ "_type") "default" (form req) = "default" ->
  form req' = form req ->
  (forall slot, slot <> (tag ++ "_audio")%string ->
                Py.get slot (files req') = Py.get slot (files req)) ->
  generate_podcast req' uuid4 = generate_podcast req uuid4 /\
  (forall path f,
     In (Save path f) (trace (generate_podcast req uuid4)) ->
     exists slot, slot <> (tag ++ "_audio")%string /\
                  Py.get slot (files req) = Some f) /\
  (forall c1 c2 k,
     In (PrepareVoices c1 c2 k) (trace (generate_podcast req uuid4)) ->
     (tag = "speaker1" ->
      c1 = [("type", "default");
            ("voice_name",
             Py.get_default "speaker1_voice_name" "mini" (form req))] /\
      Py.get "audio_file" c1 = None) /\
     (tag = "speaker2" ->
      c2 = [("type", "default");
            ("voice_name",
             Py.get_default "speaker2_voice_name" "max" (form req))] /\
      Py.get "audio_file" c2 = None)).
Proof.
  intros Tag Ty Form Files. split; [|split].
  - unfold generate_podcast, extract. rewrite Form.
    rewrite (pdf_upload_step_frame req req' uuid4)
      by (apply Files; destruct Tag as [-> | ->]; discriminate).
    destruct Tag as [-> | ->]; simpl in Ty; rewrite Ty.
    + rewrite !speaker_upload_step_default.
      rewrite (speaker_upload_step_frame req req' uuid4 "speaker2")
        by (apply Files; discriminate).
      reflexivity.
    + rewrite !speaker_upload_step_default.
      rewrite (speaker_upload_step_frame req req' uuid4 "speaker1")
        by (apply Files; discriminate).
      reflexivity.
  - intros path f Hin.
    destruct (saves_origin req uuid4 path f Hin)
      as [(G & _)|(tag' & Ht & Ty' & G & _)].
    + exists "pdf_file". split; [|exact G].
      destruct Tag as [-> | ->]; discriminate.
    + exists (tag' ++ "_audio")%string. split; [|exact G].
      destruct Tag as [-> | ->]; destruct Ht as [-> | ->];
        try discriminate; simpl in *; congruence.
  - intros c1 c2 k Hin.
    destruct (prepare_voices_configs req uuid4 c1 c2 k Hin) as [D1 D2].
    split; intros ->; simpl in Ty.
    + rewrite (D1 Ty). now split.
    + rewrite (D2 Ty). now split.
Qed.

(** The theorem on a default speaker with and without an audio upload. *)
Lemma default_speaker_ignores_audio_witness :
  @generate_podcast Sample.backend Sample.default_request Sample.uuid_a
  = @generate_podcast Sample.backend Sample.default_with_audio_request
      Sample.uuid_a.
Proof.
  apply (proj1 (@default_speaker_ignores_audio Sample.backend
                  Sample.default_with_audio_request Sample.default_request
                  Sample.uuid_a "speaker1"
                  (or_introl eq_refl) eq_refl eq_refl
                  (fun slot N =>
                     match String.eqb_spec slot "speaker1_audio" in reflect _ b
                       return None = (if b then Some Sample.wav else None)
                     with
                     | ReflectT _ E => match N E with end
                     | ReflectF _ _ => eq_refl
                     end))).
Defined.

(* ================================================================== *)
(** ** Recordings *)
(* ================================================================== *)

(** C9, as stated, fails: a file is not saved, and success is not
    reported, when the write raises.  The session id of the form names a
    directory that does not exist; the [except] clause (lines 268-270)
    answers with the message of the exception, and nothing is written. *)
Lemma upload_audio_reports_a_failed_write :
  Py.get "audio" (files Sample.nodir_request) = Some Sample.wav /\
  file_truthy Sample.wav = true /\
  @upload_audio Sample.backend Sample.nodir_request Sample.uuid_a 7
  = ([],
     Return (failure
               "No such file or directory: uploads/nodir/x_speaker1_7.wav")).
Proof. repeat split. Qed.

(** C9, amended.  [/api/upload_audio] checks no extension: whatever the
    name and the content of a file whose name is not empty, it writes the
    file to [<session id>_<speaker>_<timestamp>.wav] in the upload
    directory.  When the write succeeds the file is saved and the answer
    reports success, that path and that name; when the write raises
    nothing is saved and the answer reports failure with the message of
    the exception. *)
Theorem upload_audio_saves_any_file {B : Backend} (req : request)
    (uuid4 : string) (now : N) (f : upload) :
  Py.get "audio" (files req) = Some f ->
  file_truthy f = true ->
  let name :=
    (Py.get_default "session_id" uuid4 (form req) ++ "_"
     ++ Py.get_default "speaker" "unknown" (form req) ++ "_"
     ++ Py.str_of_N now ++ ".wav")%string in
  (write_file (Py.path_join UPLOAD_DIR name) f = Ok tt ->
   upload_audio req uuid4 now
   = ([Save (Py.path_join UPLOAD_DIR name) f],
      Return (JObj [("success", JBool true);
                    ("filepath", JStr (Py.path_join UPLOAD_DIR name));
                    ("filename", JStr name)]))) /\
  (forall msg,
     write_file (Py.path_join UPLOAD_DIR name) f = Raise msg ->
     upload_audio req uuid4 now = ([], Return (failure msg))) /\
  Py.ends_with ".wav" name = true /\
  Py.ends_with ".wav" (Py.path_join UPLOAD_DIR name) = true.
Proof.
  intros G T name.
  assert (En : Py.ends_with ".wav" name = true).
  { unfold name. rewrite <- !append_assoc. apply ends_with_append. }
  split; [|split; [|split; [exact En|]]].
  - intros W. unfold upload_audio, save. rewrite G, T.
    cbv beta iota zeta. change (negb true) with false. cbv iota.
    fold name. rewrite W. reflexivity.
  - intros msg W. unfold upload_audio, save. rewrite G, T.
    cbv beta iota zeta. change (negb true) with false. cbv iota.
    fold name. rewrite W. reflexivity.
  - clearbody name. unfold Py.path_join.
    destruct (Py.starts_with "/" name); [exact En|].
    destruct (orb _ _); repeat apply ends_with_app_l; exact En.
Qed.

(** The theorem on a recording named [me.exe], which is saved, and on a
    recording for a session id that names a directory, which is not. *)
Lemma upload_audio_saves_any_file_witness :
  @upload_audio Sample.backend Sample.recording_request Sample.uuid_a 7
  = ([Save "uploads/shared_speaker1_7.wav" Sample.exe],
     Return (JObj [("success", JBool true);
                   ("filepath", JStr "uploads/shared_speaker1_7.wav");
                   ("filename", JStr "shared_speaker1_7.wav")])) /\
  @upload_audio Sample.backend Sample.nodir_request Sample.uuid_a 7
  = ([],
     Return (failure
               "No such file or directory: uploads/nodir/x_speaker1_7.wav")) /\
  Py.ends_with ".wav" "shared_speaker1_7.wav" = true /\
  Py.ends_with ".wav" "uploads/shared_speaker1_7.wav" = true.
Proof.
  destruct (@upload_audio_saves_any_file Sample.backend
              Sample.recording_request Sample.uuid_a 7 Sample.exe
              eq_refl eq_refl) as (Saved & _ & Name & Path).
  destruct (@upload_audio_saves_any_file Sample.backend
              Sample.nodir_request Sample.uuid_a 7 Sample.wav
              eq_refl eq_refl) as (_ & Failed & _).
  split; [|split; [|split]].
  - apply Saved. reflexivity.
  - apply Failed. reflexivity.
  - exact Name.
  - exact Path.
Defined.

(* ================================================================== *)
(** ** Session identifiers and file names *)
(* ================================================================== *)

Section Only.

Context {B : Backend} {R : Type}.
Variable ok : effect -> Prop.

Lemma only_ret {A : Type} (a : A) : only ok (ret (R:=R) a).
Proof. constructor. Qed.

Lemma only_return {A : Type} (r : R) : only ok (return_ (A:=A) r).
Proof. constructor. Qed.

Lemma only_call {A : Type} c (r : result A) :
  ok c -> only ok (call (R:=R) c r).
Proof. intros H. constructor; [exact H | constructor]. Qed.

Lemma only_save path f : ok (Save path f) -> only ok (save (R:=R) path f).
Proof.
  intros H. unfold only, save. destruct (write_file path f); cbn [fst].
  - constructor; [exact H | constructor].
  - constructor.
Qed.

Lemma only_bind {A C : Type} (m : M R A) (k : A -> M R C) :
  only ok m -> (forall a, only ok (k a)) -> only ok (bind m k).
Proof.
  unfold only. intros Hm Hk. rewrite bind_unfold.
  destruct (snd m) as [a|r|e]; simpl; try exact Hm.
  apply Forall_app. split; [exact Hm | apply Hk].
Qed.

Lemma only_try_except {A : Type} (body : M R A) (handler : string -> M R A) :
  only ok body -> (forall msg, only ok (handler msg)) ->
  only ok (try_except body handler).
Proof.
  unfold only, try_except. intros Hb Hh.
  destruct body as [t [a|r|msg]]; simpl in *; try exact Hb.
  specialize (Hh msg). destruct (handler msg) as [t' o]. simpl in *.
  apply Forall_app. split; assumption.
Qed.

End Only.

Ltac effects_with tac :=
  repeat first
    [ apply only_ret
    | apply only_return
    | apply only_call; solve [tac]
    | apply only_save; solve [tac]
    | apply only_try_except; [|intros]
    | apply only_bind; [|intros]
    | match goal with
      | |- only _ (if ?b then _ else _) => destruct b
      | |- only _ (match ?x with _ => _ end) => destruct x
      end ].

Section Names.

Context {B : Backend}.

Lemma upload_audio_names req uuid4 now :
  only (saves_under UPLOAD_DIR (Py.get_default "session_id" uuid4 (form req)))
       (upload_audio req uuid4 now).
Proof.
  unfold upload_audio. effects_with ltac:(cbn [saves_under]; eauto).
Qed.

Lemma parse_content_names req now :
  only (saves_under UPLOAD_DIR (Py.str_of_N now)) (parse_content req now).
Proof.
  unfold parse_content. effects_with ltac:(cbn [saves_under]; eauto).
Qed.

End Names.

Lemma length_list_ascii (s : string) :
  List.length (list_ascii_of_string s) = String.length s.
Proof. induction s as [|a s IH]; simpl; [reflexivity | now rewrite IH]. Qed.

Lemma uuid_chars_length pos l :
  uuid_chars pos l = true -> pos + List.length l = 36.
Proof.
  revert pos. induction l as [|c l IH]; simpl; intros pos H.
  - apply Nat.eqb_eq in H. lia.
  - apply andb_prop in H as [_ H]. apply IH in H. lia.
Qed.

Lemma uuid_shaped_length s : uuid_shaped s = true -> String.length s = 36.
Proof.
  unfold uuid_shaped. intros H. apply uuid_chars_length in H.
  now rewrite length_list_ascii in H.
Qed.

(** A name that begins with a UUID is not an absolute path. *)
Lemma uuid_shaped_relative s rest :
  uuid_shaped s = true -> Py.starts_with "/" (s ++ rest) = false.
Proof.
  unfold uuid_shaped, Py.starts_with. destruct s as [|a s]; [discriminate|].
  intros H.
  change (andb (is_hex a) (uuid_chars 1 (list_ascii_of_string s)) = true) in H.
  apply andb_prop in H as [H _].
  change ((if ascii_dec "/" a then String.prefix "" (s ++ rest) else false)
          = false).
  destruct (ascii_dec "/" a) as [E|]; [|reflexivity].
  rewrite <- E in H. discriminate.
Qed.

Lemma path_join_relative dir name :
  Py.starts_with "/" name = false ->
  Py.path_join dir name = (dir_prefix dir ++ name)%string.
Proof.
  unfold Py.path_join, dir_prefix. intros ->.
  destruct (orb _ _); [reflexivity | now rewrite append_assoc].
Qed.

(** Files put into one directory under names that begin with two different
    UUIDs are different files. *)
Lemma uuid_names_differ dir u1 u2 r1 r2 :
  uuid_shaped u1 = true -> uuid_shaped u2 = true -> u1 <> u2 ->
  Py.path_join dir (u1 ++ r1) <> Py.path_join dir (u2 ++ r2).
Proof.
  intros S1 S2 N E.
  rewrite !path_join_relative in E by now apply uuid_shaped_relative.
  apply append_inv_head in E. apply N.
  apply (append_same_length u1 u2 r1 r2); [|exact E].
  now rewrite !uuid_shaped_length.
Qed.

(** C7, as stated, fails: [/api/upload_audio] takes the session identifier
    from the request when the client sends one, so that two requests, for
    which the server has drawn different UUIDs, write the same file, whose
    name starts with neither UUID. *)
Lemma upload_audio_session_is_the_clients :
  Sample.uuid_a <> Sample.uuid_b /\
  saves (trace (@upload_audio Sample.backend Sample.recording_request
                  Sample.uuid_a 7))
  = [("uploads/shared_speaker1_7.wav", Sample.exe)] /\
  saves (trace (@upload_audio Sample.backend Sample.recording_request
                  Sample.uuid_b 7))
  = [("uploads/shared_speaker1_7.wav", Sample.exe)].
Proof. repeat split. discriminate. Qed.

(** C7, amended.  [/api/generate_podcast] stores every file it saves under
    a name that begins with the UUID the server has drawn for the request
    and an underscore, so that requests with different UUIDs never write
    the same file.  [/api/upload_audio] puts the [session_id] of the
    request's form in that place, and the UUID only when the form has none;
    [/api/parse-content] puts the timestamp there. *)
Theorem saved_file_names {B : Backend} :
  (forall req uuid4 path f,
     In (Save path f) (trace (generate_podcast req uuid4)) ->
     saves_under UPLOAD_DIR uuid4 (Save path f)) /\
  (forall req1 req2 u1 u2 path1 path2 f1 f2,
     uuid_shaped u1 = true -> uuid_shaped u2 = true -> u1 <> u2 ->
     In (Save path1 f1) (trace (generate_podcast req1 u1)) ->
     In (Save path2 f2) (trace (generate_podcast req2 u2)) ->
     path1 <> path2) /\
  (forall req uuid4 now path f,
     In (Save path f) (trace (upload_audio req uuid4 now)) ->
     saves_under UPLOAD_DIR (Py.get_default "session_id" uuid4 (form req))
                 (Save path f)) /\
  (forall req now path f,
     In (Save path f) (trace (parse_content req now)) ->
     saves_under UPLOAD_DIR (Py.str_of_N now) (Save path f)).
Proof.
  assert (G : forall req uuid4 path f,
             In (Save path f) (trace (generate_podcast req uuid4)) ->
             exists rest, path = Py.path_join UPLOAD_DIR (uuid4 ++ "_" ++ rest)).
  { intros req uuid4 path f Hin.
    destruct (saves_origin req uuid4 path f Hin)
      as [(_ & _ & ->)|(tag & _ & _ & _ & _ & ->)]; eauto. }
  split; [exact G|]. split; [|split].
  - intros req1 req2 u1 u2 path1 path2 f1 f2 S1 S2 N H1 H2.
    destruct (G _ _ _ _ H1) as [r1 ->]. destruct (G _ _ _ _ H2) as [r2 ->].
    now apply uuid_names_differ.
  - intros req uuid4 now path f Hin.
    pose proof (upload_audio_names req uuid4 now) as H.
    unfold only in H. rewrite Forall_forall in H. exact (H _ Hin).
  - intros req now path f Hin.
    pose proof (parse_content_names req now) as H.
    unfold only in H. rewrite Forall_forall in H. exact (H _ Hin).
Qed.

(** The theorem on one request served under two UUIDs. *)
Lemma saved_file_names_witness :
  "uploads/0b0e3a52-6c1f-4a7e-9d0b-5f2f3c1a9e10_paper.pdf"
  <> "uploads/7c9d2e11-03ab-4f6d-8a55-1e4b7d90c2f3_paper.pdf".
Proof.
  apply (proj1 (proj2 (@saved_file_names Sample.backend))
           Sample.full_request Sample.full_request
           Sample.uuid_a Sample.uuid_b _ _ Sample.paper Sample.paper
           eq_refl eq_refl).
  - discriminate.
  - vm_compute. auto.
  - vm_compute. auto.
Defined.

(* ================================================================== *)
(** ** Further properties: [allowed_file] *)
(* ================================================================== *)

Lemma contains_char_append_dot stem ext :
  Py.contains_char "." (stem ++ String "." ext) = true.
Proof.
  induction stem as [|a stem IH]; simpl; [reflexivity|].
  rewrite IH. apply orb_true_r.
Qed.

(** X1.  Only what follows the last dot of the name counts, and it counts
    without regard to the case of ASCII letters: for an [ext] without a dot,
    [allowed_file] accepts [stem.ext] exactly when the lower-cased [ext] is
    in the allowed set, whatever [stem] is. *)
Theorem allowed_file_last_extension (stem ext : string)
    (allowed : list string) :
  Py.contains_char "." ext = false ->
  allowed_file (stem ++ "." ++ ext) allowed = Py.mem (Py.lower ext) allowed.
Proof.
  intros H. unfold allowed_file, Py.rsplit1. simpl.
  rewrite contains_char_append_dot, (@split_last_append "."%char stem ext H).
  reflexivity.
Qed.

(** The theorem on a double extension. *)
Lemma allowed_file_last_extension_witness :
  allowed_file ("voice.wav" ++ "." ++ "EXE") ALLOWED_AUDIO_EXTENSIONS
  = Py.mem (Py.lower "EXE") ALLOWED_AUDIO_EXTENSIONS.
Proof. apply allowed_file_last_extension. reflexivity. Defined.

(** X2.  No file name passes both checks: a name accepted for the PDF slot
    is refused for the audio slots, and a name without a dot is refused for
    both. *)
Theorem allowed_sets_are_disjoint (name : string) :
  (allowed_file name ALLOWED_PDF_EXTENSIONS = true ->
   allowed_file name ALLOWED_AUDIO_EXTENSIONS = false) /\
  (Py.contains_char "." name = false ->
   allowed_file name ALLOWED_PDF_EXTENSIONS = false /\
   allowed_file name ALLOWED_AUDIO_EXTENSIONS = false).
Proof.
  split.
  - unfold allowed_file. destruct (Py.contains_char "." name); [|discriminate].
    destruct (nth_error (Py.rsplit1 "." name) 1) as [ext|]; [|reflexivity].
    intros H. apply mem_In in H. destruct H as [H|[]].
    rewrite <- H. reflexivity.
  - unfold allowed_file. intros ->. now split.
Qed.

(** The theorem on [paper.pdf] and on [README]. *)
Lemma allowed_sets_are_disjoint_witness :
  allowed_file "paper.pdf" ALLOWED_AUDIO_EXTENSIONS = false /\
  allowed_file "README" ALLOWED_PDF_EXTENSIONS = false /\
  allowed_file "README" ALLOWED_AUDIO_EXTENSIONS = false.
Proof.
  split.
  - apply (proj1 (allowed_sets_are_disjoint "paper.pdf")). reflexivity.
  - apply (proj2 (allowed_sets_are_disjoint "README")). reflexivity.
Defined.

(* ================================================================== *)
(** ** Further properties: the API key *)
(* ================================================================== *)

Lemma first_match_space c r :
  ascii_space c = true -> Py.first_match Py.whitespace (String c r) = Some r.
Proof.
  destruct c as [[] [] [] [] [] [] [] []]; intros H; vm_compute in H;
    try discriminate; reflexivity.
Qed.

Lemma lstrip_blank s : blank s = true -> Py.lstrip s = "".
Proof.
  unfold Py.lstrip. induction s as [|c s IH]; simpl; [reflexivity|].
  intros H. apply andb_prop in H as [Hc Hs].
  change (match Py.first_match Py.whitespace (String c s) with
          | Some r => Py.lstrip_fuel Py.whitespace (String.length s) r
          | None => String c s
          end = "").
  rewrite (@first_match_space c s Hc). auto.
Qed.

Lemma strip_blank_string s : blank s = true -> Py.strip s = "".
Proof. intros H. unfold Py.strip. now rewrite (lstrip_blank s H). Qed.

(** X3.  An API key that is empty or consists of ASCII white space only
    counts as no key: the stream is the single error event, and the handler
    saves no upload and calls no helper, whatever else the request
    carries. *)
Theorem blank_key_is_no_key {B : Backend} (req : request) (uuid4 : string) :
  blank (Py.get_default "api_key" "" (form req)) = true ->
  generate_podcast req uuid4
  = ([Yield (error_event "未提供 API Key")], Next tt).
Proof.
  intros H. unfold generate_podcast.
  now rewrite (strip_blank_string _ H).
Qed.

(** The theorem on a request whose key is three spaces. *)
Lemma blank_key_is_no_key_witness :
  @generate_podcast Sample.backend blank_key_request Sample.uuid_a
  = ([Yield (error_event "未提供 API Key")], Next tt).
Proof. apply blank_key_is_no_key. reflexivity. Defined.

(* ================================================================== *)
(** ** Further properties: where the arguments of the calls come from *)
(* ================================================================== *)

Lemma snd_eq {R A : Type} (m : M R A) o : snd m = o -> m = (fst m, o).
Proof. destruct m. simpl. now intros ->. Qed.

Lemma if_set_some o p : Py.if_set o = Some p -> o = Some p.
Proof.
  unfold Py.if_set. destruct o as [s|]; [|discriminate].
  destruct (Py.truthy s); [|discriminate]. now intros [= ->].
Qed.

Section FlowLemmas.

Context {B : Backend}.

Lemma speaker_config_step_value label ty name path t cfg :
  speaker_config_step label ty name path = (t, Next cfg) ->
  config_for ty name path cfg.
Proof.
  intros E. destruct (speaker_config_step_next _ _ _ _ E) as [D C].
  split; [exact D|]. split; [exact C|].
  intros Nd Nc. unfold speaker_config_step in E.
  apply String.eqb_neq in Nd, Nc. rewrite Nd, Nc in E.
  now injection E as _ <-.
Qed.

Lemma config_steps_values c c1 c2 :
  snd (config_steps c) = Next (c1, c2) ->
  config_for (speaker1_type c) (speaker1_voice_name c)
             (speaker1_audio_path c) c1 /\
  config_for (speaker2_type c) (speaker2_voice_name c)
             (speaker2_audio_path c) c2.
Proof.
  unfold config_steps. rewrite !bind_unfold. cbn [yield fst snd].
  destruct (speaker_config_step "Speaker1" _ _ _) as [t1 [p|r|e]] eqn:E1;
    cbn [fst snd]; try discriminate.
  rewrite bind_unfold.
  destruct (speaker_config_step "Speaker2" _ _ _) as [t2 [u|r|e]] eqn:E2;
    cbn [fst snd ret]; try discriminate.
  intros [= -> ->]. split; eapply speaker_config_step_value; eassumption.
Qed.

Lemma for_each_trace_ids (d : list (string * json)) :
  for_each (R:=unit) d
    (fun kv =>
       if json_truthy (snd kv) then yield (trace_id_event (fst kv) (snd kv))
       else ret tt)
  = (trace_id_events d, Next tt).
Proof.
  unfold trace_id_events. induction d as [|kv d IH]; [reflexivity|].
  cbn [for_each filter]. rewrite bind_unfold, IH.
  destruct (json_truthy (snd kv)); reflexivity.
Qed.

(** What the voice step does with the answer of the voice manager. *)
Lemma prepare_voices_step_unfold c c1 c2 :
  prepare_voices_step c c1 c2
  = match prepare_voices c1 c2 (user_api_key c) with
    | Raise msg =>
        ([PrepareVoices c1 c2 (user_api_key c)], Raised msg)
    | Ok r =>
        if vr_success r then
          (PrepareVoices c1 c2 (user_api_key c)
             :: map (fun log => Yield (log_event log)) (vr_logs r)
             ++ trace_id_events
                  (match vr_trace_ids r with Some d => d | None => [] end),
           match vr_speaker1 r, vr_speaker2 r with
           | Some v1, Some v2 => Next (v1, v2)
           | None, _ => Raised "'speaker1'"
           | Some _, None => Raised "'speaker2'"
           end)
        else
          match vr_error r with
          | Some msg =>
              ([PrepareVoices c1 c2 (user_api_key c);
                Yield (error_event msg)], Return tt)
          | None =>
              ([PrepareVoices c1 c2 (user_api_key c)], Raised "'error'")
          end
    end.
Proof.
  unfold prepare_voices_step. rewrite bind_unfold. cbn [call fst snd].
  destruct (prepare_voices c1 c2 (user_api_key c)) as [r|msg];
    cbn [fst snd]; [|reflexivity].
  destruct (vr_success r); cbn [negb].
  - rewrite bind_unfold, for_each_yield. cbn [fst snd].
    rewrite bind_unfold, for_each_trace_ids. cbn [fst snd].
    rewrite bind_unfold.
    destruct (vr_speaker1 r) as [v1|]; cbn [item ret raise fst snd];
      [|rewrite ?app_nil_r; reflexivity].
    rewrite bind_unfold.
    destruct (vr_speaker2 r) as [v2|]; cbn [item ret raise fst snd];
      rewrite ?app_nil_r; reflexivity.
  - rewrite bind_unfold. destruct (vr_error r); cbn [item ret raise fst snd];
      reflexivity.
Qed.

Lemma prepare_voices_step_next c c1 c2 t ids :
  prepare_voices_step c c1 c2 = (t, Next ids) ->
  exists r,
    prepare_voices c1 c2 (user_api_key c) = Ok r /\
    vr_success r = true /\
    vr_speaker1 r = Some (fst ids) /\ vr_speaker2 r = Some (snd ids).
Proof.
  rewrite prepare_voices_step_unfold.
  destruct (prepare_voices c1 c2 (user_api_key c)) as [r|msg];
    [|discriminate].
  destruct (vr_success r) eqn:S.
  - destruct (vr_speaker1 r) as [v1|] eqn:V1; [|discriminate].
    destruct (vr_speaker2 r) as [v2|] eqn:V2; [|discriminate].
    intros [= _ <-]. exists r. auto.
  - destruct (vr_error r); discriminate.
Qed.

Lemma parse_pdf_step_flow c : shaped (flow_effect c) (parse_pdf_step c).
Proof.
  unfold parse_pdf_step.
  destruct (Py.if_set (pdf_path c)) as [path|] eqn:E;
    shape_with ltac:(simpl; auto).
Qed.

Lemma parse_url_step_flow c : shaped (flow_effect c) (parse_url_step c).
Proof.
  unfold parse_url_step.
  destruct (Py.truthy (url_input c)) eqn:E; shape_with ltac:(simpl; auto).
Qed.

Lemma merge_step_flow c :
  shaped (flow_effect c) (merge_step c (url_text c) (pdf_text c)).
Proof. unfold merge_step. shape_with ltac:(simpl; auto). Qed.

Lemma content_steps_flow c : shaped (flow_effect c) (content_steps c).
Proof.
  unfold content_steps. apply shaped_bind; [now apply shaped_yield|].
  intros _. apply shaped_bind_val; [apply parse_pdf_step_flow|].
  intros p Hp. apply snd_eq, parse_pdf_step_next in Hp. subst p.
  apply shaped_bind_val; [apply parse_url_step_flow|].
  intros u Hu. apply snd_eq, parse_url_step_next in Hu. subst u.
  apply merge_step_flow.
Qed.

Lemma content_steps_value c m :
  snd (content_steps c) = Next m ->
  merge_contents (text_input c) (url_text c) (pdf_text c) = Ok m /\
  m <> "" /\ m <> NO_CONTENT.
Proof.
  destruct (content_steps_unfold c) as [x [E [_ N]]].
  rewrite E. cbn [snd]. apply N.
Qed.

Lemma config_steps_flow c : shaped (flow_effect c) (config_steps c).
Proof.
  destruct (config_steps_unfold c) as [x [E [S _]]]. rewrite E.
  assert (W : shaped (flow_effect c) x).
  { eapply shaped_weaken; [|exact S].
    intros e. destruct e; simpl; tauto. }
  destruct x as [t [a|[]|msg]]; cbn [fst snd shaped] in *.
  - constructor; [exact I | exact W].
  - destruct W as [u [msg [-> Hu]]]. exists (Yield PREPARING :: u), msg.
    split; [reflexivity | constructor; [exact I | exact Hu]].
  - constructor; [exact I | exact W].
Qed.

Lemma generate_body_flow c : shaped (flow_effect c) (generate_body c).
Proof.
  unfold generate_body.
  apply shaped_bind_val; [apply content_steps_flow|].
  intros m Hm. destruct (content_steps_value c Hm) as (Mg & M1 & M2).
  apply shaped_bind_val; [apply config_steps_flow|].
  intros [c1 c2] Hc. destruct (config_steps_values c Hc) as [F1 F2].
  cbn [fst snd].
  apply shaped_bind_val.
  - unfold prepare_voices_step. shape_with ltac:(simpl; auto).
  - intros ids Hi. apply snd_eq, prepare_voices_step_next in Hi.
    destruct Hi as (r & Pr & Sr & V1 & V2).
    unfold podcast_step. apply shaped_bind.
    + apply shaped_call. simpl. repeat split; auto.
      exists c1, c2, r. auto 10.
    + intros _. apply shaped_for_stream. intros x _. now apply shaped_yield.
Qed.

Lemma generate_flow c e : In e (fst (generate c)) -> flow_effect c e.
Proof.
  rewrite generate_unfold. pose proof (generate_body_flow c) as S.
  destruct (generate_body c) as [t [a|r|msg]] eqn:E; cbn [fst]; intros Hin.
  - destruct (@shaped_effects _ _ _ _ S Hin) as [F|[x ->]]; [exact F | exact I].
  - destruct (@shaped_effects _ _ _ _ S Hin) as [F|[x ->]]; [exact F | exact I].
  - apply in_app_or in Hin as [Hin|[ <- | [] ]]; [|exact I].
    destruct (@shaped_effects _ _ _ _ S Hin) as [F|[x ->]]; [exact F | exact I].
Qed.

(** What a keyed request whose uploads are written does: the uploads of
    the three slots, then the generator on the closure. *)
Lemma request_run req uuid4 :
  Py.truthy (Py.strip (Py.get_default "api_key" "" (form req))) = true ->
  (exists c, extracted req uuid4 c) ->
  exists tp pdf t1 a1 t2 a2 c,
    pdf_upload_step req uuid4 = (tp, Next pdf) /\
    speaker_upload_step req uuid4 "speaker1"
      (Py.get_default "speaker1_type" "default" (form req)) = (t1, Next a1) /\
    speaker_upload_step req uuid4 "speaker2"
      (Py.get_default "speaker2_type" "default" (form req)) = (t2, Next a2) /\
    extracted req uuid4 c /\
    session_id c = uuid4 /\
    user_api_key c = Py.strip (Py.get_default "api_key" "" (form req)) /\
    text_input c = Py.strip (Py.get_default "text_input" "" (form req)) /\
    url_input c = Py.strip (Py.get_default "url" "" (form req)) /\
    pdf_path c = snd pdf /\
    speaker1_type c = Py.get_default "speaker1_type" "default" (form req) /\
    speaker1_voice_name c
    = Py.get_default "speaker1_voice_name" "mini" (form req) /\
    speaker1_audio_path c = a1 /\
    speaker2_type c = Py.get_default "speaker2_type" "default" (form req) /\
    speaker2_voice_name c
    = Py.get_default "speaker2_voice_name" "max" (form req) /\
    speaker2_audio_path c = a2 /\
    trace (generate_podcast req uuid4) = (tp ++ t1 ++ t2) ++ fst (generate c).
Proof.
  intros K (c0 & t0 & Ex0).
  destruct (generate_podcast_unfold req uuid4 K)
    as [(ts & c & Ex & _ & E)|(ts & msg & Ex & _ & _)];
    [|rewrite Ex0 in Ex; discriminate].
  destruct (extract_unfold _ _ _ Ex)
    as (tp & pdf & t1 & a1 & t2 & a2 & Ep & E1 & E2 & Ex').
  exists tp, pdf, t1, a1, t2, a2, c.
  rewrite Ex in Ex'. injection Ex' as -> ->.
  unfold trace. rewrite E. cbn [fst].
  repeat split; try assumption; try reflexivity.
  eexists. exact Ex.
Qed.

End FlowLemmas.

Section FlowRequests.

Context {B : Backend}.

(** An effect of a keyed request that is not a save is an effect of the
    generator, which the handler has reached. *)
Lemma request_effect req uuid4 e :
  Py.truthy (Py.strip (Py.get_default "api_key" "" (form req))) = true ->
  In e (trace (generate_podcast req uuid4)) ->
  ~ is_save e ->
  exists tp pdf t1 a1 t2 a2 c,
    pdf_upload_step req uuid4 = (tp, Next pdf) /\
    speaker_upload_step req uuid4 "speaker1"
      (Py.get_default "speaker1_type" "default" (form req)) = (t1, Next a1) /\
    speaker_upload_step req uuid4 "speaker2"
      (Py.get_default "speaker2_type" "default" (form req)) = (t2, Next a2) /\
    extracted req uuid4 c /\
    session_id c = uuid4 /\
    user_api_key c = Py.strip (Py.get_default "api_key" "" (form req)) /\
    text_input c = Py.strip (Py.get_default "text_input" "" (form req)) /\
    url_input c = Py.strip (Py.get_default "url" "" (form req)) /\
    pdf_path c = snd pdf /\
    speaker1_type c = Py.get_default "speaker1_type" "default" (form req) /\
    speaker1_voice_name c
    = Py.get_default "speaker1_voice_name" "mini" (form req) /\
    speaker1_audio_path c = a1 /\
    speaker2_type c = Py.get_default "speaker2_type" "default" (form req) /\
    speaker2_voice_name c
    = Py.get_default "speaker2_voice_name" "max" (form req) /\
    speaker2_audio_path c = a2 /\
    trace (generate_podcast req uuid4) = (tp ++ t1 ++ t2) ++ fst (generate c) /\
    (is_save e \/ flow_effect c e).
Proof.
  intros K Hin NS.
  assert (X : exists c, extracted req uuid4 c).
  { destruct (generate_podcast_unfold req uuid4 K)
      as [(ts & c & Ex & _ & _)|(ts & msg & _ & Hs & E)].
    - exists c, ts. exact Ex.
    - unfold trace in Hin. rewrite E in Hin. cbn [fst] in Hin.
      rewrite Forall_forall in Hs. now elim NS; apply Hs. }
  destruct (request_run K X)
    as (tp & pdf & t1 & a1 & t2 & a2 & c & Ep & E1 & E2 & R).
  exists tp, pdf, t1, a1, t2, a2, c.
  repeat (split; [tauto|]).
  assert (Et : trace (generate_podcast req uuid4)
               = (tp ++ t1 ++ t2) ++ fst (generate c)) by tauto.
  rewrite Et in Hin. apply in_app_or in Hin as [Hin|Hin].
  - left. destruct (upload_steps_save req uuid4) as [Hp Hs].
    rewrite Ep in Hp.
    pose proof (Hs "speaker1"
                  (Py.get_default "speaker1_type" "default" (form req))) as H1.
    pose proof (Hs "speaker2"
                  (Py.get_default "speaker2_type" "default" (form req))) as H2.
    rewrite E1 in H1. rewrite E2 in H2. cbn [fst] in *.
    assert (F : Forall is_save (tp ++ t1 ++ t2))
      by (repeat (apply Forall_app; split); assumption).
    rewrite Forall_forall in F. auto.
  - right. now apply generate_flow.
Qed.

Lemma no_key_trace req uuid4 e :
  api_key_missing req ->
  In e (trace (generate_podcast req uuid4)) ->
  e = Yield (error_event "未提供 API Key").
Proof.
  intros K. unfold trace. rewrite (generate_podcast_no_key uuid4 K).
  now intros [ <- | [] ].
Qed.

End FlowRequests.

(** X4.  The podcast generator is called only with what the earlier steps
    have produced for this request: the session is the request's UUID, the
    key is the request's, the content is a non-empty answer of
    [merge_contents] other than the no-content sentinel, and the two voice
    ids are those of an answer of the voice manager that reports success
    for this key. *)
Theorem podcast_generation_inputs {B : Backend} (req : request)
    (uuid4 m v1 v2 sid k : string) :
  In (PodcastStream m v1 v2 sid k) (trace (generate_podcast req uuid4)) ->
  sid = uuid4 /\
  k = Py.strip (Py.get_default "api_key" "" (form req)) /\
  exists c c1 c2 r,
    extracted req uuid4 c /\
    merge_contents (Py.strip (Py.get_default "text_input" "" (form req)))
                   (url_text c) (pdf_text c) = Ok m /\
    m <> "" /\ m <> NO_CONTENT /\
    prepare_voices c1 c2 k = Ok r /\
    vr_success r = true /\
    vr_speaker1 r = Some v1 /\ vr_speaker2 r = Some v2.
Proof.
  intros Hin. destruct (key_missing_or_truthy req) as [K|K].
  { apply (@no_key_trace B req uuid4 _ K) in Hin. discriminate. }
  destruct (@request_effect B req uuid4 _ K Hin (fun H => H))
    as (tp & pdf & t1 & a1 & t2 & a2 & c & _ & _ & _ & Ex & Es & Ek & Et
        & _ & _ & _ & _ & _ & _ & _ & _ & _ & [[]|F]).
  destruct F as (-> & -> & Mg & M1 & M2 & c1 & c2 & r & _ & _ & P & S & V1 & V2).
  split; [exact Es|]. split; [exact Ek|].
  exists c, c1, c2, r. rewrite <- Et. auto 10.
Qed.

(** The theorem on the podcast call of the sample request. *)
Lemma podcast_generation_inputs_witness :
  Sample.uuid_a = Sample.uuid_a /\
  "sk-1" = Py.strip (Py.get_default "api_key" "" (form Sample.full_request)) /\
  exists c c1 c2 r,
    @extracted Sample.backend Sample.full_request Sample.uuid_a c /\
    Sample.merge
      (Py.strip (Py.get_default "text_input" "" (form Sample.full_request)))
      (@url_text Sample.backend c) (@pdf_text Sample.backend c)
    = Ok "hello pdf text" /\
    "hello pdf text" <> "" /\ "hello pdf text" <> NO_CONTENT /\
    @prepare_voices Sample.backend c1 c2 "sk-1" = Ok r /\
    vr_success r = true /\
    vr_speaker1 r = Some "voice-a" /\ vr_speaker2 r = Some "voice-b".
Proof.
  apply (@podcast_generation_inputs Sample.backend Sample.full_request
           Sample.uuid_a "hello pdf text" "voice-a" "voice-b" Sample.uuid_a
           "sk-1").
  vm_compute. auto 30.
Defined.

(** X5.  The parsers and the merge are called on the request's own inputs:
    the URL parser on the stripped, non-empty [url] field; the PDF parser on
    a path under which the handler has saved the file of the PDF slot in
    this request; the merge on the stripped [text_input] field. *)
Theorem parsers_get_the_inputs {B : Backend} (req : request)
    (uuid4 : string) :
  (forall u,
     In (ParseUrl u) (trace (generate_podcast req uuid4)) ->
     u = Py.strip (Py.get_default "url" "" (form req)) /\ u <> "") /\
  (forall p,
     In (ParsePdf p) (trace (generate_podcast req uuid4)) ->
     exists f,
       Py.get "pdf_file" (files req) = Some f /\
       In (Save p f) (trace (generate_podcast req uuid4))) /\
  (forall t u p,
     In (MergeContents t u p) (trace (generate_podcast req uuid4)) ->
     t = Py.strip (Py.get_default "text_input" "" (form req))).
Proof.
  split; [|split].
  - intros u Hin. destruct (key_missing_or_truthy req) as [K|K].
    { apply (@no_key_trace B req uuid4 _ K) in Hin. discriminate. }
    destruct (@request_effect B req uuid4 _ K Hin (fun H => H))
      as (tp & pdf & t1 & a1 & t2 & a2 & c & _ & _ & _ & _ & _ & _ & _ & Eu
          & _ & _ & _ & _ & _ & _ & _ & _ & [[]|[-> T]]).
    split; [exact Eu|]. intros Z. rewrite Z in T. discriminate.
  - intros p Hin. destruct (key_missing_or_truthy req) as [K|K].
    { apply (@no_key_trace B req uuid4 _ K) in Hin. discriminate. }
    destruct (@request_effect B req uuid4 _ K Hin (fun H => H))
      as (tp & pdf & t1 & a1 & t2 & a2 & c & Ep & _ & _ & _ & _ & _ & _ & _
          & Epp & _ & _ & _ & _ & _ & _ & Et & [[]|F]).
    simpl in F. apply if_set_some in F. rewrite Epp in F.
    destruct (pdf_upload_step_next _ _ Ep)
      as [(f & G & _ & Ep')|[_ Ep']];
      rewrite Ep in Ep'; injection Ep' as -> ->; [|discriminate].
    injection F as <-. exists f. split; [exact G|].
    rewrite Et. apply in_or_app. left. now left.
  - intros t u p Hin. destruct (key_missing_or_truthy req) as [K|K].
    { apply (@no_key_trace B req uuid4 _ K) in Hin. discriminate. }
    destruct (@request_effect B req uuid4 _ K Hin (fun H => H))
      as (tp & pdf & t1 & a1 & t2 & a2 & c & _ & _ & _ & _ & _ & _ & Ett & _
          & _ & _ & _ & _ & _ & _ & _ & _ & [[]|(-> & _)]).
    exact Ett.
Qed.

(** The theorem on the URL, the PDF and the text of the sample request. *)
Lemma parsers_get_the_inputs_witness :
  ("http://example.org"
   = Py.strip (Py.get_default "url" "" (form Sample.full_request)) /\
   "http://example.org" <> "") /\
  (exists f,
     Py.get "pdf_file" (files Sample.full_request) = Some f /\
     In (Save "uploads/0b0e3a52-6c1f-4a7e-9d0b-5f2f3c1a9e10_paper.pdf" f)
        (trace (@generate_podcast Sample.backend Sample.full_request
                  Sample.uuid_a))) /\
  "hello" = Py.strip (Py.get_default "text_input" "" (form Sample.full_request)).
Proof.
  split; [|split].
  - apply (proj1 (@parsers_get_the_inputs Sample.backend
                    Sample.full_request Sample.uuid_a)).
    vm_compute. auto 30.
  - apply (proj1 (proj2 (@parsers_get_the_inputs Sample.backend
                           Sample.full_request Sample.uuid_a))).
    vm_compute. auto 30.
  - apply (proj2 (proj2 (@parsers_get_the_inputs Sample.backend
                           Sample.full_request Sample.uuid_a))
             "hello" "" "pdf text").
    vm_compute. auto 30.
Defined.

(** X6.  For a speaker of type ['custom'] whose audio upload is allowed,
    the voice manager is handed the type and, as [audio_file], the very
    path under which the handler has saved that upload. *)
Theorem custom_audio_reaches_the_voice_manager {B : Backend} (req : request)
    (uuid4 tag : string) (f : upload) (c1 c2 : config) (k : string) :
  tag = "speaker1" \/ tag = "speaker2" ->
  Py.get_default (tag ++ "_type") "default" (form req) = "custom" ->
  Py.get (tag ++ "_audio") (files req) = Some f ->
  allowed_file (filename f) ALLOWED_AUDIO_EXTENSIONS = true ->
  In (PrepareVoices c1 c2 k) (trace (generate_podcast req uuid4)) ->
  let path :=
    Py.path_join UPLOAD_DIR
      (uuid4 ++ "_" ++ tag ++ "_" ++ secure_filename (filename f)) in
  In (Save path f) (trace (generate_podcast req uuid4)) /\
  (tag = "speaker1" -> c1 = [("type", "custom"); ("audio_file", path)]) /\
  (tag = "speaker2" -> c2 = [("type", "custom"); ("audio_file", path)]).
Proof.
  intros Tag Ty G A Hin path.
  destruct (key_missing_or_truthy req) as [K|K].
  { apply (@no_key_trace B req uuid4 _ K) in Hin. discriminate. }
  destruct (@request_effect B req uuid4 _ K Hin (fun H => H))
    as (tp & pdf & t1 & a1 & t2 & a2 & c & _ & E1 & E2 & _ & _ & _ & _ & _
        & _ & Ty1 & _ & P1 & Ty2 & _ & P2 & Et & [[]|(_ & F1 & F2)]).
  destruct Tag as [-> | ->]; cbn [append] in Ty, G.
  - destruct (speaker_upload_step_next _ _ _ _ E1)
      as [(f' & _ & G' & _ & E1')|[[N|N] _]].
    + cbn [append] in G'. rewrite G in G'. injection G' as <-.
      rewrite E1 in E1'. injection E1' as -> ->.
      split; [|split; [|discriminate]].
      * rewrite Et. apply in_or_app. left. apply in_or_app. right.
        apply in_or_app. left. now left.
      * intros _. rewrite Ty1, Ty in F1. destruct F1 as (_ & C & _).
        destruct (C eq_refl) as (p & Hp & ->).
        rewrite P1 in Hp. apply if_set_some in Hp. now injection Hp as <-.
    + contradiction.
    + unfold allowed_audio in N. cbn [append] in N. rewrite G in N. congruence.
  - destruct (speaker_upload_step_next _ _ _ _ E2)
      as [(f' & _ & G' & _ & E2')|[[N|N] _]].
    + cbn [append] in G'. rewrite G in G'. injection G' as <-.
      rewrite E2 in E2'. injection E2' as -> ->.
      split; [|split; [discriminate|]].
      * rewrite Et. apply in_or_app. left. apply in_or_app. right.
        apply in_or_app. right. now left.
      * intros _. rewrite Ty2, Ty in F2. destruct F2 as (_ & C & _).
        destruct (C eq_refl) as (p & Hp & ->).
        rewrite P2 in Hp. apply if_set_some in Hp. now injection Hp as <-.
    + contradiction.
    + unfold allowed_audio in N. cbn [append] in N. rewrite G in N. congruence.
Qed.

(** The theorem on the custom speaker 1 of the sample request. *)
Lemma custom_audio_reaches_the_voice_manager_witness :
  In (Save "uploads/0b0e3a52-6c1f-4a7e-9d0b-5f2f3c1a9e10_speaker1_me.WAV"
        Sample.wav)
     (trace (@generate_podcast Sample.backend Sample.full_request
               Sample.uuid_a)) /\
  ("speaker1" = "speaker1" ->
   [("type", "custom");
    ("audio_file",
     "uploads/0b0e3a52-6c1f-4a7e-9d0b-5f2f3c1a9e10_speaker1_me.WAV")]
   = [("type", "custom");
      ("audio_file",
       "uploads/0b0e3a52-6c1f-4a7e-9d0b-5f2f3c1a9e10_speaker1_me.WAV")]) /\
  ("speaker1" = "speaker2" ->
   [("type", "default"); ("voice_name", "max")]
   = [("type", "custom");
      ("audio_file",
       "uploads/0b0e3a52-6c1f-4a7e-9d0b-5f2f3c1a9e10_speaker1_me.WAV")]).
Proof.
  apply (@custom_audio_reaches_the_voice_manager Sample.backend
           Sample.full_request Sample.uuid_a "speaker1" Sample.wav
           [("type", "custom");
            ("audio_file",
             "uploads/0b0e3a52-6c1f-4a7e-9d0b-5f2f3c1a9e10_speaker1_me.WAV")]
           [("type", "default"); ("voice_name", "max")] "sk-1"
           (or_introl eq_refl) eq_refl eq_refl eq_refl).
  vm_compute. auto 30.
Defined.

Section OtherTypes.

Context {B : Backend}.

(** The config of a speaker whose type the handler does not know. *)
Lemma speaker_config_step_other label ty name path :
  ty <> "default" -> ty <> "custom" ->
  speaker_config_step label ty name path = ([], Next [("type", ty)]).
Proof.
  intros Nd Nc. unfold speaker_config_step.
  apply String.eqb_neq in Nd. apply String.eqb_neq in Nc.
  now rewrite Nd, Nc.
Qed.

(** With content and two speaker configs the generator calls the voice
    manager. *)
Lemma generate_reaches_the_voice_manager c tb m t1 c1 t2 c2 :
  content_steps c = (tb, Next m) ->
  speaker_config_step "Speaker1" (speaker1_type c) (speaker1_voice_name c)
                      (speaker1_audio_path c) = (t1, Next c1) ->
  speaker_config_step "Speaker2" (speaker2_type c) (speaker2_voice_name c)
                      (speaker2_audio_path c) = (t2, Next c2) ->
  exists rest,
    fst (generate c)
    = tb ++ Yield PREPARING :: t1 ++ t2
      ++ PrepareVoices c1 c2 (user_api_key c) :: rest.
Proof.
  intros Ec E1 E2.
  assert (Eb : before_voices c
               = (tb ++ Yield PREPARING :: t1 ++ t2, Next (m, (c1, c2)))).
  { unfold before_voices, config_steps. rewrite Ec, E1, E2.
    cbn [bind yield ret fst snd app]. now rewrite !app_nil_r. }
  assert (Ev : exists rv,
             fst (prepare_voices_step c c1 c2)
             = PrepareVoices c1 c2 (user_api_key c) :: rv).
  { rewrite prepare_voices_step_unfold.
    destruct (prepare_voices c1 c2 (user_api_key c)) as [r|msg];
      [destruct (vr_success r); [|destruct (vr_error r)]|];
      cbn [fst]; eauto. }
  destruct Ev as [rv Ev].
  destruct (bind_prefix (prepare_voices_step c c1 c2)
              (fun voice_ids => podcast_step c m voice_ids)) as [r1 E1'].
  assert (Eg : exists r0, fst (generate c) = fst (generate_body c) ++ r0).
  { rewrite generate_unfold.
    destruct (generate_body c) as [t [a|r|e]]; cbn [fst]; eauto.
    exists []. now rewrite app_nil_r. exists []. now rewrite app_nil_r. }
  destruct Eg as [r0 Eg]. rewrite Eg.
  rewrite generate_body_split, bind_unfold, Eb. cbn [fst snd].
  rewrite E1', Ev. exists (rv ++ r1 ++ r0).
  rewrite <- !app_assoc. cbn [app]. rewrite <- !app_assoc. reflexivity.
Qed.

End OtherTypes.

(** X7.  A speaker type that is neither ['default'] nor ['custom'] is not
    refused.  For a request with a key whose uploads are written, whose
    content is not empty and whose other speaker has a config, the audio
    slot of such a speaker saves nothing, and the generator goes on to the
    voice manager, which it hands for that speaker a config that holds the
    type and nothing else. *)
Theorem other_speaker_type_is_passed_on {B : Backend} (req : request)
    (uuid4 : string) (c : closure) (tb : list effect) (m : string) :
  Py.truthy (Py.strip (Py.get_default "api_key" "" (form req))) = true ->
  extracted req uuid4 c ->
  content_steps c = (tb, Next m) ->
  (forall t2 c2,
     Py.get_default "speaker1_type" "default" (form req) <> "default" ->
     Py.get_default "speaker1_type" "default" (form req) <> "custom" ->
     speaker_config_step "Speaker2" (speaker2_type c) (speaker2_voice_name c)
                         (speaker2_audio_path c) = (t2, Next c2) ->
     speaker_upload_step req uuid4 "speaker1"
       (Py.get_default "speaker1_type" "default" (form req))
     = ([], Next None) /\
     exists uploads rest,
       Forall is_save uploads /\
       trace (generate_podcast req uuid4)
       = uploads ++ tb
         ++ Yield PREPARING :: t2
         ++ PrepareVoices
              [("type", Py.get_default "speaker1_type" "default" (form req))]
              c2 (user_api_key c)
            :: rest) /\
  (forall t1 c1,
     Py.get_default "speaker2_type" "default" (form req) <> "default" ->
     Py.get_default "speaker2_type" "default" (form req) <> "custom" ->
     speaker_config_step "Speaker1" (speaker1_type c) (speaker1_voice_name c)
                         (speaker1_audio_path c) = (t1, Next c1) ->
     speaker_upload_step req uuid4 "speaker2"
       (Py.get_default "speaker2_type" "default" (form req))
     = ([], Next None) /\
     exists uploads rest,
       Forall is_save uploads /\
       trace (generate_podcast req uuid4)
       = uploads ++ tb
         ++ Yield PREPARING :: t1
         ++ PrepareVoices
              c1
              [("type", Py.get_default "speaker2_type" "default" (form req))]
              (user_api_key c)
            :: rest).
Proof.
  intros K [t0 Ex] Ec.
  destruct (generate_podcast_unfold req uuid4 K)
    as [(ts & c' & Ex' & Hs & G)|(ts & msg & Ex' & _ & _)];
    [|rewrite Ex in Ex'; discriminate].
  rewrite Ex in Ex'. injection Ex' as -> <-.
  destruct (extract_unfold _ _ _ Ex)
    as (tp & pdf & u1 & a1 & u2 & a2 & _ & _ & _ & Ex').
  rewrite Ex in Ex'. injection Ex' as _ Ec'.
  assert (Ty1 : speaker1_type c
                = Py.get_default "speaker1_type" "default" (form req))
    by now rewrite Ec'.
  assert (Ty2 : speaker2_type c
                = Py.get_default "speaker2_type" "default" (form req))
    by now rewrite Ec'.
  clear Ec'. unfold trace. rewrite G. cbn [fst].
  split.
  - intros t2 c2 Nd Nc E2. split.
    + unfold speaker_upload_step. apply String.eqb_neq in Nc. now rewrite Nc.
    + rewrite <- Ty1 in Nd, Nc |- *.
      destruct (@generate_reaches_the_voice_manager _ c tb m [] _ t2 c2 Ec
                  (speaker_config_step_other "Speaker1"
                     (speaker1_voice_name c) (speaker1_audio_path c) Nd Nc)
                  E2) as [rest Eg].
      exists ts, rest. split; [exact Hs|]. rewrite Eg. reflexivity.
  - intros t1 c1 Nd Nc E1. split.
    + unfold speaker_upload_step. apply String.eqb_neq in Nc. now rewrite Nc.
    + rewrite <- Ty2 in Nd, Nc |- *.
      destruct (@generate_reaches_the_voice_manager _ c tb m t1 c1 [] _ Ec
                  E1
                  (speaker_config_step_other "Speaker2"
                     (speaker2_voice_name c) (speaker2_audio_path c) Nd Nc))
        as [rest Eg].
      exists ts, rest. split; [exact Hs|]. rewrite Eg.
      now rewrite ?app_nil_r.
Qed.

(** The theorem on a speaker of type [robot], whose audio is not saved and
    whose type reaches the voice manager. *)
Lemma other_speaker_type_is_passed_on_witness :
  @speaker_upload_step Sample.backend robot_request Sample.uuid_a "speaker1"
    (Py.get_default "speaker1_type" "default" (form robot_request))
  = ([], Next None) /\
  exists uploads rest,
    Forall is_save uploads /\
    trace (@generate_podcast Sample.backend robot_request Sample.uuid_a)
    = uploads
      ++ [Yield PARSING;
          MergeContents "hello" "" "";
          Yield (log_event "内容解析完成，共 5 字符")]
      ++ Yield PREPARING :: []
      ++ PrepareVoices
           [("type",
             Py.get_default "speaker1_type" "default" (form robot_request))]
           [("type", "default"); ("voice_name", "max")]
           (user_api_key robot_closure)
         :: rest.
Proof.
  apply (proj1 (@other_speaker_type_is_passed_on Sample.backend robot_request
                  Sample.uuid_a robot_closure
                  [Yield PARSING;
                   MergeContents "hello" "" "";
                   Yield (log_event "内容解析完成，共 5 字符")]
                  "hello" eq_refl
                  (ex_intro _ [] eq_refl) eq_refl)
           [] [("type", "default"); ("voice_name", "max")]).
  - discriminate.
  - discriminate.
  - reflexivity.
Defined.

(* ================================================================== *)
(** ** Further properties: how the generator ends *)
(* ================================================================== *)

Section Endings.

Context {B : Backend}.

(** The generator, once its steps before the voice manager have fallen
    through. *)
Lemma generate_after_before c tb m c1 c2 :
  before_voices c = (tb, Next (m, (c1, c2))) ->
  generate c
  = match prepare_voices_step c c1 c2 with
    | (tv, Next ids) =>
        let events :=
          generate_podcast_stream m (fst ids) (snd ids)
                                  (session_id c) (user_api_key c) in
        (tb ++ tv
         ++ PodcastStream m (fst ids) (snd ids) (session_id c) (user_api_key c)
            :: map Yield (fst events)
         ++ match snd events with
            | Some msg => [Yield (error_event ("播客生成失败: " ++ msg))]
            | None => []
            end,
         Next tt)
    | (tv, Return r) => (tb ++ tv, Return r)
    | (tv, Raised msg) =>
        (tb ++ tv ++ [Yield (error_event ("播客生成失败: " ++ msg))], Next tt)
    end.
Proof.
  intros Eb. rewrite generate_unfold, generate_body_split, bind_unfold, Eb.
  cbn [fst snd]. rewrite bind_unfold.
  destruct (prepare_voices_step c c1 c2) as [tv [ids|r|msg]]; cbn [fst snd].
  - rewrite podcast_step_unfold. cbn [fst snd].
    destruct (snd (generate_podcast_stream m (fst ids) (snd ids)
                     (session_id c) (user_api_key c))).
    + rewrite <- ?app_assoc. reflexivity.
    + rewrite ?app_nil_r, <- ?app_assoc. reflexivity.
  - reflexivity.
  - now rewrite <- ?app_assoc.
Qed.

End Endings.

(** X8.  A PDF the parser reports failure for ends the request: after the
    progress event and the upload log the stream carries the parser's
    error and stops; the URL is not fetched, nothing is merged and no
    provider is called. *)
Theorem pdf_failure_aborts {B : Backend} (c : closure) (path : string)
    (r : parse_result) (msg : string) :
  Py.if_set (pdf_path c) = Some path ->
  parse_pdf path = Ok r ->
  pr_success r = false ->
  pr_error r = Some msg ->
  generate c
  = ([Yield PARSING;
      Yield (log_event ("已上传 PDF: " ++ Py.fmt (pdf_file c)));
      ParsePdf path;
      Yield (error_event msg)],
     Return tt).
Proof.
  intros P E S Er.
  rewrite generate_unfold. unfold generate_body, content_steps.
  rewrite !bind_unfold. cbn [yield fst snd].
  unfold parse_pdf_step. rewrite P, !bind_unfold. cbn [yield call fst snd].
  rewrite E. cbn [fst snd]. rewrite S, !bind_unfold, Er. reflexivity.
Qed.

(** The theorem on the sample closure and a backend whose PDF parser
    reports failure. *)
Lemma pdf_failure_aborts_witness :
  @generate failing_backend Sample.full_closure
  = ([Yield PARSING;
      Yield (log_event ("已上传 PDF: " ++ Py.fmt (pdf_file Sample.full_closure)));
      ParsePdf "uploads/0b0e3a52-6c1f-4a7e-9d0b-5f2f3c1a9e10_paper.pdf";
      Yield (error_event "scanned PDF")],
     Return tt).
Proof.
  apply (@pdf_failure_aborts failing_backend Sample.full_closure
           "uploads/0b0e3a52-6c1f-4a7e-9d0b-5f2f3c1a9e10_paper.pdf"
           {| pr_success := false; pr_content := "";
              pr_logs := ["no text layer"];
              pr_error := Some "scanned PDF"; pr_error_code := None |}
           "scanned PDF"); reflexivity.
Defined.

(** X9.  When the voice manager reports failure, the stream ends on its
    error, right after the call: its logs and trace ids are not sent and
    the podcast generator is not called. *)
Theorem voice_failure_stops {B : Backend} (c : closure) (tb : list effect)
    (m : string) (c1 c2 : config) (r : voices_result) (msg : string) :
  before_voices c = (tb, Next (m, (c1, c2))) ->
  prepare_voices c1 c2 (user_api_key c) = Ok r ->
  vr_success r = false ->
  vr_error r = Some msg ->
  generate c
  = (tb ++ [PrepareVoices c1 c2 (user_api_key c); Yield (error_event msg)],
     Return tt).
Proof.
  intros Eb P S Er.
  rewrite (generate_after_before c Eb), prepare_voices_step_unfold, P, S, Er.
  reflexivity.
Qed.

(** X10.  When the voice manager reports success and names both voices,
    the rest of the stream is fixed: the voice manager's logs in their
    order, then one trace_id event for each entry of [trace_ids] whose id
    is not empty, in the order of the dict, then the events of the podcast
    generator, called with the merged content and the two voice ids, and,
    if the generator raises on the way, one final error event. *)
Theorem voice_success_runs_the_podcast {B : Backend} (c : closure)
    (tb : list effect) (m : string) (c1 c2 : config) (r : voices_result)
    (v1 v2 : string) :
  before_voices c = (tb, Next (m, (c1, c2))) ->
  prepare_voices c1 c2 (user_api_key c) = Ok r ->
  vr_success r = true ->
  vr_speaker1 r = Some v1 ->
  vr_speaker2 r = Some v2 ->
  let events :=
    generate_podcast_stream m v1 v2 (session_id c) (user_api_key c) in
  generate c
  = (tb
     ++ (PrepareVoices c1 c2 (user_api_key c)
         :: map (fun log => Yield (log_event log)) (vr_logs r)
         ++ trace_id_events
              (match vr_trace_ids r with Some d => d | None => [] end))
     ++ PodcastStream m v1 v2 (session_id c) (user_api_key c)
        :: map Yield (fst events)
     ++ match snd events with
        | Some msg => [Yield (error_event ("播客生成失败: " ++ msg))]
        | None => []
        end,
     Next tt).
Proof.
  intros Eb P S V1 V2 events.
  rewrite (generate_after_before c Eb), prepare_voices_step_unfold, P, S, V1, V2.
  reflexivity.
Qed.

(** The theorem on a backend whose voice manager reports failure. *)
Lemma voice_failure_stops_witness :
  @generate failing_backend default_closure
  = (default_prelude
     ++ [PrepareVoices [("type", "default"); ("voice_name", "mini")]
                       [("type", "default"); ("voice_name", "max")] "sk-1";
         Yield (error_event "clone rejected")],
     Return tt).
Proof.
  apply (@voice_failure_stops failing_backend default_closure default_prelude
           "hello" [("type", "default"); ("voice_name", "mini")]
           [("type", "default"); ("voice_name", "max")]
           {| vr_success := false; vr_error := Some "clone rejected";
              vr_logs := ["uploading sample"]; vr_trace_ids := None;
              vr_speaker1 := None; vr_speaker2 := None |}
           "clone rejected"); reflexivity.
Defined.

(** The theorem on the sample backend, one of whose two trace ids is
    empty. *)
Lemma voice_success_runs_the_podcast_witness :
  @generate Sample.backend default_closure
  = (default_prelude
     ++ (PrepareVoices [("type", "default"); ("voice_name", "mini")]
                       [("type", "default"); ("voice_name", "max")] "sk-1"
         :: map (fun log => Yield (log_event log)) ["voices ready"]
         ++ trace_id_events [("speaker1_clone", JStr "t-1");
                             ("speaker2_clone", JNull)])
     ++ PodcastStream "hello" "voice-a" "voice-b" Sample.uuid_a "sk-1"
        :: map Yield
             (fst (@generate_podcast_stream Sample.backend "hello" "voice-a"
                     "voice-b" Sample.uuid_a "sk-1"))
     ++ [],
     Next tt).
Proof.
  apply (@voice_success_runs_the_podcast Sample.backend default_closure
           default_prelude "hello"
           [("type", "default"); ("voice_name", "mini")]
           [("type", "default"); ("voice_name", "max")]
           {| vr_success := true; vr_error := None;
              vr_logs := ["voices ready"];
              vr_trace_ids := Some [("speaker1_clone", JStr "t-1");
                                    ("speaker2_clone", JNull)];
              vr_speaker1 := Some "voice-a"; vr_speaker2 := Some "voice-b" |}
           "voice-a" "voice-b"); reflexivity.
Defined.

(* ================================================================== *)
(** ** Further properties: the JSON endpoints always answer *)
(* ================================================================== *)

Lemma failure_is_response msg : is_response (failure msg).
Proof. now exists [("success", JBool false); ("error", JStr msg)], false. Qed.

Section Answers.

Context {B : Backend}.

Lemma answering_ret {A : Type} (a : A) : answering (ret (R:=json) a).
Proof. exact I. Qed.

Lemma answering_call {A : Type} c (r : result A) :
  answering (call (R:=json) c r).
Proof. unfold answering. destruct r; exact I. Qed.

Lemma answering_save path f : answering (save (R:=json) path f).
Proof. unfold answering, save. destruct (write_file path f); exact I. Qed.

Lemma answering_return {A : Type} j :
  is_response j -> answering (return_ (A:=A) j).
Proof. intros H. exact H. Qed.

Lemma answered_return {A : Type} j :
  is_response j -> answered (return_ (A:=A) j).
Proof. intros H. exact H. Qed.

Lemma answering_bind {A C : Type} (m : M json A) (k : A -> M json C) :
  answering m -> (forall a, answering (k a)) -> answering (bind m k).
Proof.
  unfold answering. rewrite bind_unfold.
  destruct (snd m) as [a|j|msg]; cbn [snd]; intros Hm Hk;
    [apply Hk | exact Hm | exact I].
Qed.

Lemma answered_bind {A C : Type} (m : M json A) (k : A -> M json C) :
  answering m -> (forall a, answered (k a)) -> answered (bind m k).
Proof.
  unfold answering, answered. rewrite bind_unfold.
  destruct (snd m) as [a|j|msg]; cbn [snd]; intros Hm Hk;
    [apply Hk | exact Hm | exact I].
Qed.

(** A handler whose [try] block is answered answers. *)
Lemma try_except_answers (body : M json json) (h : string -> json) :
  answered body -> (forall msg, is_response (h msg)) ->
  exists t j,
    try_except body (fun e => return_ (h e)) = (t, Return j) /\ is_response j.
Proof.
  unfold answered, try_except. intros Hb Hh.
  destruct body as [t [a|j|msg]]; cbn [snd] in Hb.
  - contradiction.
  - eauto.
  - cbn [return_]. eauto.
Qed.

End Answers.

Ltac answer :=
  repeat first
    [ apply answered_return; solve [apply failure_is_response
                                   | repeat eexists; reflexivity]
    | apply answering_return; solve [apply failure_is_response
                                    | repeat eexists; reflexivity]
    | apply answering_ret
    | apply answering_call
    | apply answering_save
    | apply answered_bind; [|intros]
    | apply answering_bind; [|intros]
    | match goal with
      | |- answered (if ?b then _ else _) => destruct b
      | |- answered (match ?x with _ => _ end) => destruct x
      | |- answering (if ?b then _ else _) => destruct b
      | |- answering (match ?x with _ => _ end) => destruct x
      | |- answered (let _ := _ in _) => cbv zeta
      end ].

(** X11.  The three JSON endpoints always answer: whatever the request
    holds and whatever the helper modules return or raise, each of
    [/api/upload_audio], [/api/clone-voice] and [/api/parse-content] ends
    by returning a JSON object with a boolean ['success'] entry, never by
    an exception. *)
Theorem json_endpoints_always_answer {B : Backend} (req : request)
    (uuid4 : string) (now : N) :
  (exists t j, upload_audio req uuid4 now = (t, Return j) /\ is_response j) /\
  (exists t j, clone_voice req = (t, Return j) /\ is_response j) /\
  (exists t j, parse_content req now = (t, Return j) /\ is_response j).
Proof.
  split; [|split].
  - unfold upload_audio. apply try_except_answers;
      [|apply failure_is_response]. answer.
  - unfold clone_voice. apply try_except_answers;
      [|apply failure_is_response]. answer.
  - unfold parse_content.
    apply (try_except_answers _ (fun e => failure ("服务器错误: " ++ e)));
      [|intros; apply failure_is_response]. answer.
Qed.

(* ================================================================== *)
(** ** Further properties: recordings *)
(* ================================================================== *)

(** X12.  [/api/upload_audio] saves a file exactly when it answers with
    success.  One of three things happens: the audio slot holds a file
    with a non-empty name and the write succeeds, one file is saved and
    the answer reports success with the path it was saved under; or the
    write raises, nothing is saved and the answer is a failure with the
    message of the exception; or the slot holds no such file, nothing is
    written and the answer is a failure. *)
Theorem upload_audio_writes_iff_success {B : Backend} (req : request)
    (uuid4 : string) (now : N) :
  (exists f path name,
     Py.get "audio" (files req) = Some f /\ file_truthy f = true /\
     write_file path f = Ok tt /\
     upload_audio req uuid4 now
     = ([Save path f],
        Return (JObj [("success", JBool true); ("filepath", JStr path);
                      ("filename", JStr name)]))) \/
  (exists f path msg,
     Py.get "audio" (files req) = Some f /\ file_truthy f = true /\
     write_file path f = Raise msg /\
     upload_audio req uuid4 now = ([], Return (failure msg))) \/
  ((forall f, Py.get "audio" (files req) = Some f -> file_truthy f = false) /\
   exists msg, upload_audio req uuid4 now = ([], Return (failure msg))).
Proof.
  unfold upload_audio.
  destruct (Py.get "audio" (files req)) as [f|].
  - destruct (file_truthy f) eqn:T.
    + cbn [negb]. unfold save.
      match goal with
      | |- context [write_file ?p f] =>
          destruct (write_file p f) as [[]|msg] eqn:W
      end.
      * left. exists f. eexists _, _. split; [reflexivity|].
        split; [exact T|]. split; [exact W|]. reflexivity.
      * right; left. exists f. eexists _, msg. split; [reflexivity|].
        split; [exact T|]. split; [exact W|]. reflexivity.
    + right; right. split; [now intros ? [= <-] | eexists; reflexivity].
  - right; right. split; [discriminate | eexists; reflexivity].
Qed.




Lemma str_of_N_relative n rest :
  Py.starts_with "/" (Py.str_of_N n ++ rest) = false.
Proof.
  unfold Py.str_of_N, Py.starts_with, NilZero.string_of_uint.
  destruct (N.to_uint n); reflexivity.
Qed.

(** Names without a path separator. *)

Lemma contains_char_append c a b :
  Py.contains_char c (a ++ b)
  = orb (Py.contains_char c a) (Py.contains_char c b).
Proof.
  induction a as [|x a IH]; [reflexivity|].
  cbn [append Py.contains_char]. now rewrite IH, orb_assoc.
Qed.

Lemma flat_no_slash s : Py.contains_char "/" (Sample.flat s) = false.
Proof.
  induction s as [|a s IH]; [reflexivity|].
  cbn [Sample.flat Py.contains_char]. rewrite IH, orb_false_r.
  destruct (Ascii.eqb a "/") eqn:E; [reflexivity | exact E].
Qed.

Lemma digits_no_slash d :
  Py.contains_char "/" (NilEmpty.string_of_uint d) = false.
Proof.
  induction d as [|d IH|d IH|d IH|d IH|d IH|d IH|d IH|d IH|d IH|d IH];
    [reflexivity|..];
    cbn [NilEmpty.string_of_uint Py.contains_char]; rewrite IH; reflexivity.
Qed.

Lemma str_of_N_no_slash n : Py.contains_char "/" (Py.str_of_N n) = false.
Proof.
  unfold Py.str_of_N, NilZero.string_of_uint.
  destruct (N.to_uint n); [reflexivity|..]; apply digits_no_slash.
Qed.

Lemma uuid_chars_no_slash l pos :
  uuid_chars pos l = true ->
  Py.contains_char "/" (string_of_list_ascii l) = false.
Proof.
  revert pos. induction l as [|a l IH]; intros pos H; [reflexivity|].
  cbn [uuid_chars] in H. apply andb_prop in H as [Ha Hl].
  cbn [string_of_list_ascii Py.contains_char].
  rewrite (IH _ Hl), orb_false_r.
  destruct (Ascii.eqb_spec a "/") as [->|]; [|reflexivity].
  destruct (orb _ _); discriminate.
Qed.

Lemma uuid_shaped_no_slash s :
  uuid_shaped s = true -> Py.contains_char "/" s = false.
Proof.
  unfold uuid_shaped. intros H. apply uuid_chars_no_slash in H.
  now rewrite string_of_list_ascii_of_string in H.
Qed.

Section ParseContentFiles.

Context {B : Backend}.

(** The one file [/api/parse-content] writes. *)
Lemma parse_content_saves_origin req now path f :
  In (Save path f) (trace (parse_content req now)) ->
  path = Py.path_join UPLOAD_DIR
           (Py.str_of_N now ++ "_" ++ secure_filename (filename f)).
Proof.
  intros Hin.
  assert (H : only (fun e =>
                      match e with
                      | Save p g =>
                          p = Py.path_join UPLOAD_DIR
                                (Py.str_of_N now ++ "_"
                                 ++ secure_filename (filename g))
                      | _ => True
                      end)
                   (parse_content req now)).
  { unfold parse_content. effects_with ltac:(cbn; eauto). }
  unfold only in H. rewrite Forall_forall in H. exact (H _ Hin).
Qed.

End ParseContentFiles.

(** X14.  With a [secure_filename] that leaves no path separator in a
    name, the uploads of the other two saving endpoints are files of the
    upload directory itself.  [/api/parse-content] saves the PDF as
    [<timestamp>_<secured name>]; [/api/generate_podcast], for a session id
    of the form of a UUID, saves the PDF as [<uuid>_<secured name>] and the
    audio of a speaker as [<uuid>_<speaker>_<secured name>].  In both the
    name has no separator and is joined to [UPLOAD_DIR] as a relative
    name. *)
Theorem uploads_stay_under_upload_dir {B : Backend} :
  (forall s, Py.contains_char "/" (secure_filename s) = false) ->
  (forall req now path f,
     In (Save path f) (trace (parse_content req now)) ->
     let name :=
       (Py.str_of_N now ++ "_" ++ secure_filename (filename f))%string in
     path = (dir_prefix UPLOAD_DIR ++ name)%string /\
     Py.contains_char "/" name = false) /\
  (forall req uuid4 path f,
     uuid_shaped uuid4 = true ->
     In (Save path f) (trace (generate_podcast req uuid4)) ->
     exists slot,
       In slot [""; "speaker1_"; "speaker2_"] /\
       let name :=
         (uuid4 ++ "_" ++ slot ++ secure_filename (filename f))%string in
       path = (dir_prefix UPLOAD_DIR ++ name)%string /\
       Py.contains_char "/" name = false).
Proof.
  intros Secure. split.
  - intros req now path f Hin name.
    rewrite (parse_content_saves_origin _ _ _ _ Hin). fold name. split.
    + apply path_join_relative, str_of_N_relative.
    + unfold name. rewrite !contains_char_append, str_of_N_no_slash, Secure.
      reflexivity.
  - intros req uuid4 path f U Hin.
    assert (N : forall slot,
              Py.contains_char "/" slot = false ->
              Py.contains_char "/"
                (uuid4 ++ "_" ++ slot ++ secure_filename (filename f))
              = false).
    { intros slot Hs.
      rewrite !contains_char_append, (uuid_shaped_no_slash _ U), Hs, Secure.
      reflexivity. }
    destruct (saves_origin req uuid4 path f Hin)
      as [(_ & _ & ->)|(tag & [-> | ->] & _ & _ & _ & ->)].
    + exists "". split; [now left|]. split.
      * apply path_join_relative, uuid_shaped_relative, U.
      * now apply N.
    + exists "speaker1_". split; [right; now left|]. split.
      * apply (path_join_relative UPLOAD_DIR), uuid_shaped_relative, U.
      * now apply N.
    + exists "speaker2_". split; [right; right; now left|]. split.
      * apply (path_join_relative UPLOAD_DIR), uuid_shaped_relative, U.
      * now apply N.
Qed.

(** The theorem on a PDF sent to [/api/parse-content] and on an upload of
    the sample request. *)
Lemma uploads_stay_under_upload_dir_witness :
  ("uploads/7_paper.pdf"
   = (dir_prefix (@UPLOAD_DIR Sample.backend) ++ Py.str_of_N 7 ++ "_"
      ++ @secure_filename Sample.backend (filename Sample.paper))%string /\
   Py.contains_char "/"
     (Py.str_of_N 7 ++ "_"
      ++ @secure_filename Sample.backend (filename Sample.paper))
   = false) /\
  (exists slot,
     In slot [""; "speaker1_"; "speaker2_"] /\
     "uploads/0b0e3a52-6c1f-4a7e-9d0b-5f2f3c1a9e10_speaker1_me.WAV"
     = (dir_prefix (@UPLOAD_DIR Sample.backend) ++ Sample.uuid_a ++ "_"
        ++ slot ++ @secure_filename Sample.backend (filename Sample.wav))
       %string /\
     Py.contains_char "/"
       (Sample.uuid_a ++ "_" ++ slot
        ++ @secure_filename Sample.backend (filename Sample.wav))
     = false).
Proof.
  split.
  - apply (proj1 (@uploads_stay_under_upload_dir Sample.backend
                    flat_no_slash)
             pdf_parse_request 7%N _ Sample.paper).
    vm_compute. auto.
  - apply (proj2 (@uploads_stay_under_upload_dir Sample.backend
                    flat_no_slash)
             Sample.full_request Sample.uuid_a _ Sample.wav eq_refl).
    vm_compute. auto.
Defined.

(* ================================================================== *)
(** ** Further properties: cloning *)
(* ================================================================== *)


(** X16.  When the voice manager reports success, the answer of
    [/api/clone-voice] names the voice of the slot the file was cloned
    into: the first voice id for ['speaker1'], the second one for every
    other value of [speaker]; the two trace ids are looked up under
    [<speaker>_upload] and [<speaker>_clone], and are null when absent. *)
Theorem clone_voice_reports_the_cloned_voice {B : Backend} (req : request)
    (data : list (string * string)) (filepath : string) (r : voices_result) :
  json_body req = Some data ->
  data <> [] ->
  Py.if_set (Py.get "filepath" data) = Some filepath ->
  path_exists filepath = true ->
  (if String.eqb (Py.get_default "speaker" "unknown" data) "speaker1"
   then prepare_voices (clone_config filepath) DEFAULT_MINI (clone_key req)
   else prepare_voices DEFAULT_MINI (clone_config filepath) (clone_key req))
  = Ok r ->
  vr_success r = true ->
  let speaker := Py.get_default "speaker" "unknown" data in
  let trace_ids := match vr_trace_ids r with Some d => d | None => [] end in
  snd (clone_voice req)
  = Return
      (JObj [("success", JBool true);
             ("voice_id",
              json_of_opt (if String.eqb speaker "speaker1"
                           then vr_speaker1 r else vr_speaker2 r));
             ("upload_trace_id",
              Py.get_default (speaker ++ "_upload") JNull trace_ids);
             ("clone_trace_id",
              Py.get_default (speaker ++ "_clone") JNull trace_ids)]).
Proof.
  intros J N F P V S. cbv zeta.
  unfold clone_voice, clone_key in *. rewrite J in *.
  destruct data as [|kv data]; [contradiction|].
  cbv beta iota. set (d := kv :: data) in *.
  rewrite F, P. cbn [negb]. cbv zeta. rewrite bind_unfold.
  unfold clone_config in V.
  destruct (Py.truthy (Py.get_default "api_key" "" d));
    destruct (String.eqb (Py.get_default "speaker" "unknown" d) "speaker1");
    cbn [negb call fst snd] in *; rewrite V;
    cbn [fst snd]; rewrite S; reflexivity.
Qed.

(** The theorem on a clone request that names no speaker. *)
Lemma clone_voice_reports_the_cloned_voice_witness :
  snd (@clone_voice Sample.backend unknown_speaker_clone_request)
  = Return
      (JObj [("success", JBool true);
             ("voice_id", JStr "voice-b");
             ("upload_trace_id", JNull);
             ("clone_trace_id", JNull)]).
Proof.
  exact (@clone_voice_reports_the_cloned_voice Sample.backend
           unknown_speaker_clone_request
           [("filepath", "uploads/shared_speaker1_7.wav"); ("api_key", "sk-1")]
           "uploads/shared_speaker1_7.wav"
           {| vr_success := true; vr_error := None;
              vr_logs := ["voices ready"];
              vr_trace_ids := Some [("speaker1_clone", JStr "t-1");
                                    ("speaker2_clone", JNull)];
              vr_speaker1 := Some "voice-a"; vr_speaker2 := Some "voice-b" |}
           eq_refl ltac:(discriminate) eq_refl eq_refl eq_refl eq_refl).
Defined.

(* ================================================================== *)
(** ** Further properties: [/api/parse-content] *)
(* ================================================================== *)

Lemma bind_ret {R A C : Type} (a : A) (k : A -> M R C) : bind (ret a) k = k a.
Proof. unfold bind, ret. now destruct (k a). Qed.

(** X17.  In [/api/parse-content] a URL the parser reports failure for
    ends the request at once: the answer is a failure with the parser's
    error (or a default message when it gives none), and an attached PDF is
    neither saved nor parsed. *)
Theorem parse_content_url_failure_ends_the_request {B : Backend}
    (req : request) (now : N) (data : list (string * string))
    (r : parse_result) :
  json_body req = Some data ->
  Py.truthy (Py.get_default "url_input" "" data) = true ->
  parse_url (Py.get_default "url_input" "" data) = Ok r ->
  pr_success r = false ->
  parse_content req now
  = ([ParseUrl (Py.get_default "url_input" "" data)],
     Return (failure (match pr_error r with
                      | Some e => e
                      | None => "网址解析失败"
                      end))).
Proof.
  intros J T P S. unfold parse_content. rewrite J. cbv zeta.
  rewrite T, !bind_unfold. cbn [call fst snd]. rewrite P. cbn [fst snd].
  rewrite S. reflexivity.
Qed.

(** The theorem on the sample parse request. *)
Lemma parse_content_url_failure_ends_the_request_witness :
  @parse_content Sample.backend Sample.parse_request 7
  = ([ParseUrl "http://example.org"], Return (failure "unreachable")).
Proof.
  exact (@parse_content_url_failure_ends_the_request Sample.backend
           Sample.parse_request 7
           [("text_input", "hello"); ("url_input", "http://example.org")]
           Sample.url_failure eq_refl eq_refl eq_refl eq_refl).
Defined.

(** X18.  [/api/parse-content] tests the merged content for emptiness
    only: for a request with a text, no URL and no file, every non-empty
    answer of [merge_contents] is returned with success, the no-content
    sentinel that [generate] treats as missing content included. *)
Theorem parse_content_accepts_any_non_empty_merge {B : Backend}
    (req : request) (now : N) (m : string) :
  let data := match json_body req with Some d => d | None => [] end in
  Py.truthy (Py.get_default "url_input" "" data) = false ->
  Py.get "file" (files req) = None ->
  merge_contents (Py.get_default "text_input" "" data) "" "" = Ok m ->
  m <> "" ->
  parse_content req now
  = ([MergeContents (Py.get_default "text_input" "" data) "" ""],
     Return (JObj [("success", JBool true);
                   ("content", JStr m);
                   ("message",
                    JStr ("内容解析完成，共 "
                          ++ Py.str_of_N (N.of_nat (Py.len m))
                          ++ " 字符"))])).
Proof.
  intros data T F Mg Ne. unfold parse_content. fold data. cbv zeta.
  rewrite T, F, !bind_ret, bind_unfold. cbn [call fst snd]. rewrite Mg.
  cbn [fst snd]. destruct m as [|a m]; [contradiction|]. reflexivity.
Qed.

(** The theorem on a request with nothing in it, whose merge is the
    sentinel. *)
Lemma parse_content_accepts_any_non_empty_merge_witness :
  @parse_content Sample.backend empty_parse_request 7
  = ([MergeContents "" "" ""],
     Return (JObj [("success", JBool true);
                   ("content", JStr NO_CONTENT);
                   ("message",
                    JStr ("内容解析完成，共 "
                          ++ Py.str_of_N (N.of_nat (Py.len NO_CONTENT))
                          ++ " 字符"))])).
Proof.
  apply (@parse_content_accepts_any_non_empty_merge Sample.backend
           empty_parse_request 7 NO_CONTENT eq_refl eq_refl eq_refl).
  discriminate.
Defined.

(** X19.  For a request that is not JSON, [/api/parse-content] reads
    neither a text nor a URL: whatever the form holds, no URL is fetched
    and the merge is called with an empty text and an empty URL content,
    so that only the attached PDF can contribute. *)
Theorem parse_content_reads_no_form {B : Backend} (req : request) (now : N) :
  json_body req = None ->
  only multipart_effect (parse_content req now).
Proof.
  intros J. unfold parse_content. rewrite J. cbv zeta.
  change (Py.truthy (Py.get_default "url_input" "" [])) with false.
  change (Py.get_default "text_input" "" (@nil (string * string))) with "".
  cbv iota. apply only_try_except; [|intros; apply only_return].
  rewrite bind_ret.
  effects_with ltac:(simpl; auto).
Qed.

(** The theorem on a multipart request whose form names a URL. *)
Lemma parse_content_reads_no_form_witness :
  only multipart_effect (@parse_content Sample.backend pdf_parse_request 7).
Proof.
  exact (@parse_content_reads_no_form Sample.backend pdf_parse_request 7
           eq_refl).
Defined.

(* ================================================================== *)
(** ** Further properties: the first event *)
(* ================================================================== *)

(** X20.  A request to [/api/generate_podcast] whose uploads are written
    has a stream that is not empty, and the first event tells which way the
    request went: the error for the missing key, or the progress event of
    step ['parsing_content'].  Every upload is saved before that event and
    none after it, and the event comes before any parser is called.  When
    the write of an upload raises there is no stream: the handler has only
    saved the uploads before that one, and ends with the exception. *)
Theorem stream_first_event {B : Backend} (req : request) (uuid4 : string) :
  (exists uploads rest,
     Forall is_save uploads /\
     Forall (fun e => ~ is_save e) rest /\
     (forall msg, snd (generate_podcast req uuid4) <> Raised msg) /\
     trace (generate_podcast req uuid4)
     = uploads
       ++ Yield (if Py.truthy (Py.strip (Py.get_default "api_key" ""
                                           (form req)))
                 then PARSING else error_event "未提供 API Key")
       :: rest) \/
  (exists uploads msg,
     Forall is_save uploads /\
     Py.truthy (Py.strip (Py.get_default "api_key" "" (form req))) = true /\
     extract req uuid4 (Py.strip (Py.get_default "api_key" "" (form req)))
     = (uploads, Raised msg) /\
     generate_podcast req uuid4 = (uploads, Raised msg)).
Proof.
  unfold trace. destruct (key_missing_or_truthy req) as [K|K].
  - left. rewrite (generate_podcast_no_key uuid4 K).
    unfold api_key_missing in K. rewrite K.
    exists [], []. repeat split; try constructor. discriminate.
  - destruct (generate_podcast_unfold req uuid4 K)
      as [(ts & c & _ & Hs & E)|(ts & msg & Ex & Hs & E)].
    2: { right. exists ts, msg. auto. }
    left. rewrite E, K. cbn [fst snd]. exists ts.
    assert (NR : forall msg, snd (generate c) <> Raised msg).
    { intros msg. rewrite generate_unfold.
      destruct (generate_body c) as [t [[]|[]|e]]; simpl; discriminate. }
    assert (NS : Forall (fun e => ~ is_save e) (fst (generate c))).
    { apply Forall_forall. intros e Hin.
      destruct (generate_effects c _ Hin) as [G|[msg ->]]; [|exact (fun H => H)].
      destruct e; simpl in *; tauto. }
    destruct (before_voices_unfold c) as (t1 & t2 & Et & _).
    assert (Hd : exists rest, fst (generate c) = Yield PARSING :: rest).
    { rewrite generate_unfold, generate_body_split, bind_unfold, Et.
      destruct (snd (before_voices c)) as [x|r|msg]; cbn [fst snd].
      - destruct (bind _ _) as [t [a|r|msg]]; cbn [fst]; eexists; reflexivity.
      - eexists; reflexivity.
      - eexists; reflexivity. }
    destruct Hd as [rest Hd]. exists rest. rewrite Hd in NS |- *.
    repeat split; auto. now inversion NS.
Qed.

(* ================================================================== *)
(** ** Further properties: the order of the helper calls *)
(* ================================================================== *)

Lemma call_stages_app t t' :
  call_stages (t ++ t') = call_stages t ++ call_stages t'.
Proof.
  induction t as [|e t IH]; [reflexivity|]. simpl.
  destruct (call_stage e); simpl; now rewrite IH.
Qed.

Lemma call_stages_yields {A : Type} (f : A -> json) l :
  call_stages (map (fun x => Yield (f x)) l) = [].
Proof. induction l as [|x l IH]; [reflexivity | exact IH]. Qed.

Lemma call_stages_saves t : Forall is_save t -> call_stages t = [].
Proof.
  induction 1 as [|e t He _ IH]; [reflexivity|].
  destruct e; try contradiction. exact IH.
Qed.

Lemma staged_weaken lo lo' hi hi' l :
  lo' <= lo -> hi <= hi' -> staged lo hi l -> staged lo' hi' l.
Proof.
  revert lo lo'. induction l as [|n l IH]; [trivial|].
  intros lo lo' Hlo Hhi (A & C & D). simpl. repeat split; try lia.
  apply (IH (S n) (S n)); [lia | exact Hhi | exact D].
Qed.

Lemma staged_app lo mid hi l l' :
  staged lo mid l -> staged mid hi l' -> lo <= mid -> mid <= hi ->
  staged lo hi (l ++ l').
Proof.
  revert lo. induction l as [|n l IH]; simpl; intros lo Hl Hl' Hlo Hm.
  - apply (staged_weaken (lo:=mid) (hi:=hi)); auto.
  - destruct Hl as (A & C & D). repeat split; try lia.
    apply IH; auto; lia.
Qed.

Section Quiet.

Context {R : Type}.

Lemma quiet_ret {A : Type} (a : A) : quiet (ret (R:=R) a).
Proof. reflexivity. Qed.

Lemma quiet_return {A : Type} (r : R) : quiet (return_ (A:=A) r).
Proof. reflexivity. Qed.

Lemma quiet_raise {A : Type} msg : quiet (raise (R:=R) (A:=A) msg).
Proof. reflexivity. Qed.

Lemma quiet_item {A : Type} key (o : option A) : quiet (item (R:=R) key o).
Proof. destruct o; reflexivity. Qed.

Lemma quiet_yield e : quiet (yield (R:=R) e).
Proof. reflexivity. Qed.

Lemma quiet_bind {A C : Type} (m : M R A) (k : A -> M R C) :
  quiet m -> (forall a, quiet (k a)) -> quiet (bind m k).
Proof.
  unfold quiet. intros Hm Hk. rewrite bind_unfold.
  destruct (snd m) as [a|r|e]; cbn [fst]; try exact Hm.
  now rewrite call_stages_app, Hm, Hk.
Qed.

Lemma quiet_for_each {A : Type} (l : list A) (body : A -> M R unit) :
  (forall x, quiet (body x)) -> quiet (for_each l body).
Proof.
  intros H. induction l as [|x l IH]; [reflexivity|].
  cbn [for_each]. apply quiet_bind; [apply H | intros _; exact IH].
Qed.

(** A quiet block in front of a staged one. *)
Lemma staged_after_quiet {A C : Type} lo hi (m : M R A) (k : A -> M R C) :
  quiet m -> (forall a, staged lo hi (call_stages (fst (k a)))) ->
  staged lo hi (call_stages (fst (bind m k))).
Proof.
  unfold quiet. intros Hm Hk. rewrite bind_unfold.
  destruct (snd m) as [a|r|e]; cbn [fst]; rewrite ?call_stages_app, Hm;
    [apply Hk | exact I | exact I].
Qed.

(** A helper call in front of a block of the later stages. *)
Lemma staged_after_call {A C : Type} lo hi n c (r : result A)
    (k : A -> M R C) :
  call_stage c = Some n -> lo <= n -> n < hi ->
  (forall a, staged (S n) hi (call_stages (fst (k a)))) ->
  staged lo hi (call_stages (fst (bind (call c r) k))).
Proof.
  intros Hc Hlo Hhi Hk. rewrite bind_unfold. unfold call.
  destruct r as [a|msg]; cbn [fst snd]; simpl; rewrite Hc; simpl;
    repeat split; auto.
Qed.

(** Two staged blocks, one after the other. *)
Lemma staged_bind {A C : Type} lo mid hi (m : M R A) (k : A -> M R C) :
  staged lo mid (call_stages (fst m)) ->
  (forall a, staged mid hi (call_stages (fst (k a)))) ->
  lo <= mid -> mid <= hi ->
  staged lo hi (call_stages (fst (bind m k))).
Proof.
  intros Hm Hk L1 L2. rewrite bind_unfold.
  destruct (snd m) as [a|r|e]; cbn [fst].
  - rewrite call_stages_app. now apply (staged_app (mid:=mid)).
  - apply (staged_weaken (lo:=lo) (hi:=mid)); auto.
  - apply (staged_weaken (lo:=lo) (hi:=mid)); auto.
Qed.

Lemma staged_quiet {A : Type} lo hi (m : M R A) :
  quiet m -> staged lo hi (call_stages (fst m)).
Proof. unfold quiet. now intros ->. Qed.

End Quiet.

Ltac hush :=
  repeat first
    [ apply quiet_ret | apply quiet_return | apply quiet_raise
    | apply quiet_item | apply quiet_yield
    | apply quiet_for_each; intros
    | apply quiet_bind; [|intros]
    | match goal with
      | |- quiet (if ?b then _ else _) => destruct b
      | |- quiet (match ?x with _ => _ end) => destruct x
      end ].

Ltac stage :=
  repeat first
    [ apply staged_quiet; solve [hush]
    | eapply staged_after_call; [reflexivity | lia | lia | intros]
    | apply staged_after_quiet; [solve [hush] | intros]
    | match goal with
      | |- staged _ _ (call_stages (fst (if ?b then _ else _))) => destruct b
      | |- staged _ _ (call_stages (fst (match ?x with _ => _ end))) =>
          destruct x
      end ].

Section Order.

Context {B : Backend}.

Lemma generate_body_staged c :
  staged 0 5 (call_stages (fst (generate_body c))).
Proof.
  unfold generate_body.
  apply (staged_bind (mid:=3)); [| |lia|lia].
  - unfold content_steps. apply staged_after_quiet; [hush|intros _].
    apply (staged_bind (mid:=1)); [| |lia|lia].
    { unfold parse_pdf_step. stage. }
    intros p. apply (staged_bind (mid:=2)); [| |lia|lia].
    { unfold parse_url_step. stage. }
    intros u. unfold merge_step. stage.
  - intros m. apply (staged_bind (mid:=3)); [| |lia|lia].
    { apply staged_quiet. unfold config_steps, speaker_config_step. hush. }
    intros cfgs. apply (staged_bind (mid:=4)); [| |lia|lia].
    { unfold prepare_voices_step. stage. }
    intros ids. unfold podcast_step, for_stream. stage.
Qed.

End Order.

(** X21.  The helper modules are called in the order of the pipeline and
    each at most once per request: the PDF parser (stage 0), the URL parser
    (1), the merge (2), the voice manager (3), the podcast generator (4);
    there is no retry and no call out of turn. *)
Theorem helper_calls_in_pipeline_order {B : Backend} (req : request)
    (uuid4 : string) :
  staged 0 5 (call_stages (trace (generate_podcast req uuid4))).
Proof.
  unfold trace. destruct (key_missing_or_truthy req) as [K|K].
  - rewrite (generate_podcast_no_key uuid4 K). exact I.
  - destruct (generate_podcast_unfold req uuid4 K)
      as [(ts & c & _ & Hs & ->)|(ts & msg & _ & Hs & ->)]; cbn [fst].
    2: { rewrite (call_stages_saves Hs). exact I. }
    rewrite call_stages_app, (call_stages_saves Hs).
    rewrite generate_unfold. pose proof (generate_body_staged c) as S.
    destruct (generate_body c) as [t [a|r|msg]]; cbn [fst app] in *;
      try exact S.
    rewrite call_stages_app. cbn. now rewrite app_nil_r.
Qed.
